(** * CFDI analyzer: extraction, classification, batch scan and KPI engine

    A shallow embedding of the core of the CFDI analyzer
    ([app/models.py], [app/classifier.py], [app/parser_cfdi.py],
    [app/scanner.py], [app/kpis.py], [app/utils.py]) and the properties
    of its specification that are settled on it.

    Layout:
    - [PyStr]: the [str] methods the code calls ([strip], [upper], ...);
    - [PyRuntime]: what the Python runtime supplies and the code only uses
      (binary64 arithmetic, [float(...)], [datetime.fromisoformat]);
    - the data model of [models.py];
    - [classify_cfdi], [parse_cfdi], [XMLScanner._run], [compute_kpis];
    - a binary64 instance of the runtime, used to run the code on the
      sample document of [tests/test_parser.py];
    - the theorems. *)

From Stdlib Require Import String Ascii List Bool Arith ZArith Lia Sorted.
From Stdlib Require Import Permutation NArith.
From Stdlib Require Import PrimFloat Uint63.
Import ListNotations.
Set Warnings "-register-all".
Local Open Scope string_scope.
Local Open Scope list_scope.

(** ** Python strings

    Text is modelled by [string] over the 7-bit ASCII range, where the
    methods below act as CPython's do; characters outside that range are
    left alone by [upper] and are never whitespace. *)

Module PyStr.

(** [c.isspace()] for one character: TAB, LF, VT, FF, CR, the four
    separators FS GS RS US, and the space. *)
Definition isspace (c : ascii) : bool :=
  let n := nat_of_ascii c in
  (((9 <=? n) && (n <=? 13)) || ((28 <=? n) && (n <=? 32)))%nat.

Definition upper_char (c : ascii) : ascii :=
  let n := nat_of_ascii c in
  if ((97 <=? n) && (n <=? 122))%nat then ascii_of_nat (n - 32) else c.

(** [s.upper()] *)
Fixpoint upper (s : string) : string :=
  match s with
  | EmptyString => EmptyString
  | String c s' => String (upper_char c) (upper s')
  end.

(** [s.lstrip()] *)
Fixpoint lstrip (s : string) : string :=
  match s with
  | EmptyString => EmptyString
  | String c s' => if isspace c then lstrip s' else s
  end.

(** [s.rstrip()] *)
Fixpoint rstrip (s : string) : string :=
  match s with
  | EmptyString => EmptyString
  | String c s' =>
      match rstrip s' with
      | EmptyString => if isspace c then EmptyString else String c EmptyString
      | r => String c r
      end
  end.

(** [s.strip()] *)
Definition strip (s : string) : string := rstrip (lstrip s).

(** [s.isspace()]: at least one character, and all of them whitespace. *)
Fixpoint all_space (s : string) : bool :=
  match s with
  | EmptyString => true
  | String c s' => isspace c && all_space s'
  end.

Definition str_isspace (s : string) : bool :=
  negb (s =? "") && all_space s.

(** [s.startswith(p)] *)
Definition startswith (s p : string) : bool := String.prefix p s.

(** [s.endswith("Z")], [s[:-1]] *)
Fixpoint endswith_char (s : string) (z : ascii) : bool :=
  match s with
  | EmptyString => false
  | String c EmptyString => Ascii.eqb c z
  | String _ s' => endswith_char s' z
  end.

Fixpoint drop_last (s : string) : string :=
  match s with
  | EmptyString => EmptyString
  | String _ EmptyString => EmptyString
  | String c s' => String c (drop_last s')
  end.

(** [s.split(sep, 1)]: [None] when [sep] does not occur, else the text
    before and after its first occurrence. *)
Fixpoint split_first (s : string) (sep : ascii) : option (string * string) :=
  match s with
  | EmptyString => None
  | String c s' =>
      if Ascii.eqb c sep then Some (EmptyString, s')
      else match split_first s' sep with
           | Some (a, b) => Some (String c a, b)
           | None => None
           end
  end.

(** Truth value of a string: [bool(s)]. *)
Definition truthy (s : string) : bool := negb (s =? "").

(** [x or y] on optional strings ([None] and [""] are falsy). *)
Definition or_else (x : option string) (y : option string) : option string :=
  match x with
  | Some s => if truthy s then x else y
  | None => y
  end.

(** [x or "literal"]: the result is always a string. *)
Definition or_str (x : option string) (d : string) : string :=
  match x with
  | Some s => if truthy s then s else d
  | None => d
  end.

End PyStr.

(** ** What the runtime supplies

    [datetime] values carry the fields of Python's [datetime.datetime]
    that the code reads or prints. *)

Record datetime : Type := mkDatetime {
  year : nat;
  month : nat;
  day : nat;
  hour : nat;
  minute : nat;
  second : nat
}.

(** Python's [float] with the operations the code applies to it, the
    conversion [float(s)] of a string ([None] when it raises
    [ValueError]) and [datetime.fromisoformat] ([None] when it raises
    [ValueError]).  The code is embedded over any such runtime; the
    binary64 one is [Float64] below. *)
Class PyRuntime : Type := {
  float : Type;
  float_zero : float;
  float_add : float -> float -> float;
  float_sub : float -> float -> float;
  float_lt : float -> float -> bool;
  float_of_str : string -> option float;
  fromisoformat : string -> option datetime
}.

(** Python dictionaries keep insertion order: association lists whose
    keys are pairwise distinct, updated in place or extended at the end. *)
Section Dict.
Context {K V : Type}.
Variable eqb : K -> K -> bool.

Definition dict : Type := list (K * V).

Fixpoint dict_get (d : dict) (k : K) : option V :=
  match d with
  | [] => None
  | (k', v) :: d' => if eqb k' k then Some v else dict_get d' k
  end.

Fixpoint dict_set (d : dict) (k : K) (v : V) : dict :=
  match d with
  | [] => [(k, v)]
  | (k', v') :: d' =>
      if eqb k' k then (k', v) :: d' else (k', v') :: dict_set d' k v
  end.

(** [d.get(k, default)] *)
Definition dict_get_default (d : dict) (k : K) (default : V) : V :=
  match dict_get d k with
  | Some v => v
  | None => default
  end.

End Dict.

Arguments dict : clear implicits.

Definition opt_str_eqb (a b : option string) : bool :=
  match a, b with
  | Some x, Some y => String.eqb x y
  | None, None => true
  | _, _ => false
  end.

(** ** Data model ([app/models.py]) *)

Module Concepto.
Section WithRuntime.
Context {RT : PyRuntime}.

Record t : Type := mk {
  uuid : string;
  clave_prod_serv : string;
  cantidad : float;
  clave_unidad : string;
  unidad : string;
  descripcion : string;
  valor_unitario : float;
  importe : float;
  descuento : float;
  impuestos_traslado : dict (option string) float;
  impuestos_retencion : dict (option string) float
}.

End WithRuntime.
End Concepto.

Module CFDI.
Section WithRuntime.
Context {RT : PyRuntime}.

Record t : Type := mk {
  uuid : string;
  fecha : option datetime;
  tipo : string;
  serie : string;
  folio : string;
  emisor_rfc : string;
  emisor_nombre : string;
  emisor_regimen : string;
  receptor_rfc : string;
  receptor_nombre : string;
  receptor_regimen : string;
  uso_cfdi : string;
  subtotal : float;
  descuento : float;
  total : float;
  moneda : string;
  tipo_cambio : float;
  forma_pago : string;
  metodo_pago : string;
  lugar_expedicion : string;
  iva_trasladado : float;
  isr_retenido : float;
  iva_retenido : float;
  ieps : float;
  num_conceptos : nat;
  version : string;
  warnings : list string;
  clasificacion : string
}.

(** [cfdi.clasificacion = clasif] *)
Definition set_clasificacion (c : t) (clasif : string) : t :=
  mk (uuid c) (fecha c) (tipo c) (serie c) (folio c)
     (emisor_rfc c) (emisor_nombre c) (emisor_regimen c)
     (receptor_rfc c) (receptor_nombre c) (receptor_regimen c) (uso_cfdi c)
     (subtotal c) (descuento c) (total c) (moneda c) (tipo_cambio c)
     (forma_pago c) (metodo_pago c) (lugar_expedicion c)
     (iva_trasladado c) (isr_retenido c) (iva_retenido c) (ieps c)
     (num_conceptos c) (version c) (warnings c) clasif.

End WithRuntime.
End CFDI.

(** ** Classifier ([app/classifier.py]) *)

Section Classifier.
Context {RT : PyRuntime}.

(** [classify_cfdi(cfdi, user_rfc)].  [None] is Python's [None]: a
    dataclass instance is always truthy, so [not cfdi] holds for [None]
    only, and [not user_rfc] holds for [None] and for [""].  The fields
    of a record are strings ([models.py]), on which [x or ""] is [x]. *)
Definition classify_cfdi (cfdi : option CFDI.t) (user_rfc : option string)
  : string :=
  match cfdi, user_rfc with
  | None, _ => "No clasificado"
  | _, None => "No clasificado"
  | Some c, Some u =>
      if negb (PyStr.truthy u) then "No clasificado"
      else
        let rfc_user := PyStr.upper (PyStr.strip u) in
        let emisor :=
          PyStr.upper (PyStr.strip (PyStr.or_str (Some (CFDI.emisor_rfc c)) "")) in
        let receptor :=
          PyStr.upper (PyStr.strip (PyStr.or_str (Some (CFDI.receptor_rfc c)) "")) in
        let tipo := PyStr.upper (PyStr.or_str (Some (CFDI.tipo c)) "") in
        if tipo =? "I" then
          if rfc_user =? emisor then "Ingresos"
          else if rfc_user =? receptor then "Egresos"
          else "No clasificado"
        else "No clasificado"
  end.

End Classifier.

(** ** XML trees as lxml presents them

    An element has its tag in Clark notation ([{uri}local], or [local]
    when it is in no namespace), its attributes and its element children
    in document order.  A parsed document is its root element together
    with [root.nsmap], the prefix map in scope at the root ([None] is
    the default namespace). *)

Inductive Element : Type :=
  mkElement (tag : string) (attrib : dict string string)
            (children : list Element).

Definition tag (e : Element) : string :=
  match e with mkElement t _ _ => t end.

Definition attrib (e : Element) : dict string string :=
  match e with mkElement _ a _ => a end.

Definition children (e : Element) : list Element :=
  match e with mkElement _ _ c => c end.

Record Document : Type := mkDocument {
  getroot : Element;
  root_nsmap : dict (option string) string
}.

(** [e.get(name)] *)
Definition get (e : Element) (name : string) : option string :=
  dict_get String.eqb (attrib e) name.

(** Exceptions that leave a function, and computations that may raise. *)
Inductive exn : Type :=
  | SyntaxError (msg : string).

Inductive result (A : Type) : Type :=
  | Ok (a : A)
  | Raise (e : exn).

Arguments Ok {A} a.
Arguments Raise {A} e.

Definition bind {A B : Type} (m : result A) (k : A -> result B) : result B :=
  match m with
  | Ok a => k a
  | Raise e => Raise e
  end.

Declare Scope result_scope.
Delimit Scope result_scope with result.
Notation "x <- m ;; k" := (bind m (fun x => k))
  (at level 61, m at next level, right associativity) : result_scope.

Local Open Scope result_scope.

(** A loop whose body may raise. *)
Fixpoint foldM {A S : Type} (f : S -> A -> result S) (l : list A) (s : S)
  : result S :=
  match l with
  | [] => Ok s
  | a :: l' => s' <- f s a ;; foldM f l' s'
  end.

(** The tag that the name [local] has in the namespace [uri].  lxml
    reads [{}local], which its path tokenizer builds for a prefix bound
    to the empty URI (a root that declares [xmlns=""]), as the name
    [local] in no namespace. *)
Definition clark (uri local : string) : string :=
  if uri =? "" then local else ("{" ++ uri ++ "}" ++ local)%string.

(** The one-step paths the parser uses, [prefix:local].  lxml's path
    tokenizer replaces the prefix by its URI in [namespaces] and raises
    [SyntaxError] when the prefix is not a key of it; a path without a
    prefix is taken as it is (the maps built by the parser never carry a
    default-namespace key). *)
Definition qualify (path : string) (namespaces : dict string string)
  : result string :=
  match PyStr.split_first path ":" with
  | Some (prefix, local) =>
      match dict_get String.eqb namespaces prefix with
      | Some uri => Ok (clark uri local)
      | None =>
          Raise (SyntaxError
                   ("prefix '" ++ prefix ++ "' not found in prefix map")%string)
      end
  | None => Ok path
  end.

(** [e.find(path, namespaces=...)]: the first child with that tag. *)
Definition find (e : Element) (path : string) (namespaces : dict string string)
  : result (option Element) :=
  q <- qualify path namespaces ;;
  Ok (List.find (fun ch => tag ch =? q) (children e)).

(** [e.findall(path, namespaces=...)]: the children with that tag. *)
Definition findall (e : Element) (path : string)
  (namespaces : dict string string) : result (list Element) :=
  q <- qualify path namespaces ;;
  Ok (List.filter (fun ch => tag ch =? q) (children e)).

(** ** Helpers of [app/utils.py] *)

Section Utils.
Context {RT : PyRuntime}.

(** [parse_iso_datetime(dt_str)] *)
Definition parse_iso_datetime (dt_str : string) : option datetime :=
  if negb (PyStr.truthy dt_str) then None
  else
    let dt_str :=
      if PyStr.endswith_char dt_str "Z" then PyStr.drop_last dt_str
      else dt_str in
    let dt_str :=
      match PyStr.split_first dt_str "." with
      | Some (before, _) => before
      | None => dt_str
      end in
    fromisoformat dt_str.

(** Decimal digits of [n], at least [width] of them (format [0<width>d]). *)
Fixpoint digits_aux (fuel n : nat) (acc : string) : string :=
  match fuel with
  | O => acc
  | S fuel' =>
      let acc' := String (ascii_of_nat (48 + n mod 10)) acc in
      if (n / 10 =? 0)%nat then acc' else digits_aux fuel' (n / 10) acc'
  end.

Definition digits (n : nat) : string := digits_aux (S n) n "".

Fixpoint zeros (k : nat) : string :=
  match k with
  | O => ""
  | S k' => String "0" (zeros k')
  end.

Definition format_0d (width n : nat) : string :=
  let d := digits n in
  (zeros (width - String.length d) ++ d)%string.

(** [month_key(date)] *)
Definition month_key (date : option datetime) : string :=
  match date with
  | None => ""
  | Some d => (format_0d 4 (year d) ++ "-" ++ format_0d 2 (month d))%string
  end.

End Utils.

(** ** Parser ([app/parser_cfdi.py]) *)

(** The four document-level accumulators of [parse_cfdi]. *)
Module Tot.
Section WithRuntime.
Context {RT : PyRuntime}.

Record t : Type := mk {
  iva_trasladado : float;
  isr_retenido : float;
  iva_retenido : float;
  ieps_total : float
}.

Definition zero : t := mk float_zero float_zero float_zero float_zero.

Definition add_iva_trasladado (a : t) (x : float) : t :=
  mk (float_add (iva_trasladado a) x) (isr_retenido a) (iva_retenido a)
     (ieps_total a).

Definition add_isr_retenido (a : t) (x : float) : t :=
  mk (iva_trasladado a) (float_add (isr_retenido a) x) (iva_retenido a)
     (ieps_total a).

Definition add_iva_retenido (a : t) (x : float) : t :=
  mk (iva_trasladado a) (isr_retenido a) (float_add (iva_retenido a) x)
     (ieps_total a).

Definition add_ieps_total (a : t) (x : float) : t :=
  mk (iva_trasladado a) (isr_retenido a) (iva_retenido a)
     (float_add (ieps_total a) x).

End WithRuntime.
End Tot.

Section Parser.
Context {RT : PyRuntime}.

(** [etree.parse(str(xml_path), parser).getroot()] on the files at hand:
    [None] stands for any exception raised there (no such file, not
    well-formed XML), which [parse_cfdi] catches. *)
Variable etree_parse : string -> option Document.

(** [_safe_float(value)] *)
Definition _safe_float (value : option string) : float :=
  match value with
  | Some s =>
      match float_of_str s with
      | Some x => x
      | None => float_zero
      end
  | None => float_zero
  end.

(** [{k if k else "cfdi": v for k, v in (root.nsmap or {}).items()}],
    then the fallback for [tfd]. *)
Definition ns_key (k : option string) : string :=
  match k with
  | Some s => if PyStr.truthy s then s else "cfdi"
  | None => "cfdi"
  end.

Definition build_nsmap (rnsmap : dict (option string) string)
  : dict string string :=
  let nsmap :=
    fold_left (fun d kv => dict_set String.eqb d (ns_key (fst kv)) (snd kv))
              rnsmap [] in
  match dict_get String.eqb nsmap "tfd" with
  | Some _ => nsmap
  | None =>
      dict_set String.eqb nsmap "tfd"
               "http://www.sat.gob.mx/TimbreFiscalDigital"
  end.

(** Body of the loop over the document-level [cfdi:Traslado] nodes. *)
Definition doc_traslado (acc : Tot.t) (traslado : Element) : Tot.t :=
  let impuesto := get traslado "Impuesto" in
  let importe := _safe_float (get traslado "Importe") in
  if opt_str_eqb impuesto (Some "002") then Tot.add_iva_trasladado acc importe
  else acc.

(** The [if/elif] chain shared by the document-level and the line-level
    loops over [cfdi:Retencion] nodes. *)
Definition acc_retencion (acc : Tot.t) (impuesto : option string)
  (importe : float) : Tot.t :=
  if opt_str_eqb impuesto (Some "001") then Tot.add_isr_retenido acc importe
  else if opt_str_eqb impuesto (Some "002") then
    Tot.add_iva_retenido acc importe
  else if opt_str_eqb impuesto (Some "003") then
    Tot.add_ieps_total acc importe
  else acc.

(** Body of the loop over the document-level [cfdi:Retencion] nodes. *)
Definition doc_retencion (acc : Tot.t) (retencion : Element) : Tot.t :=
  let impuesto := get retencion "Impuesto" in
  let importe := _safe_float (get retencion "Importe") in
  acc_retencion acc impuesto importe.

(** [d[k] = d.get(k, 0.0) + importe] *)
Definition dict_add (d : dict (option string) float) (k : option string)
  (importe : float) : dict (option string) float :=
  dict_set opt_str_eqb d k
    (float_add (dict_get_default opt_str_eqb d k float_zero) importe).

(** Body of the loop over one line item's [cfdi:Traslado] nodes: the
    state is the document-level accumulators and [c.impuestos_traslado]. *)
Definition line_traslado (st : Tot.t * dict (option string) float)
  (tr : Element) : Tot.t * dict (option string) float :=
  let '(acc, d) := st in
  let impuesto := get tr "Impuesto" in
  let importe := _safe_float (get tr "Importe") in
  let d' := dict_add d impuesto importe in
  if opt_str_eqb impuesto (Some "002") then
    (Tot.add_iva_trasladado acc importe, d')
  else if opt_str_eqb impuesto (Some "003") then
    (Tot.add_ieps_total acc importe, d')
  else (acc, d').

(** Body of the loop over one line item's [cfdi:Retencion] nodes. *)
Definition line_retencion (st : Tot.t * dict (option string) float)
  (rt : Element) : Tot.t * dict (option string) float :=
  let '(acc, d) := st in
  let impuesto := get rt "Impuesto" in
  let importe := _safe_float (get rt "Importe") in
  let d' := dict_add d impuesto importe in
  (acc_retencion acc impuesto importe, d').

(** The [if impuestos_node is not None:] block at document level. *)
Definition doc_impuestos (root : Element) (nsmap : dict string string)
  (acc : Tot.t) : result Tot.t :=
  impuestos_node <- find root "cfdi:Impuestos" nsmap ;;
  match impuestos_node with
  | None => Ok acc
  | Some node =>
      traslados <- find node "cfdi:Traslados" nsmap ;;
      acc1 <- match traslados with
              | None => Ok acc
              | Some tn =>
                  l <- findall tn "cfdi:Traslado" nsmap ;;
                  Ok (fold_left doc_traslado l acc)
              end ;;
      retenciones <- find node "cfdi:Retenciones" nsmap ;;
      match retenciones with
      | None => Ok acc1
      | Some rn =>
          l <- findall rn "cfdi:Retencion" nsmap ;;
          Ok (fold_left doc_retencion l acc1)
      end
  end.

(** One turn of the loop over the [cfdi:Concepto] nodes: the state is
    the accumulators and the list [concepts]. *)
Definition concepto_step (uuid : string) (nsmap : dict string string)
  (st : Tot.t * list Concepto.t) (concepto : Element)
  : result (Tot.t * list Concepto.t) :=
  let '(acc, concepts) := st in
  imp_node <- find concepto "cfdi:Impuestos" nsmap ;;
  r <- match imp_node with
       | None => Ok (acc, [], [])
       | Some node =>
           tras <- find node "cfdi:Traslados" nsmap ;;
           s1 <- match tras with
                 | None => Ok (acc, [])
                 | Some tn =>
                     l <- findall tn "cfdi:Traslado" nsmap ;;
                     Ok (fold_left line_traslado l (acc, []))
                 end ;;
           ret <- find node "cfdi:Retenciones" nsmap ;;
           s2 <- match ret with
                 | None => Ok (fst s1, [])
                 | Some rn =>
                     l <- findall rn "cfdi:Retencion" nsmap ;;
                     Ok (fold_left line_retencion l (fst s1, []))
                 end ;;
           Ok (fst s2, snd s1, snd s2)
       end ;;
  let '(acc', d_traslado, d_retencion) := r in
  let c :=
    Concepto.mk uuid
      (PyStr.or_str (get concepto "ClaveProdServ") "")
      (_safe_float (get concepto "Cantidad"))
      (PyStr.or_str (get concepto "ClaveUnidad") "")
      (PyStr.or_str (get concepto "Unidad") "")
      (PyStr.or_str (get concepto "Descripcion") "")
      (_safe_float (get concepto "ValorUnitario"))
      (_safe_float (get concepto "Importe"))
      (_safe_float (get concepto "Descuento"))
      d_traslado d_retencion in
  Ok (acc', concepts ++ [c]).

(** The [if conceptos_parent is not None:] block. *)
Definition conceptos (root : Element) (uuid : string)
  (nsmap : dict string string) (acc : Tot.t)
  : result (Tot.t * list Concepto.t) :=
  conceptos_parent <- find root "cfdi:Conceptos" nsmap ;;
  match conceptos_parent with
  | None => Ok (acc, [])
  | Some cp =>
      l <- findall cp "cfdi:Concepto" nsmap ;;
      foldM (concepto_step uuid nsmap) l (acc, [])
  end.

Definition warning_33 : string :=
  "⚠️ CFDI 3.3 detectado: procesado, pero se recomienda CFDI 4.0".

(** [x.get(name) if x is not None else ""] *)
Definition get_or_blank (x : option Element) (name : string) : option string :=
  match x with
  | Some e => get e name
  | None => Some ""
  end.

(** The document type as [parse_cfdi] reads it:
    [root.get("TipoDeComprobante") or root.get("TipoComprobante") or ""],
    uppercased. *)
Definition comprobante_tipo (root : Element) : string :=
  let tipo :=
    PyStr.or_str (PyStr.or_else (get root "TipoDeComprobante")
                                (get root "TipoComprobante")) "" in
  if PyStr.truthy tipo then PyStr.upper tipo else "".

(** [parse_cfdi(xml_path)]: [Ok (None, [])] is the rejection result,
    [Raise e] an exception that leaves the function. *)
Definition parse_cfdi (xml_path : string)
  : result (option CFDI.t * list Concepto.t) :=
  match etree_parse xml_path with
  | None => Ok (None, [])
  | Some doc =>
      let root := getroot doc in
      let nsmap := build_nsmap (root_nsmap doc) in
      let version :=
        PyStr.or_str (PyStr.or_else (get root "Version") (get root "version")) "" in
      let tipo := comprobante_tipo root in
      if tipo =? "P" then Ok (None, [])
      else
        complemento <- find root "cfdi:Complemento" nsmap ;;
        uuid <- match complemento with
                | None => Ok None
                | Some co =>
                    timbre <- find co "tfd:TimbreFiscalDigital" nsmap ;;
                    match timbre with
                    | None => Ok None
                    | Some ti => Ok (get ti "UUID")
                    end
                end ;;
        match uuid with
        | None => Ok (None, [])
        | Some uuid =>
            if negb (PyStr.truthy uuid) then Ok (None, [])
            else
              let warnings :=
                if PyStr.startswith version "3.3" then [warning_33] else [] in
              let fecha_str := PyStr.or_else (get root "Fecha") (get root "fecha") in
              let fecha :=
                match fecha_str with
                | Some s => if PyStr.truthy s then parse_iso_datetime s else None
                | None => None
                end in
              let serie := PyStr.or_str (get root "Serie") "" in
              let folio := PyStr.or_str (get root "Folio") "" in
              let subtotal :=
                _safe_float (PyStr.or_else (get root "SubTotal") (get root "SubTotal")) in
              let descuento := _safe_float (get root "Descuento") in
              let total := _safe_float (get root "Total") in
              let moneda := PyStr.or_str (get root "Moneda") "MXN" in
              let tipo_cambio := _safe_float (get root "TipoCambio") in
              let forma_pago := PyStr.or_str (get root "FormaPago") "" in
              let metodo_pago := PyStr.or_str (get root "MetodoPago") "" in
              let lugar_expedicion := PyStr.or_str (get root "LugarExpedicion") "" in
              emisor <- find root "cfdi:Emisor" nsmap ;;
              let emisor_rfc := get_or_blank emisor "Rfc" in
              let emisor_nombre := get_or_blank emisor "Nombre" in
              let emisor_regimen := get_or_blank emisor "RegimenFiscal" in
              receptor <- find root "cfdi:Receptor" nsmap ;;
              let receptor_rfc := get_or_blank receptor "Rfc" in
              let receptor_nombre := get_or_blank receptor "Nombre" in
              let receptor_regimen := get_or_blank receptor "RegimenFiscalReceptor" in
              let uso_cfdi := get_or_blank receptor "UsoCFDI" in
              acc <- doc_impuestos root nsmap Tot.zero ;;
              r <- conceptos root uuid nsmap acc ;;
              let '(acc, concepts) := r in
              let cfdi :=
                CFDI.mk uuid fecha tipo serie folio
                  (PyStr.or_str emisor_rfc "")
                  (PyStr.or_str emisor_nombre "")
                  (PyStr.or_str emisor_regimen "")
                  (PyStr.or_str receptor_rfc "")
                  (PyStr.or_str receptor_nombre "")
                  (PyStr.or_str receptor_regimen "")
                  (PyStr.or_str uso_cfdi "")
                  subtotal descuento total moneda tipo_cambio
                  (PyStr.or_str (Some forma_pago) "")
                  (PyStr.or_str (Some metodo_pago) "")
                  (PyStr.or_str (Some lugar_expedicion) "")
                  (Tot.iva_trasladado acc) (Tot.isr_retenido acc)
                  (Tot.iva_retenido acc) (Tot.ieps_total acc)
                  (List.length concepts) version warnings
                  "No clasificado" in
              Ok (Some cfdi, concepts)
        end
  end.

End Parser.

(** ** Batch processor ([app/scanner.py]) *)

(** What the scanner's two signals carry. *)
Module Event.
Section WithRuntime.
Context {RT : PyRuntime}.

Inductive t : Type :=
  | progress (processed invalid duplicates cfdi33 total : nat)
  | finished (cfdis : list CFDI.t) (concepts : list Concepto.t).

Definition is_progress (e : t) : bool :=
  match e with
  | progress _ _ _ _ _ => true
  | finished _ _ => false
  end.

Definition is_finished (e : t) : bool := negb (is_progress e).

End WithRuntime.
End Event.

(** The local variables of [XMLScanner._run]. *)
Module Scan.
Section WithRuntime.
Context {RT : PyRuntime}.

Record t : Type := mk {
  processed : nat;
  invalid_count : nat;
  duplicates : nat;
  cfdi33_count : nat;
  uuids_seen : list string;
  cfdis : list CFDI.t;
  concepts_all : list Concepto.t
}.

Definition init : t := mk 0 0 0 0 [] [] [].

End WithRuntime.
End Scan.

Section Scanner.
Context {RT : PyRuntime}.
Variable etree_parse : string -> option Document.

(** [_collect_xml_files(paths)]: the enumeration of the file system,
    taken as given. *)
Variable _collect_xml_files : list string -> list string.

(** [u in uuids_seen] *)
Definition seen (uuids_seen : list string) (u : string) : bool :=
  existsb (String.eqb u) uuids_seen.

(** The body of the loop of [_run] up to [processed = idx], once
    [parse_cfdi(file)] has returned [(cfdi, concepts)]. *)
Definition scan_file (user_rfc : string) (idx : nat) (st : Scan.t)
  (cfdi : option CFDI.t) (concepts : list Concepto.t) : Scan.t :=
  let st' :=
    match cfdi with
    | None =>
        Scan.mk (Scan.processed st) (S (Scan.invalid_count st))
                (Scan.duplicates st) (Scan.cfdi33_count st)
                (Scan.uuids_seen st) (Scan.cfdis st) (Scan.concepts_all st)
    | Some c =>
        if seen (Scan.uuids_seen st) (CFDI.uuid c) then
          Scan.mk (Scan.processed st) (Scan.invalid_count st)
                  (S (Scan.duplicates st)) (Scan.cfdi33_count st)
                  (Scan.uuids_seen st) (Scan.cfdis st) (Scan.concepts_all st)
        else
          let clasif := classify_cfdi (Some c) (Some user_rfc) in
          let c' := CFDI.set_clasificacion c clasif in
          Scan.mk (Scan.processed st) (Scan.invalid_count st)
                  (Scan.duplicates st)
                  (if PyStr.startswith (CFDI.version c') "3.3"
                   then S (Scan.cfdi33_count st) else Scan.cfdi33_count st)
                  (Scan.uuids_seen st ++ [CFDI.uuid c'])
                  (Scan.cfdis st ++ [c'])
                  (Scan.concepts_all st ++ concepts)
    end in
  Scan.mk idx (Scan.invalid_count st') (Scan.duplicates st')
          (Scan.cfdi33_count st') (Scan.uuids_seen st') (Scan.cfdis st')
          (Scan.concepts_all st').

(** [for idx, file in enumerate(files, start=idx): ...]: the signals
    emitted, in order, and how the loop ended: with the final locals, or
    with the exception that left [parse_cfdi] and ended the run. *)
Fixpoint run_loop (user_rfc : string) (total : nat) (files : list string)
  (idx : nat) (st : Scan.t) : list Event.t * result Scan.t :=
  match files with
  | [] => ([], Ok st)
  | file :: rest =>
      match parse_cfdi etree_parse file with
      | Raise e => ([], Raise e)
      | Ok (cfdi, concepts) =>
          let st' := scan_file user_rfc idx st cfdi concepts in
          let ev := Event.progress (Scan.processed st') (Scan.invalid_count st')
                      (Scan.duplicates st') (Scan.cfdi33_count st') total in
          let '(evs, r) := run_loop user_rfc total rest (S idx) st' in
          (ev :: evs, r)
      end
  end.

(** [XMLScanner(paths, user_rfc)._run()]: the signals emitted, and the
    exception that ended the run, if one did. *)
Definition _run (paths : list string) (user_rfc : string)
  : list Event.t * option exn :=
  let files := _collect_xml_files paths in
  let total := List.length files in
  match run_loop user_rfc total files 1 Scan.init with
  | (evs, Ok st) =>
      (evs ++ [Event.finished (Scan.cfdis st) (Scan.concepts_all st)], None)
  | (evs, Raise e) => (evs, Some e)
  end.

End Scanner.

(** ** Aggregation engine ([app/kpis.py]) *)

(** The running sums of the loop of [compute_kpis]. *)
Module Acc.
Section WithRuntime.
Context {RT : PyRuntime}.

Record t : Type := mk {
  total_ingresos : float;
  total_egresos : float;
  total_iva_trasladado : float;
  total_isr_retenido : float;
  total_iva_retenido : float;
  total_ieps : float;
  count_ingresos : nat;
  count_egresos : nat;
  ingresos_por_mes : dict string float;
  egresos_por_mes : dict string float;
  clientes_counter : dict string float;
  proveedores_counter : dict string float
}.

Definition init : t :=
  mk float_zero float_zero float_zero float_zero float_zero float_zero
     0 0 [] [] [] [].

End WithRuntime.
End Acc.

(** The dictionary returned by [compute_kpis]. *)
Module Kpis.
Section WithRuntime.
Context {RT : PyRuntime}.

Record calidad_t : Type := mk_calidad {
  invalidos : nat;
  duplicados : nat;
  cfdi33 : nat
}.

Record t : Type := mk {
  total_ingresos : float;
  total_egresos : float;
  neto : float;
  iva_trasladado : float;
  isr_retenido : float;
  iva_retenido : float;
  ieps : float;
  conteo_cfdi : nat;
  ingresos_por_mes : dict string float;
  egresos_por_mes : dict string float;
  top_clientes : list (string * float);
  top_proveedores : list (string * float);
  calidad : calidad_t
}.

End WithRuntime.
End Kpis.

Section Kpi.
Context {RT : PyRuntime}.

(** [d[k] += x] on a [defaultdict(float)] *)
Definition dd_add (d : dict string float) (k : string) (x : float)
  : dict string float :=
  dict_set String.eqb d k
    (float_add (dict_get_default String.eqb d k float_zero) x).

(** The classification-gated part of the loop body. *)
Definition kpi_directional (a : Acc.t) (c : CFDI.t) : Acc.t :=
  let clasif := CFDI.clasificacion c in
  let month := month_key (CFDI.fecha c) in
  if clasif =? "Ingresos" then
    Acc.mk (float_add (Acc.total_ingresos a) (CFDI.total c))
           (Acc.total_egresos a)
           (Acc.total_iva_trasladado a) (Acc.total_isr_retenido a)
           (Acc.total_iva_retenido a) (Acc.total_ieps a)
           (Acc.count_ingresos a + 1) (Acc.count_egresos a)
           (dd_add (Acc.ingresos_por_mes a) month (CFDI.total c))
           (Acc.egresos_por_mes a)
           (dd_add (Acc.clientes_counter a) (CFDI.receptor_rfc c) (CFDI.total c))
           (Acc.proveedores_counter a)
  else if clasif =? "Egresos" then
    Acc.mk (Acc.total_ingresos a)
           (float_add (Acc.total_egresos a) (CFDI.total c))
           (Acc.total_iva_trasladado a) (Acc.total_isr_retenido a)
           (Acc.total_iva_retenido a) (Acc.total_ieps a)
           (Acc.count_ingresos a) (Acc.count_egresos a + 1)
           (Acc.ingresos_por_mes a)
           (dd_add (Acc.egresos_por_mes a) month (CFDI.total c))
           (Acc.clientes_counter a)
           (dd_add (Acc.proveedores_counter a) (CFDI.emisor_rfc c) (CFDI.total c))
  else a.

(** The unconditional part: [# Acumular impuestos globales]. *)
Definition kpi_taxes (a : Acc.t) (c : CFDI.t) : Acc.t :=
  Acc.mk (Acc.total_ingresos a) (Acc.total_egresos a)
         (float_add (Acc.total_iva_trasladado a) (CFDI.iva_trasladado c))
         (float_add (Acc.total_isr_retenido a) (CFDI.isr_retenido c))
         (float_add (Acc.total_iva_retenido a) (CFDI.iva_retenido c))
         (float_add (Acc.total_ieps a) (CFDI.ieps c))
         (Acc.count_ingresos a) (Acc.count_egresos a)
         (Acc.ingresos_por_mes a) (Acc.egresos_por_mes a)
         (Acc.clientes_counter a) (Acc.proveedores_counter a).

(** One turn of [for c in cfdis:]. *)
Definition kpi_step (a : Acc.t) (c : CFDI.t) : Acc.t :=
  kpi_taxes (kpi_directional a c) c.

(** [sorted(items, key=lambda x: x[1], reverse=True)]: descending by
    value, items of equal value in their original order.  A stable sort
    has this one result when [<] orders the values as it orders numbers;
    with a NaN among them the result of Python's sort depends on the
    comparisons it happens to make, and what is proved of the order of
    the result is proved of values without NaN ([comparable] below). *)
Fixpoint insert_desc (x : string * float) (l : list (string * float))
  : list (string * float) :=
  match l with
  | [] => [x]
  | y :: l' =>
      if float_lt (snd x) (snd y) then y :: insert_desc x l' else x :: l
  end.

Definition sorted_desc (items : list (string * float))
  : list (string * float) :=
  fold_right insert_desc [] items.

(** [compute_kpis(cfdis, invalid_count, duplicates_count, cfdi33_count)] *)
Definition compute_kpis (cfdis : list CFDI.t)
  (invalid_count duplicates_count cfdi33_count : nat) : Kpis.t :=
  let a := fold_left kpi_step cfdis Acc.init in
  let neto := float_sub (Acc.total_ingresos a) (Acc.total_egresos a) in
  let conteo := Acc.count_ingresos a + Acc.count_egresos a in
  let top_clientes := firstn 5 (sorted_desc (Acc.clientes_counter a)) in
  let top_proveedores := firstn 5 (sorted_desc (Acc.proveedores_counter a)) in
  Kpis.mk (Acc.total_ingresos a) (Acc.total_egresos a) neto
          (Acc.total_iva_trasladado a) (Acc.total_isr_retenido a)
          (Acc.total_iva_retenido a) (Acc.total_ieps a)
          conteo
          (Acc.ingresos_por_mes a) (Acc.egresos_por_mes a)
          top_clientes top_proveedores
          (Kpis.mk_calidad invalid_count duplicates_count cfdi33_count).

End Kpi.

(** ** The binary64 runtime

    CPython's [float] is IEEE 754 binary64, which is Rocq's primitive
    [PrimFloat.float].  [float(s)] is correctly rounded (to nearest,
    ties to even); it is written here for the ASCII literals
    [[sign] digits [. digits] [(e|E) [sign] digits]], [inf],
    [infinity] and [nan], surrounded by optional whitespace (digit
    grouping with underscores is left out). *)

Module Float64.

Local Open Scope Z_scope.

Definition digit_of (c : ascii) : option Z :=
  let n := nat_of_ascii c in
  if ((48 <=? n) && (n <=? 57))%nat then Some (Z.of_nat (n - 48)) else None.

(** The longest prefix of digits: its value, how many, and what follows. *)
Fixpoint read_digits (s : string) (acc : Z) (count : nat)
  : Z * nat * string :=
  match s with
  | EmptyString => (acc, count, s)
  | String c s' =>
      match digit_of c with
      | Some d => read_digits s' (10 * acc + d) (S count)
      | None => (acc, count, s)
      end
  end.

(** An optional sign: [true] for [-]. *)
Definition read_sign (s : string) : bool * string :=
  match s with
  | String "-" s' => (true, s')
  | String "+" s' => (false, s')
  | _ => (false, s)
  end.

(** The binary64 number nearest to [N / D], for [0 <= N] and [0 < D]. *)
Definition nearest (N D : Z) : PrimFloat.float :=
  if N =? 0 then PrimFloat.zero
  else
    let e := Z.log2 N - Z.log2 D in
    let quot k := if k <? 0 then (N * 2 ^ (- k)) / D else N / (D * 2 ^ k) in
    let k := e - 52 in
    let k := if quot k <? 2 ^ 52 then k - 1 else k in
    let k := Z.max k (-1074) in
    if 1100 <? k then PrimFloat.infinity
    else
      let num := if k <? 0 then N * 2 ^ (- k) else N in
      let den := if k <? 0 then D else D * 2 ^ k in
      let q := num / den in
      let r := num mod den in
      let q := if (den <? 2 * r) || ((den =? 2 * r) && Z.odd q)
               then q + 1 else q in
      PrimFloat.ldshiftexp (PrimFloat.of_uint63 (Uint63.of_Z q))
                           (Uint63.of_Z (k + 2101)).

Definition apply_sign (neg : bool) (x : PrimFloat.float) : PrimFloat.float :=
  if neg then PrimFloat.opp x else x.

(** The decimal literal [mant * 10 ^ e10]. *)
Definition of_decimal (mant e10 : Z) : PrimFloat.float :=
  if e10 <? 0 then nearest mant (10 ^ (- e10)) else nearest (mant * 10 ^ e10) 1.

(** An optional exponent part: [None] when what follows the mantissa is
    not one. *)
Definition read_exponent (s : string) : option Z :=
  match s with
  | EmptyString => Some 0
  | String c s' =>
      if (Ascii.eqb c "e" || Ascii.eqb c "E")%bool then
        let '(neg, s'') := read_sign s' in
        match read_digits s'' 0 0 with
        | (_, O, _) => None
        | (v, _, EmptyString) => Some (if neg then - v else v)
        | _ => None
        end
      else None
  end.

Definition float_of_str (s : string) : option PrimFloat.float :=
  let '(neg, body) := read_sign (PyStr.strip s) in
  let name := PyStr.upper body in
  if ((name =? "INF") || (name =? "INFINITY"))%string then
    Some (apply_sign neg PrimFloat.infinity)
  else if (name =? "NAN")%string then Some PrimFloat.nan
  else
    let '(ip, ni, rest) := read_digits body 0 0 in
    let '(mant, nf, rest) :=
      match rest with
      | String "." rest' =>
          let '(m, n, r) := read_digits rest' ip 0 in (m, n, r)
      | _ => (ip, O, rest)
      end in
    match (ni + nf)%nat with
    | O => None
    | _ =>
        match read_exponent rest with
        | Some e => Some (apply_sign neg (of_decimal mant (e - Z.of_nat nf)))
        | None => None
        end
    end.

(** [datetime.fromisoformat] for [YYYY-MM-DD], optionally followed by a
    separator character and [HH], [HH:MM] or [HH:MM:SS], and then by an
    offset [(+|-)HH:MM]; fields out of range raise [ValueError], as any
    other text does. *)
Definition two_digits (s : string) : option (nat * string) :=
  match s with
  | String a (String b s') =>
      match digit_of a, digit_of b with
      | Some x, Some y => Some (Z.to_nat (10 * x + y), s')
      | _, _ => None
      end
  | _ => None
  end.

Definition is_leap (y : nat) : bool :=
  (((y mod 4 =? 0) && negb (y mod 100 =? 0)) || (y mod 400 =? 0))%nat.

Definition days_in_month (y m : nat) : nat :=
  match m with
  | 2 => if is_leap y then 29 else 28
  | 4 | 6 | 9 | 11 => 30
  | _ => 31
  end%nat.

Definition read_offset (s : string) : bool :=
  match s with
  | EmptyString => true
  | String c s' =>
      if (Ascii.eqb c "+" || Ascii.eqb c "-")%bool then
        match two_digits s' with
        | Some (h, String ":" s'') =>
            match two_digits s'' with
            | Some (m, EmptyString) => ((h <? 24) && (m <? 60))%nat
            | _ => false
            end
        | _ => false
        end
      else false
  end.

(** The time of day and what follows it. *)
Definition read_time (s : string) : option (nat * nat * nat * string) :=
  match two_digits s with
  | Some (h, String ":" s1) =>
      match two_digits s1 with
      | Some (m, String ":" s2) =>
          match two_digits s2 with
          | Some (sec, s3) => Some (h, m, sec, s3)
          | None => None
          end
      | Some (m, s2) => Some (h, m, O, s2)
      | None => None
      end
  | Some (h, s1) => Some (h, O, O, s1)
  | None => None
  end.

Definition fromisoformat (s : string) : option datetime :=
  match two_digits s with
  | Some (y1, s1) =>
      match two_digits s1 with
      | Some (y2, String "-" s2) =>
          match two_digits s2 with
          | Some (mo, String "-" s3) =>
              match two_digits s3 with
              | Some (d, s4) =>
                  let y := (100 * y1 + y2)%nat in
                  if ((1 <=? y) && (1 <=? mo) && (mo <=? 12) && (1 <=? d)
                      && (d <=? days_in_month y mo))%nat
                  then
                    match s4 with
                    | EmptyString => Some (mkDatetime y mo d 0 0 0)
                    | String _ s5 =>
                        match read_time s5 with
                        | Some (h, mi, sec, s6) =>
                            if ((h <? 24) && (mi <? 60) && (sec <? 60))%nat
                               && read_offset s6
                            then Some (mkDatetime y mo d h mi sec)
                            else None
                        | None => None
                        end
                    end
                  else None
              | None => None
              end
          | _ => None
          end
      | _ => None
      end
  | None => None
  end.

(** [a < b] *)
Definition lt (a b : PrimFloat.float) : bool := PrimFloat.ltb a b.

End Float64.

#[export] Instance Float64_runtime : PyRuntime := {|
  float := PrimFloat.float;
  float_zero := PrimFloat.zero;
  float_add := PrimFloat.add;
  float_sub := PrimFloat.sub;
  float_lt := Float64.lt;
  float_of_str := Float64.float_of_str;
  fromisoformat := Float64.fromisoformat
|}.

(** A record with the three fields the classifier reads, everything
    else as the parser leaves absent attributes. *)
Definition invoice {RT : PyRuntime} (tipo emisor_rfc receptor_rfc : string)
  : CFDI.t :=
  CFDI.mk "00000000-0000-0000-0000-000000000000" None tipo "" ""
    emisor_rfc "" "" receptor_rfc "" "" ""
    float_zero float_zero float_zero "MXN" float_zero "" "" ""
    float_zero float_zero float_zero float_zero 0 "" [] "No clasificado".

(** ** Sample documents

    [SAMPLE_CFDI_40] of [tests/test_parser.py] as lxml parses it, and
    variations of it. *)

Module Sample.

Definition cfdi_ns : string := "http://www.sat.gob.mx/cfd/4".
Definition tfd_ns : string := "http://www.sat.gob.mx/TimbreFiscalDigital".

Definition cfdi_tag (local : string) : string :=
  ("{" ++ cfdi_ns ++ "}" ++ local)%string.

Definition tfd_tag (local : string) : string :=
  ("{" ++ tfd_ns ++ "}" ++ local)%string.

Definition emisor : Element :=
  mkElement (cfdi_tag "Emisor")
    [("Rfc", "AAA010101AAA"); ("Nombre", "Emisor SA de CV");
     ("RegimenFiscal", "601")] [].

Definition receptor : Element :=
  mkElement (cfdi_tag "Receptor")
    [("Rfc", "BBB010101BBB"); ("Nombre", "Receptor SA de CV");
     ("UsoCFDI", "G03"); ("RegimenFiscalReceptor", "601")] [].

(** The line item, with its own transferred VAT of 16. *)
Definition concepto : Element :=
  mkElement (cfdi_tag "Concepto")
    [("ClaveProdServ", "01010101"); ("Cantidad", "1"); ("ClaveUnidad", "E48");
     ("Unidad", "Servicio"); ("Descripcion", "Servicio de prueba");
     ("ValorUnitario", "100"); ("Importe", "100")]
    [mkElement (cfdi_tag "Impuestos") []
       [mkElement (cfdi_tag "Traslados") []
          [mkElement (cfdi_tag "Traslado")
             [("Base", "100"); ("Impuesto", "002"); ("TipoFactor", "Tasa");
              ("TasaOCuota", "0.160000"); ("Importe", "16")] []]]].

(** A document-level [cfdi:Impuestos] block. *)
Definition impuestos (traslados retenciones : list Element) : Element :=
  mkElement (cfdi_tag "Impuestos") []
    [mkElement (cfdi_tag "Traslados") [] traslados;
     mkElement (cfdi_tag "Retenciones") [] retenciones].

Definition traslado (impuesto importe : string) : Element :=
  mkElement (cfdi_tag "Traslado")
    [("Impuesto", impuesto); ("TipoFactor", "Tasa");
     ("TasaOCuota", "0.160000"); ("Importe", importe)] [].

Definition retencion (impuesto importe : string) : Element :=
  mkElement (cfdi_tag "Retencion")
    [("Impuesto", impuesto); ("Importe", importe)] [].

Definition complemento : Element :=
  mkElement (cfdi_tag "Complemento") []
    [mkElement (tfd_tag "TimbreFiscalDigital")
       [("Version", "1.1"); ("UUID", "12345678-1234-1234-1234-123456789012");
        ("FechaTimbrado", "2023-01-31T12:00:00");
        ("RfcProvCertif", "AAA010101AAA")] []].

Definition root_attrib : dict string string :=
  [("Version", "4.0"); ("Fecha", "2023-01-31T12:00:00"); ("Serie", "A");
   ("Folio", "1"); ("TipoDeComprobante", "I"); ("SubTotal", "100");
   ("Total", "116"); ("Moneda", "MXN"); ("FormaPago", "01");
   ("MetodoPago", "PUE"); ("LugarExpedicion", "99999")].

Definition declared : dict (option string) string :=
  [(Some "cfdi", cfdi_ns); (Some "tfd", tfd_ns)].

(** [SAMPLE_CFDI_40]: the document-level [cfdi:Impuestos] of the test
    has a [cfdi:Traslados] child only. *)
Definition cfdi_40 : Document :=
  mkDocument
    (mkElement (cfdi_tag "Comprobante") root_attrib
       [emisor; receptor;
        mkElement (cfdi_tag "Conceptos") [] [concepto];
        mkElement (cfdi_tag "Impuestos") []
          [mkElement (cfdi_tag "Traslados") [] [traslado "002" "16"]];
        complemento])
    declared.

(** The same invoice with given document-level tax entries. *)
Definition with_taxes (traslados retenciones : list Element) : Document :=
  mkDocument
    (mkElement (cfdi_tag "Comprobante") root_attrib
       [emisor; receptor;
        mkElement (cfdi_tag "Conceptos") [] [concepto];
        impuestos traslados retenciones;
        complemento])
    declared.

(** An invoice without line-item taxes whose only tax entry is a
    document-level withheld income tax (code 001) of 10. *)
Definition withheld_isr : Document :=
  mkDocument
    (mkElement (cfdi_tag "Comprobante") root_attrib
       [emisor; receptor;
        impuestos [] [retencion "001" "10"];
        complemento])
    declared.

(** Well-formed XML that declares no namespace at all:
    [<Comprobante Version="4.0" TipoDeComprobante="I"/>]. *)
Definition undeclared : Document :=
  mkDocument
    (mkElement "Comprobante"
       [("Version", "4.0"); ("TipoDeComprobante", "I")] [])
    [].

(** The files of the examples; any other path is unreadable. *)
Definition files (path : string) : option Document :=
  if path =? "cfdi.xml" then Some cfdi_40
  else if path =? "ieps.xml" then
    Some (with_taxes [traslado "002" "16"; traslado "003" "5"] [])
  else if path =? "isr.xml" then Some withheld_isr
  else if path =? "undeclared.xml" then Some undeclared
  else None.

(** [_collect_xml_files] when every path given is an XML file. *)
Definition listed (paths : list string) : list string := paths.

(** The record and the line items that [parse_cfdi] returns for a file
    it accepts. *)
Definition record_of (path : string) : CFDI.t :=
  match parse_cfdi files path with
  | Ok (Some c, _) => c
  | _ => invoice "" "" ""
  end.

Definition items_of (path : string) : list Concepto.t :=
  match parse_cfdi files path with
  | Ok (_, items) => items
  | Raise _ => []
  end.

(** Those of [cfdi.xml], the document of the test. *)
Definition record : CFDI.t := Eval vm_compute in record_of "cfdi.xml".

Definition items : list Concepto.t := Eval vm_compute in items_of "cfdi.xml".

(** Those of [ieps.xml]. *)
Definition record_ieps : CFDI.t := Eval vm_compute in record_of "ieps.xml".

Definition items_ieps : list Concepto.t :=
  Eval vm_compute in items_of "ieps.xml".

End Sample.

(** ** A batch of documents

    Invoices issued and received by AAA010101AAA in different months, a
    credit note, a payment receipt and an invoice of the legacy
    schema. *)

Module Batch.

Definition party (tag rfc : string) : Element :=
  mkElement tag [("Rfc", rfc)] [].

Definition stamp (ns uuid : string) : Element :=
  mkElement ("{" ++ ns ++ "}Complemento")%string []
    [mkElement (Sample.tfd_tag "TimbreFiscalDigital")
       [("Version", "1.1"); ("UUID", uuid)] []].

(** A stamped document of the schema whose namespace is [ns]. *)
Definition document (ns version tipo fecha total uuid emisor_rfc
  receptor_rfc : string) : Document :=
  mkDocument
    (mkElement ("{" ++ ns ++ "}Comprobante")%string
       [("Version", version); ("Fecha", fecha);
        ("TipoDeComprobante", tipo); ("SubTotal", total); ("Total", total);
        ("Moneda", "MXN")]
       [party ("{" ++ ns ++ "}Emisor")%string emisor_rfc;
        party ("{" ++ ns ++ "}Receptor")%string receptor_rfc;
        mkElement ("{" ++ ns ++ "}Conceptos")%string []
          [mkElement ("{" ++ ns ++ "}Concepto")%string
             [("Descripcion", "Servicio"); ("Cantidad", "1");
              ("ValorUnitario", total); ("Importe", total)] []];
        stamp ns uuid])
    [(Some "cfdi", ns); (Some "tfd", Sample.tfd_ns)].

Definition cfdi3_ns : string := "http://www.sat.gob.mx/cfd/3".

Definition enero : Document :=
  document Sample.cfdi_ns "4.0" "I" "2023-01-15T10:00:00" "116"
    "00000000-0000-0000-0000-000000000001" "AAA010101AAA" "BBB010101BBB".

Definition febrero : Document :=
  document Sample.cfdi_ns "4.0" "I" "2023-02-10T09:30:00Z" "232"
    "00000000-0000-0000-0000-000000000002" "AAA010101AAA" "CCC010101CCC".

Definition compra : Document :=
  document Sample.cfdi_ns "4.0" "I" "2023-02-20T18:45:10.250" "58"
    "00000000-0000-0000-0000-000000000003" "DDD010101DDD" "AAA010101AAA".

Definition nota : Document :=
  document Sample.cfdi_ns "4.0" "E" "2023-03-01T08:00:00" "16"
    "00000000-0000-0000-0000-000000000004" "AAA010101AAA" "BBB010101BBB".

Definition pago : Document :=
  document Sample.cfdi_ns "4.0" "P" "2023-03-02T08:00:00" "0"
    "00000000-0000-0000-0000-000000000005" "AAA010101AAA" "BBB010101BBB".

Definition antiguo : Document :=
  document cfdi3_ns "3.3" "I" "2022-12-01T00:00:00" "50"
    "00000000-0000-0000-0000-000000000006" "AAA010101AAA" "BBB010101BBB".

(** The files of the batch; any other path is unreadable. *)
Definition files (path : string) : option Document :=
  if path =? "enero.xml" then Some enero
  else if path =? "febrero.xml" then Some febrero
  else if path =? "compra.xml" then Some compra
  else if path =? "nota.xml" then Some nota
  else if path =? "pago.xml" then Some pago
  else if path =? "antiguo.xml" then Some antiguo
  else None.

Definition rfc : string := "AAA010101AAA".

Definition paths : list string :=
  ["enero.xml"; "febrero.xml"; "roto.xml"; "enero.xml"; "pago.xml";
   "antiguo.xml"; "nota.xml"; "compra.xml"].

(** The run over the batch: its progress signals, and the records and
    line items of its completion signal. *)
Definition signals : list Event.t :=
  Eval vm_compute in fst (_run files Sample.listed paths rfc).

Definition evs : list Event.t := Eval vm_compute in removelast signals.

Definition cfdis : list CFDI.t :=
  Eval vm_compute in
    match last signals (Event.finished [] []) with
    | Event.finished l _ => l
    | _ => []
    end.

Definition concepts : list Concepto.t :=
  Eval vm_compute in
    match last signals (Event.finished [] []) with
    | Event.finished _ l => l
    | _ => []
    end.

(** The record and the line items of the credit note and of the legacy
    invoice. *)
Definition record_of (path : string) : CFDI.t :=
  match parse_cfdi files path with
  | Ok (Some c, _) => c
  | _ => invoice "" "" ""
  end.

Definition items_of (path : string) : list Concepto.t :=
  match parse_cfdi files path with
  | Ok (_, items) => items
  | Raise _ => []
  end.

Definition record_nota : CFDI.t := Eval vm_compute in record_of "nota.xml".

Definition items_nota : list Concepto.t :=
  Eval vm_compute in items_of "nota.xml".

Definition record_antiguo : CFDI.t :=
  Eval vm_compute in record_of "antiguo.xml".

Definition items_antiguo : list Concepto.t :=
  Eval vm_compute in items_of "antiguo.xml".

End Batch.

(** ** A document in no namespace

    The invoice of a root that declares [xmlns=""]: lxml lists the empty
    URI under the key [None] of [root.nsmap], and the elements other
    than the stamp are in no namespace. *)

Module Plain.

Definition comprobante : Document :=
  mkDocument
    (mkElement "Comprobante"
       [("Version", "4.0"); ("Fecha", "2023-04-05T06:07:08");
        ("TipoDeComprobante", "I"); ("SubTotal", "100"); ("Total", "116")]
       [mkElement "Emisor" [("Rfc", "AAA010101AAA")] [];
        mkElement "Receptor" [("Rfc", "BBB010101BBB")] [];
        mkElement "Conceptos" []
          [mkElement "Concepto"
             [("Descripcion", "Servicio"); ("Importe", "100")] []];
        mkElement "Complemento" []
          [mkElement (Sample.tfd_tag "TimbreFiscalDigital")
             [("Version", "1.1");
              ("UUID", "00000000-0000-0000-0000-000000000007")] []]])
    [(None, ""); (Some "tfd", Sample.tfd_ns)].

Definition files (path : string) : option Document :=
  if path =? "plano.xml" then Some comprobante else None.

(** The record and the line items that [parse_cfdi] returns for it. *)
Definition record : CFDI.t :=
  Eval vm_compute in
    match parse_cfdi files "plano.xml" with
    | Ok (Some c, _) => c
    | _ => invoice "" "" ""
    end.

Definition items : list Concepto.t :=
  Eval vm_compute in
    match parse_cfdi files "plano.xml" with
    | Ok (_, l) => l
    | Raise _ => []
    end.

End Plain.

(** ** The statements' vocabulary *)

Section ClassifierRule.
Context {RT : PyRuntime}.

(** Trim, then uppercase: what the classifier compares. *)
Definition normalize (s : string) : string := PyStr.upper (PyStr.strip s).

(** The rule of section 4.2, clause by clause, with the document type
    compared after uppercasing, as the code does. *)
Inductive Classified : option CFDI.t -> option string -> string -> Prop :=
  | Cl_no_record (u : option string) :
      Classified None u "No clasificado"
  | Cl_no_rfc (cfdi : option CFDI.t) :
      Classified cfdi None "No clasificado"
  | Cl_empty_rfc (cfdi : option CFDI.t) :
      Classified cfdi (Some "") "No clasificado"
  | Cl_ingresos (c : CFDI.t) (u : string) :
      u <> "" ->
      PyStr.upper (CFDI.tipo c) = "I" ->
      normalize u = normalize (CFDI.emisor_rfc c) ->
      Classified (Some c) (Some u) "Ingresos"
  | Cl_egresos (c : CFDI.t) (u : string) :
      u <> "" ->
      PyStr.upper (CFDI.tipo c) = "I" ->
      normalize u <> normalize (CFDI.emisor_rfc c) ->
      normalize u = normalize (CFDI.receptor_rfc c) ->
      Classified (Some c) (Some u) "Egresos"
  | Cl_neither (c : CFDI.t) (u : string) :
      u <> "" ->
      PyStr.upper (CFDI.tipo c) = "I" ->
      normalize u <> normalize (CFDI.emisor_rfc c) ->
      normalize u <> normalize (CFDI.receptor_rfc c) ->
      Classified (Some c) (Some u) "No clasificado"
  | Cl_other_type (c : CFDI.t) (u : string) :
      PyStr.upper (CFDI.tipo c) <> "I" ->
      Classified (Some c) (Some u) "No clasificado".

End ClassifierRule.

Section ParserVocabulary.
Context {RT : PyRuntime}.

(** The sum of [l] added to [a], left to right, as the loops do. *)
Definition sum_from (a : float) (l : list float) : float :=
  fold_left float_add l a.

(** [find] and [findall] where a missing node and an unresolved prefix
    both give nothing. *)
Definition child (nsmap : dict string string) (e : Element) (path : string)
  : option Element :=
  match find e path nsmap with
  | Ok r => r
  | Raise _ => None
  end.

Definition childs (nsmap : dict string string) (e : Element) (path : string)
  : list Element :=
  match findall e path nsmap with
  | Ok l => l
  | Raise _ => []
  end.

(** The tax entries directly under [e]: the [item] children of the first
    [group] child of the first [cfdi:Impuestos] child of [e]. *)
Definition tax_nodes (nsmap : dict string string) (e : Element)
  (group item : string) : list Element :=
  match child nsmap e "cfdi:Impuestos" with
  | Some node =>
      match child nsmap node group with
      | Some g => childs nsmap g item
      | None => []
      end
  | None => []
  end.

(** Transferred and withheld entries of [e] (the root for the
    document level, a [cfdi:Concepto] for the line level). *)
Definition traslados (nsmap : dict string string) (e : Element)
  : list Element :=
  tax_nodes nsmap e "cfdi:Traslados" "cfdi:Traslado".

Definition retenciones (nsmap : dict string string) (e : Element)
  : list Element :=
  tax_nodes nsmap e "cfdi:Retenciones" "cfdi:Retencion".

(** The line items of the document, in document order. *)
Definition line_items (nsmap : dict string string) (root : Element)
  : list Element :=
  match child nsmap root "cfdi:Conceptos" with
  | Some cp => childs nsmap cp "cfdi:Concepto"
  | None => []
  end.

(** The entries of [l] whose tax code is [code], and their amounts. *)
Definition with_code (code : string) (l : list Element) : list Element :=
  filter (fun e => opt_str_eqb (get e "Impuesto") (Some code)) l.

Definition amounts (code : string) (l : list Element) : list float :=
  map (fun e => _safe_float (get e "Importe")) (with_code code l).

(** The amounts that go into each document-level total, in the order
    in which the parser adds them: the document-level entries first,
    then those of each line item in turn. *)
Definition line_iva_trasladado (nsmap : dict string string)
  (ls : list Element) : list float :=
  flat_map (fun k => amounts "002" (traslados nsmap k)) ls.

Definition line_isr_retenido (nsmap : dict string string)
  (ls : list Element) : list float :=
  flat_map (fun k => amounts "001" (retenciones nsmap k)) ls.

Definition line_iva_retenido (nsmap : dict string string)
  (ls : list Element) : list float :=
  flat_map (fun k => amounts "002" (retenciones nsmap k)) ls.

Definition line_ieps (nsmap : dict string string)
  (ls : list Element) : list float :=
  flat_map (fun k => amounts "003" (traslados nsmap k) ++
                     amounts "003" (retenciones nsmap k)) ls.

Definition iva_trasladado_entries (d : Document) : list float :=
  let nsmap := build_nsmap (root_nsmap d) in
  amounts "002" (traslados nsmap (getroot d)) ++
  line_iva_trasladado nsmap (line_items nsmap (getroot d)).

Definition isr_retenido_entries (d : Document) : list float :=
  let nsmap := build_nsmap (root_nsmap d) in
  amounts "001" (retenciones nsmap (getroot d)) ++
  line_isr_retenido nsmap (line_items nsmap (getroot d)).

Definition iva_retenido_entries (d : Document) : list float :=
  let nsmap := build_nsmap (root_nsmap d) in
  amounts "002" (retenciones nsmap (getroot d)) ++
  line_iva_retenido nsmap (line_items nsmap (getroot d)).

Definition ieps_entries (d : Document) : list float :=
  let nsmap := build_nsmap (root_nsmap d) in
  amounts "003" (retenciones nsmap (getroot d)) ++
  line_ieps nsmap (line_items nsmap (getroot d)).

(** The four totals of a record, as one tuple. *)
Definition tax_totals (c : CFDI.t) : float * float * float * float :=
  (CFDI.iva_trasladado c, CFDI.isr_retenido c, CFDI.iva_retenido c,
   CFDI.ieps c).

End ParserVocabulary.

Section ScannerVocabulary.
Context {RT : PyRuntime}.

(** Two progress signals of one run, the first not after the second:
    no counter decreases and the total is the same. *)
Definition progress_le (e1 e2 : Event.t) : Prop :=
  match e1, e2 with
  | Event.progress p1 i1 d1 c1 t1, Event.progress p2 i2 d2 c2 t2 =>
      (p1 <= p2 /\ i1 <= i2 /\ d1 <= d2 /\ c1 <= c2 /\ t1 = t2)%nat
  | _, _ => False
  end.

(** A progress signal of the run that continues from file number [idx]
    with locals [st]. *)
Definition follows (idx : nat) (st : Scan.t) (total : nat) (e : Event.t)
  : Prop :=
  match e with
  | Event.progress p i d c t =>
      (idx <= p /\ Scan.invalid_count st <= i /\ Scan.duplicates st <= d /\
       Scan.cfdi33_count st <= c /\ t = total)%nat
  | Event.finished _ _ => False
  end.

(** The [i]-th signal (from 0) reports [i + 1] files processed out of
    [total]. *)
Definition numbered (first total : nat) (evs : list Event.t) : Prop :=
  forall (i : nat) (e : Event.t),
    nth_error evs i = Some e ->
    exists inv dup c33 : nat, e = Event.progress (first + i) inv dup c33 total.

End ScannerVocabulary.

Section KpiVocabulary.
Context {RT : PyRuntime}.

(** Records carrying a given classification label. *)
Definition labelled (label : string) (c : CFDI.t) : bool :=
  CFDI.clasificacion c =? label.

Definition count_label (label : string) (cfdis : list CFDI.t) : nat :=
  List.length (filter (labelled label) cfdis).

(** Counterparty sums of a list of records. *)
Definition by_party (party : CFDI.t -> string) (cfdis : list CFDI.t)
  : dict string float :=
  fold_left (fun d c => dd_add d (party c) (CFDI.total c)) cfdis [].

End KpiVocabulary.

(** ** Vocabulary of the further properties *)

Section ParserVocabularyMore.
Context {RT : PyRuntime}.

(** The [UUID] attribute of the fiscal stamp: of the first
    [tfd:TimbreFiscalDigital] child of the first [cfdi:Complemento]
    child of the root. *)
Definition stamp_uuid (nsmap : dict string string) (root : Element)
  : option string :=
  match child nsmap root "cfdi:Complemento" with
  | Some co =>
      match child nsmap co "tfd:TimbreFiscalDigital" with
      | Some ti => get ti "UUID"
      | None => None
      end
  | None => None
  end.

(** The amounts of the entries of [l] whose [Impuesto] attribute is
    [key]; [None] is an entry without that attribute. *)
Definition entries_with (key : option string) (l : list Element)
  : list float :=
  map (fun e => _safe_float (get e "Importe"))
      (filter (fun e => opt_str_eqb (get e "Impuesto") key) l).

(** The keys of a dictionary. *)
Definition keys {K V : Type} (d : dict K V) : list K := map fst d.

(** [c] is the line item of the [cfdi:Concepto] node [k] of the
    document stamped [uuid]: it carries that UUID, and each of its two
    tax mappings has pairwise distinct keys, holds a key exactly when
    some entry of the node has it, and maps it to the sum of the amounts
    of those entries ([0.0] by default). *)
Definition tax_mapping (d : dict (option string) float) (l : list Element)
  : Prop :=
  NoDup (keys d) /\
  forall key : option string,
    (In key (keys d) <-> entries_with key l <> []) /\
    dict_get_default opt_str_eqb d key float_zero =
      sum_from float_zero (entries_with key l).

Definition item_of_node (nsmap : dict string string) (uuid : string)
  (k : Element) (c : Concepto.t) : Prop :=
  Concepto.uuid c = uuid /\
  tax_mapping (Concepto.impuestos_traslado c) (traslados nsmap k) /\
  tax_mapping (Concepto.impuestos_retencion c) (retenciones nsmap k).

End ParserVocabularyMore.

(** Accumulating entries into a dictionary of sums, as the loops over
    tax entries and over records do. *)
Section DictSumsVocabulary.
Context {RT : PyRuntime}.
Context {K A : Type}.
Variable eqb : K -> K -> bool.
Variable key : A -> K.
Variable val : A -> float.

(** [d[key(x)] = d.get(key(x), 0.0) + val(x)] *)
Definition add_entry (d : dict K float) (x : A) : dict K float :=
  dict_set eqb d (key x)
    (float_add (dict_get_default eqb d (key x) float_zero) (val x)).

(** The entries of [l] filed under [k]. *)
Definition filed (k : K) (l : list A) : list A :=
  filter (fun x => eqb (key x) k) l.

End DictSumsVocabulary.

Section ScannerVocabularyMore.
Context {RT : PyRuntime}.

(** A record of the legacy schema, as the scanner tests it. *)
Definition legacy (c : CFDI.t) : bool :=
  PyStr.startswith (CFDI.version c) "3.3".

(** The progress signal that reports the locals [st]. *)
Definition progress_of (total : nat) (st : Scan.t) : Event.t :=
  Event.progress (Scan.processed st) (Scan.invalid_count st)
                 (Scan.duplicates st) (Scan.cfdi33_count st) total.

(** What the loop of [_run] keeps true of its locals: the set of seen
    UUIDs is that of the retained records, these UUIDs are pairwise
    distinct, the legacy counter counts the retained records of the
    legacy schema, every retained record carries the label the
    classifier gives it, and every line item belongs to a retained
    record. *)
Definition scan_inv (user_rfc : string) (st : Scan.t) : Prop :=
  Scan.uuids_seen st = map CFDI.uuid (Scan.cfdis st) /\
  NoDup (map CFDI.uuid (Scan.cfdis st)) /\
  Scan.cfdi33_count st = List.length (filter legacy (Scan.cfdis st)) /\
  Forall (fun c => CFDI.clasificacion c =
                   classify_cfdi (Some c) (Some user_rfc)) (Scan.cfdis st) /\
  Forall (fun it => In (Concepto.uuid it) (map CFDI.uuid (Scan.cfdis st)))
         (Scan.concepts_all st).

(** The files handled so far: [f] was rejected, or the UUID of its
    record has been seen. *)
Definition handled (etree_parse : string -> option Document)
  (st : Scan.t) (f : string) : Prop :=
  match parse_cfdi etree_parse f with
  | Ok (Some c, _) => In (CFDI.uuid c) (Scan.uuids_seen st)
  | Ok (None, _) => True
  | Raise _ => False
  end.

End ScannerVocabularyMore.

Section ScannerVocabularyOrigin.
Context {RT : PyRuntime}.

(** The record [c] as the scanner delivers it for the taxpayer id
    [user_rfc]. *)
Definition relabel (user_rfc : string) (c : CFDI.t) : CFDI.t :=
  CFDI.set_clasificacion c (classify_cfdi (Some c) (Some user_rfc)).

(** [c'] is delivered for the file [f] of the listing [files]: [f] is
    accepted with a record of which [c'] is the relabelled copy, no file
    listed before [f] is accepted with the same UUID, and the line items
    of [f] are among [concepts]. *)
Definition delivered_for (etree_parse : string -> option Document)
  (user_rfc : string) (files : list string) (concepts : list Concepto.t)
  (c' : CFDI.t) : Prop :=
  exists (pre : list string) (f : string) (post : list string)
         (c : CFDI.t) (items : list Concepto.t),
    files = pre ++ f :: post /\
    parse_cfdi etree_parse f = Ok (Some c, items) /\
    c' = relabel user_rfc c /\
    (forall (g : string) (c2 : CFDI.t) (i2 : list Concepto.t),
       In g pre -> parse_cfdi etree_parse g = Ok (Some c2, i2) ->
       CFDI.uuid c2 <> CFDI.uuid c) /\
    incl items concepts.

(** [its] are the line items that go with the delivered record [c']:
    those that [parse_cfdi] returns, together with the record of which
    [c'] is the relabelled copy, for a file of the listing. *)
Definition items_with (etree_parse : string -> option Document)
  (user_rfc : string) (files : list string) (c' : CFDI.t)
  (its : list Concepto.t) : Prop :=
  exists (f : string) (c : CFDI.t),
    In f files /\
    parse_cfdi etree_parse f = Ok (Some c, its) /\
    c' = relabel user_rfc c.

End ScannerVocabularyOrigin.

Section KpiVocabularyMore.
Context {RT : PyRuntime}.

(** Values that [<] orders as it orders numbers: [a < b] excludes
    [b < a], and "not below" is transitive.  Floats other than NaN are
    such values. *)
Definition comparable (vals : list float) : Prop :=
  (forall a b : float, In a vals -> In b vals ->
     float_lt a b = true -> float_lt b a = false) /\
  (forall a b c : float, In a vals -> In b vals -> In c vals ->
     float_lt a b = false -> float_lt b c = false -> float_lt a c = false).

(** [x] is not below [y]. *)
Definition not_below (x y : string * float) : Prop :=
  float_lt (snd x) (snd y) = false.

(** [top] ranks the counter [d]: it holds five entries of [d], or all of
    them when [d] has fewer, under pairwise distinct keys, none of them
    below a later one, and none of them below an entry left out. *)
Definition ranks (d : dict string float) (top : list (string * float))
  : Prop :=
  List.length top = Nat.min 5 (List.length d) /\
  NoDup (keys top) /\
  incl top d /\
  StronglySorted not_below top /\
  (forall x y : string * float,
     In x top -> In y d -> ~ In y top -> not_below x y).

(** The records of [l] that [key] files under [k], and their total, summed
    left to right from 0.0. *)
Definition total_under (key : CFDI.t -> string) (k : string)
  (l : list CFDI.t) : float :=
  sum_from float_zero (map CFDI.total (filed String.eqb key k l)).

Definition month_of (c : CFDI.t) : string := month_key (CFDI.fecha c).

(** The local variables of [compute_kpis] when its loop ends. *)
Definition kpi_locals (cfdis : list CFDI.t) : Acc.t :=
  fold_left kpi_step cfdis Acc.init.

(** [d] holds the totals of the records of [l] by [key]: its keys are
    pairwise distinct, a key is present exactly when some record of [l]
    has it, and it is mapped to the total of the records that have it;
    looked up with default 0.0, any other key gives the empty sum. *)
Definition sums_of (key : CFDI.t -> string) (l : list CFDI.t)
  (d : dict string float) : Prop :=
  NoDup (keys d) /\
  forall k : string,
    (In k (keys d) <-> exists c : CFDI.t, In c l /\ key c = k) /\
    dict_get_default String.eqb d k float_zero = total_under key k l.

(** [comparable], checked. *)
Definition comparableb (vals : list float) : bool :=
  forallb (fun a =>
    forallb (fun b =>
      implb (float_lt a b) (negb (float_lt b a)) &&
      forallb (fun c =>
        implb (negb (float_lt a b) && negb (float_lt b c))
              (negb (float_lt a c))) vals) vals) vals.

End KpiVocabularyMore.

Section RankingTiesVocabulary.

(** [x] comes before [y] in [l]. *)
Inductive before {A : Type} (x y : A) : list A -> Prop :=
  | before_here (l : list A) : In y l -> before x y (x :: l)
  | before_later (h : A) (l : list A) : before x y l -> before x y (h :: l).

(** The distinct strings of [l], in the order of their first
    appearance. *)
Definition first_seen (l : list string) : list string :=
  fold_left (fun acc k =>
               if existsb (fun k' => k' =? k) acc then acc else acc ++ [k])
            l [].

End RankingTiesVocabulary.

Section UtilsVocabulary.

(** Decimal digits and the number they write. *)
Definition is_digit (c : ascii) : bool :=
  ((48 <=? nat_of_ascii c) && (nat_of_ascii c <=? 57))%nat.

Fixpoint all_digits (s : string) : bool :=
  match s with
  | EmptyString => true
  | String c s' => is_digit c && all_digits s'
  end.

Fixpoint decimal_from (acc : nat) (s : string) : nat :=
  match s with
  | EmptyString => acc
  | String c s' => decimal_from (10 * acc + (nat_of_ascii c - 48)) s'
  end.

Definition decimal (s : string) : nat := decimal_from 0 s.

(** Reading a month key back: the numbers before and after its first
    hyphen. *)
Definition read_month_key (k : string) : option (nat * nat) :=
  match PyStr.split_first k "-" with
  | Some (y, m) => Some (decimal y, decimal m)
  | None => None
  end.

(** Two optional dates fall in the same month bucket. *)
Definition same_month (d1 d2 : option datetime) : Prop :=
  match d1, d2 with
  | None, None => True
  | Some a, Some b => year a = year b /\ month a = month b
  | _, _ => False
  end.

(** What a [datetime] guarantees of its year and month. *)
Definition valid_month (d : datetime) : Prop :=
  1 <= year d < 10 ^ 4 /\ 1 <= month d <= 12.

Definition earlier_month (d1 d2 : datetime) : Prop :=
  year d1 < year d2 \/ (year d1 = year d2 /\ month d1 < month d2).

End UtilsVocabulary.

(** ** Monthly series of the reports ([app/report_pdf.py],
    [app/exporter_excel.py]) *)

Section Report.
Context {RT : PyRuntime}.

(** [sorted(xs)] on strings: ascending by code point. *)
Fixpoint insert_str (x : string) (l : list string) : list string :=
  match l with
  | [] => [x]
  | y :: l' => if String.ltb x y then x :: l else y :: insert_str x l'
  end.

Definition sorted_str (l : list string) : list string :=
  fold_right insert_str [] l.

(** [sorted(set(list(kpis["ingresos_por_mes"].keys())
                + list(kpis["egresos_por_mes"].keys())))]: the set is
    kept as a list without repetitions, the order of which [sorted]
    makes irrelevant. *)
Definition meses (kpis : Kpis.t) : list string :=
  sorted_str (nodup string_dec
                (keys (Kpis.ingresos_por_mes kpis) ++
                 keys (Kpis.egresos_por_mes kpis))).

(** The two series drawn by [_create_chart_totales_mes] and written,
    month by month, by [export_to_excel]:
    [kpis["ingresos_por_mes"].get(m, 0.0)] and
    [kpis["egresos_por_mes"].get(m, 0.0)] for [m] in [meses]. *)
Definition ingresos_series (kpis : Kpis.t) : list float :=
  map (fun m => dict_get_default String.eqb (Kpis.ingresos_por_mes kpis) m
                  float_zero) (meses kpis).

Definition egresos_series (kpis : Kpis.t) : list float :=
  map (fun m => dict_get_default String.eqb (Kpis.egresos_por_mes kpis) m
                  float_zero) (meses kpis).

End Report.

Section ReportVocabulary.

(** Strictly ascending, as strings compare. *)
Definition ascending (l : list string) : Prop :=
  StronglySorted (fun a b => String.ltb a b = true) l.

End ReportVocabulary.

(** * Properties *)

(** ** Strings *)

Lemma or_str_blank (s : string) : PyStr.or_str (Some s) "" = s.
Proof. destruct s; reflexivity. Qed.

Lemma lstrip_all_space (s : string) :
  PyStr.all_space s = true -> PyStr.lstrip s = "".
Proof.
  induction s as [|c s IH]; simpl; [reflexivity|].
  intros H. apply andb_true_iff in H as [Hc Hs]. rewrite Hc. auto.
Qed.

Lemma strip_all_space (s : string) :
  PyStr.all_space s = true -> PyStr.strip s = "".
Proof.
  intros H. unfold PyStr.strip. rewrite lstrip_all_space by exact H.
  reflexivity.
Qed.

Lemma opt_str_eqb_eq (a b : option string) :
  opt_str_eqb a b = true <-> a = b.
Proof.
  destruct a as [x|], b as [y|]; simpl; try (split; congruence).
  rewrite String.eqb_eq. split; congruence.
Qed.

(** ** Classifier *)

Section ClassifierFacts.
Context {RT : PyRuntime}.

(** The classifier as a decision list on the three comparisons. *)
Lemma classify_cfdi_unfold (c : CFDI.t) (u : string) :
  classify_cfdi (Some c) (Some u) =
  if u =? "" then "No clasificado"
  else if PyStr.upper (CFDI.tipo c) =? "I" then
    if normalize u =? normalize (CFDI.emisor_rfc c) then "Ingresos"
    else if normalize u =? normalize (CFDI.receptor_rfc c) then "Egresos"
    else "No clasificado"
  else "No clasificado".
Proof.
  unfold classify_cfdi, normalize, PyStr.truthy.
  rewrite !or_str_blank, negb_involutive. reflexivity.
Qed.

Lemma classify_sound (cfdi : option CFDI.t) (u : option string) (l : string) :
  Classified cfdi u l -> classify_cfdi cfdi u = l.
Proof.
  intros H. destruct H as [u | cfdi | cfdi | c u Hu Ht He | c u Hu Ht He Hr
                          | c u Hu Ht He Hr | c u Ht].
  - reflexivity.
  - destruct cfdi; reflexivity.
  - destruct cfdi; reflexivity.
  - rewrite classify_cfdi_unfold.
    apply String.eqb_neq in Hu. rewrite Hu.
    apply String.eqb_eq in Ht, He. rewrite Ht, He. reflexivity.
  - rewrite classify_cfdi_unfold.
    apply String.eqb_neq in Hu, He. rewrite Hu, He.
    apply String.eqb_eq in Ht, Hr. rewrite Ht, Hr. reflexivity.
  - rewrite classify_cfdi_unfold.
    apply String.eqb_neq in Hu, He, Hr. rewrite Hu, He, Hr.
    apply String.eqb_eq in Ht. rewrite Ht. reflexivity.
  - rewrite classify_cfdi_unfold.
    apply String.eqb_neq in Ht. rewrite Ht.
    destruct (u =? ""); reflexivity.
Qed.

Lemma classify_complete (cfdi : option CFDI.t) (u : option string) :
  Classified cfdi u (classify_cfdi cfdi u).
Proof.
  destruct cfdi as [c|]; [|apply Cl_no_record].
  destruct u as [u|]; [|apply Cl_no_rfc].
  rewrite classify_cfdi_unfold.
  destruct (String.eqb_spec u "") as [->|Hu]; [apply Cl_empty_rfc|].
  destruct (String.eqb_spec (PyStr.upper (CFDI.tipo c)) "I") as [Ht|Ht];
    [|apply Cl_other_type; exact Ht].
  destruct (String.eqb_spec (normalize u) (normalize (CFDI.emisor_rfc c)))
    as [He|He]; [apply Cl_ingresos; assumption|].
  destruct (String.eqb_spec (normalize u) (normalize (CFDI.receptor_rfc c)))
    as [Hr|Hr]; [apply Cl_egresos; assumption|apply Cl_neither; assumption].
Qed.

(** C1 (amended): for every record and taxpayer id, the label returned by
    [classify_cfdi] is exactly the one the rule of section 4.2 assigns,
    where the taxpayer id and both party tax-ids are trimmed and
    uppercased and the document type is uppercased before it is compared
    with "I"; the function is total and its value is one of the three
    labels. *)
Theorem classify_cfdi_rule (cfdi : option CFDI.t) (u : option string) :
  (forall l : string, Classified cfdi u l <-> classify_cfdi cfdi u = l) /\
  (classify_cfdi cfdi u = "Ingresos" \/
   classify_cfdi cfdi u = "Egresos" \/
   classify_cfdi cfdi u = "No clasificado").
Proof.
  split.
  - intros l. split.
    + apply classify_sound.
    + intros <-. apply classify_complete.
  - destruct (classify_complete cfdi u); auto.
Qed.

(** C10: a taxpayer id made of whitespace only is not taken as absent;
    on a type-"I" record whose issuer tax-id is empty it is trimmed to
    the empty string, equals the issuer tax-id, and the label is
    "Ingresos". *)
Theorem classify_whitespace_rfc (c : CFDI.t) (u : string) :
  PyStr.str_isspace u = true ->
  CFDI.tipo c = "I" ->
  CFDI.emisor_rfc c = "" ->
  classify_cfdi (Some c) (Some u) = "Ingresos".
Proof.
  intros Hu Ht He. unfold PyStr.str_isspace in Hu.
  apply andb_true_iff in Hu as [Hne Hsp].
  rewrite classify_cfdi_unfold, Ht, He.
  apply negb_true_iff in Hne. rewrite Hne.
  unfold normalize. rewrite (strip_all_space u Hsp). reflexivity.
Qed.

(** C2 (amended): on a type-"I" document issued by AAA010101AAA to
    BBB010101BBB, the taxpayer id BBB010101BBB (the receiver) yields
    "Egresos" and the taxpayer id AAA010101AAA (the issuer) yields
    "Ingresos". *)
Theorem classify_end_to_end (c : CFDI.t) :
  CFDI.tipo c = "I" ->
  CFDI.emisor_rfc c = "AAA010101AAA" ->
  CFDI.receptor_rfc c = "BBB010101BBB" ->
  classify_cfdi (Some c) (Some "BBB010101BBB") = "Egresos" /\
  classify_cfdi (Some c) (Some "AAA010101AAA") = "Ingresos".
Proof.
  intros Ht He Hr. rewrite !classify_cfdi_unfold, Ht, He, Hr.
  split; reflexivity.
Qed.

End ClassifierFacts.

(** ** Parser: the accumulation loops *)

Section ParserFacts.
Context {RT : PyRuntime}.
Variable etree_parse : string -> option Document.

Lemma sum_from_app (a : float) (l1 l2 : list float) :
  sum_from a (l1 ++ l2) = sum_from (sum_from a l1) l2.
Proof. apply fold_left_app. Qed.

(** Case analysis on the tax code of an entry. *)
Ltac code_cases e :=
  destruct (opt_str_eqb (get e "Impuesto") (Some "001")) eqn:?H1;
  destruct (opt_str_eqb (get e "Impuesto") (Some "002")) eqn:?H2;
  destruct (opt_str_eqb (get e "Impuesto") (Some "003")) eqn:?H3;
  repeat match goal with
         | H : opt_str_eqb _ _ = true |- _ => apply opt_str_eqb_eq in H
         end;
  try congruence.

Lemma fold_doc_traslado (l : list Element) (acc : Tot.t) :
  fold_left doc_traslado l acc =
  Tot.mk (sum_from (Tot.iva_trasladado acc) (amounts "002" l))
         (Tot.isr_retenido acc) (Tot.iva_retenido acc) (Tot.ieps_total acc).
Proof.
  revert acc. induction l as [|e l IH]; intros acc.
  - destruct acc; reflexivity.
  - simpl fold_left. rewrite IH. unfold doc_traslado, amounts, with_code. simpl filter.
    destruct (opt_str_eqb (get e "Impuesto") (Some "002")); reflexivity.
Qed.

Lemma acc_retencion_fields (acc : Tot.t) (e : Element) :
  acc_retencion acc (get e "Impuesto") (_safe_float (get e "Importe")) =
  Tot.mk (Tot.iva_trasladado acc)
         (sum_from (Tot.isr_retenido acc) (amounts "001" [e]))
         (sum_from (Tot.iva_retenido acc) (amounts "002" [e]))
         (sum_from (Tot.ieps_total acc) (amounts "003" [e])).
Proof.
  unfold acc_retencion, amounts, with_code. simpl filter.
  code_cases e; destruct acc; reflexivity.
Qed.

Lemma amounts_cons (code : string) (e : Element) (l : list Element) :
  amounts code (e :: l) = amounts code [e] ++ amounts code l.
Proof.
  unfold amounts, with_code. simpl filter.
  destruct (opt_str_eqb (get e "Impuesto") (Some code)); reflexivity.
Qed.

Lemma fold_doc_retencion (l : list Element) (acc : Tot.t) :
  fold_left doc_retencion l acc =
  Tot.mk (Tot.iva_trasladado acc)
         (sum_from (Tot.isr_retenido acc) (amounts "001" l))
         (sum_from (Tot.iva_retenido acc) (amounts "002" l))
         (sum_from (Tot.ieps_total acc) (amounts "003" l)).
Proof.
  revert acc. induction l as [|e l IH]; intros acc.
  - destruct acc; reflexivity.
  - simpl fold_left.
    rewrite (amounts_cons "001" e l), (amounts_cons "002" e l),
      (amounts_cons "003" e l), !sum_from_app.
    rewrite IH. unfold doc_retencion.
    rewrite acc_retencion_fields. reflexivity.
Qed.

Lemma fold_line_traslado (l : list Element) (acc : Tot.t)
  (d : dict (option string) float) :
  fst (fold_left line_traslado l (acc, d)) =
  Tot.mk (sum_from (Tot.iva_trasladado acc) (amounts "002" l))
         (Tot.isr_retenido acc) (Tot.iva_retenido acc)
         (sum_from (Tot.ieps_total acc) (amounts "003" l)).
Proof.
  revert acc d. induction l as [|e l IH]; intros acc d.
  - destruct acc; reflexivity.
  - simpl fold_left.
    rewrite (amounts_cons "002" e l), (amounts_cons "003" e l), !sum_from_app.
    unfold amounts at 1 3. unfold with_code. simpl filter.
    code_cases e; rewrite IH; reflexivity.
Qed.

Lemma fold_line_retencion (l : list Element) (acc : Tot.t)
  (d : dict (option string) float) :
  fst (fold_left line_retencion l (acc, d)) =
  Tot.mk (Tot.iva_trasladado acc)
         (sum_from (Tot.isr_retenido acc) (amounts "001" l))
         (sum_from (Tot.iva_retenido acc) (amounts "002" l))
         (sum_from (Tot.ieps_total acc) (amounts "003" l)).
Proof.
  revert acc d. induction l as [|e l IH]; intros acc d.
  - destruct acc; reflexivity.
  - simpl fold_left.
    rewrite (amounts_cons "001" e l), (amounts_cons "002" e l),
      (amounts_cons "003" e l), !sum_from_app.
    rewrite IH, acc_retencion_fields. reflexivity.
Qed.

(** The document-level block: what it adds to each accumulator. *)
Lemma doc_impuestos_ok (root : Element) (ns : dict string string)
  (acc acc' : Tot.t) :
  doc_impuestos root ns acc = Ok acc' ->
  acc' =
  Tot.mk (sum_from (Tot.iva_trasladado acc) (amounts "002" (traslados ns root)))
         (sum_from (Tot.isr_retenido acc) (amounts "001" (retenciones ns root)))
         (sum_from (Tot.iva_retenido acc) (amounts "002" (retenciones ns root)))
         (sum_from (Tot.ieps_total acc) (amounts "003" (retenciones ns root))).
Proof.
  unfold doc_impuestos, traslados, retenciones, tax_nodes, child, childs, bind.
  destruct (find root "cfdi:Impuestos" ns) as [[node|]|]; try discriminate.
  - destruct (find node "cfdi:Traslados" ns) as [[tn|]|]; try discriminate;
      [destruct (findall tn "cfdi:Traslado" ns) as [lt|]; try discriminate|];
      (destruct (find node "cfdi:Retenciones" ns) as [[rn|]|];
       try discriminate;
       [destruct (findall rn "cfdi:Retencion" ns) as [lr|]; try discriminate|]);
      intros [= <-];
      rewrite ?fold_doc_retencion, ?fold_doc_traslado;
      destruct acc; reflexivity.
  - intros [= <-]. destruct acc; reflexivity.
Qed.

(** One line item: what it adds to each accumulator, and the item it
    appends. *)
Lemma concepto_step_ok (uuid : string) (ns : dict string string)
  (acc acc' : Tot.t) (cs cs' : list Concepto.t) (k : Element) :
  concepto_step uuid ns (acc, cs) k = Ok (acc', cs') ->
  acc' =
  Tot.mk (sum_from (Tot.iva_trasladado acc) (amounts "002" (traslados ns k)))
         (sum_from (Tot.isr_retenido acc) (amounts "001" (retenciones ns k)))
         (sum_from (Tot.iva_retenido acc) (amounts "002" (retenciones ns k)))
         (sum_from (sum_from (Tot.ieps_total acc)
                             (amounts "003" (traslados ns k)))
                   (amounts "003" (retenciones ns k))) /\
  exists c : Concepto.t, cs' = cs ++ [c] /\ Concepto.uuid c = uuid.
Proof.
  unfold concepto_step, traslados, retenciones, tax_nodes, child, childs, bind.
  destruct (find k "cfdi:Impuestos" ns) as [[node|]|]; try discriminate.
  - destruct (find node "cfdi:Traslados" ns) as [[tn|]|]; try discriminate;
      [destruct (findall tn "cfdi:Traslado" ns) as [lt|]; try discriminate|];
      (destruct (find node "cfdi:Retenciones" ns) as [[rn|]|];
       try discriminate;
       [destruct (findall rn "cfdi:Retencion" ns) as [lr|]; try discriminate|]);
      intros [= <- <-];
      (split; [|eexists; split; reflexivity]);
      cbn [fst snd];
      rewrite ?fold_line_retencion, ?fold_line_traslado;
      destruct acc; reflexivity.
  - intros [= <- <-].
    split; [destruct acc; reflexivity|eexists; split; reflexivity].
Qed.

(** The loop over the line items. *)
Lemma foldM_concepto_ok (uuid : string) (ns : dict string string)
  (l : list Element) :
  forall (acc acc' : Tot.t) (cs cs' : list Concepto.t),
  foldM (concepto_step uuid ns) l (acc, cs) = Ok (acc', cs') ->
  acc' =
  Tot.mk (sum_from (Tot.iva_trasladado acc) (line_iva_trasladado ns l))
         (sum_from (Tot.isr_retenido acc) (line_isr_retenido ns l))
         (sum_from (Tot.iva_retenido acc) (line_iva_retenido ns l))
         (sum_from (Tot.ieps_total acc) (line_ieps ns l)) /\
  exists new : list Concepto.t,
    cs' = cs ++ new /\ List.length new = List.length l /\
    Forall (fun c => Concepto.uuid c = uuid) new.
Proof.
  induction l as [|k l IH]; intros acc acc' cs cs' H.
  - injection H as <- <-. split; [destruct acc; reflexivity|].
    exists []. rewrite app_nil_r. auto.
  - cbn [foldM] in H. unfold bind in H.
    destruct (concepto_step uuid ns (acc, cs) k) as [[acc1 cs1]|] eqn:Hk;
      [|discriminate].
    apply concepto_step_ok in Hk as [-> (c & -> & Hc)].
    apply IH in H as [-> (new & -> & Hlen & Hall)].
    split.
    + unfold line_iva_trasladado, line_isr_retenido, line_iva_retenido,
        line_ieps. cbn [flat_map Tot.iva_trasladado Tot.isr_retenido
                         Tot.iva_retenido Tot.ieps_total].
      rewrite !sum_from_app. reflexivity.
    + exists (c :: new). rewrite <- app_assoc. cbn [app List.length].
      auto.
Qed.

Lemma conceptos_ok (root : Element) (uuid : string)
  (ns : dict string string) (acc acc' : Tot.t) (cs : list Concepto.t) :
  conceptos root uuid ns acc = Ok (acc', cs) ->
  acc' =
  Tot.mk (sum_from (Tot.iva_trasladado acc)
                   (line_iva_trasladado ns (line_items ns root)))
         (sum_from (Tot.isr_retenido acc)
                   (line_isr_retenido ns (line_items ns root)))
         (sum_from (Tot.iva_retenido acc)
                   (line_iva_retenido ns (line_items ns root)))
         (sum_from (Tot.ieps_total acc)
                   (line_ieps ns (line_items ns root))) /\
  Forall (fun c => Concepto.uuid c = uuid) cs.
Proof.
  unfold conceptos, line_items, child, childs, bind.
  destruct (find root "cfdi:Conceptos" ns) as [[cp|]|]; try discriminate.
  - destruct (findall cp "cfdi:Concepto" ns) as [l|]; try discriminate.
    intros H. apply foldM_concepto_ok in H as [-> (new & -> & _ & Hall)].
    split; [reflexivity|exact Hall].
  - intros [= <- <-]. split; [destruct acc; reflexivity|constructor].
Qed.

(** What an accepted parse went through. *)
Lemma parse_cfdi_accepted (path : string) (c : CFDI.t)
  (items : list Concepto.t) :
  parse_cfdi etree_parse path = Ok (Some c, items) ->
  exists (d : Document) (acc0 acc : Tot.t),
    etree_parse path = Some d /\
    doc_impuestos (getroot d) (build_nsmap (root_nsmap d)) Tot.zero = Ok acc0 /\
    conceptos (getroot d) (CFDI.uuid c) (build_nsmap (root_nsmap d)) acc0
      = Ok (acc, items) /\
    tax_totals c =
      (Tot.iva_trasladado acc, Tot.isr_retenido acc, Tot.iva_retenido acc,
       Tot.ieps_total acc) /\
    CFDI.num_conceptos c = List.length items /\
    CFDI.uuid c <> "" /\
    CFDI.tipo c <> "P".
Proof.
  unfold parse_cfdi, bind. intros H.
  destruct (etree_parse path) as [d|]; [|discriminate].
  set (root := getroot d) in *. set (ns := build_nsmap (root_nsmap d)) in *.
  match type of H with
  | (if ?t =? "P" then _ else _) = _ =>
      destruct (String.eqb_spec t "P") as [|Htipo]; [discriminate|]
  end.
  destruct (find root "cfdi:Complemento" ns) as [co|]; [|discriminate].
  match type of H with
  | match ?u with Ok _ => _ | Raise _ => _ end = _ =>
      destruct u as [[uuid|]|]; try discriminate
  end.
  destruct (PyStr.truthy uuid) eqn:Huuid; [|discriminate]. cbn [negb] in H.
  destruct (find root "cfdi:Emisor" ns) as [em|]; [|discriminate].
  destruct (find root "cfdi:Receptor" ns) as [re|]; [|discriminate].
  destruct (doc_impuestos root ns Tot.zero) as [acc0|] eqn:Hdoc; [|discriminate].
  destruct (conceptos root uuid ns acc0) as [[acc cs]|] eqn:Hcs; [|discriminate].
  injection H as <- <-.
  exists d, acc0, acc. cbn.
  repeat split; try assumption; try reflexivity.
  intros ->. discriminate.
Qed.

(** Each document-level total of an accepted parse is the sum, from
    [0.0] and in document order, of the amounts listed for it: the
    document-level entries and, added on top, those of every line item. *)
Lemma parse_cfdi_totals (path : string) (c : CFDI.t)
  (items : list Concepto.t) :
  parse_cfdi etree_parse path = Ok (Some c, items) ->
  exists d : Document,
    etree_parse path = Some d /\
    CFDI.iva_trasladado c = sum_from float_zero (iva_trasladado_entries d) /\
    CFDI.isr_retenido c = sum_from float_zero (isr_retenido_entries d) /\
    CFDI.iva_retenido c = sum_from float_zero (iva_retenido_entries d) /\
    CFDI.ieps c = sum_from float_zero (ieps_entries d).
Proof.
  intros H.
  apply parse_cfdi_accepted in H
    as (d & acc0 & acc & Hd & Hdoc & Hcs & Htot & _).
  apply doc_impuestos_ok in Hdoc. apply conceptos_ok in Hcs as [Hacc _].
  exists d. split; [exact Hd|].
  unfold tax_totals in Htot. injection Htot as -> -> -> ->.
  subst acc acc0.
  unfold iva_trasladado_entries, isr_retenido_entries, iva_retenido_entries,
    ieps_entries.
  cbn [Tot.iva_trasladado Tot.isr_retenido Tot.iva_retenido Tot.ieps_total
       Tot.zero].
  rewrite !sum_from_app. auto.
Qed.

(** C4: in an accepted parse the four totals are accumulated additively
    from the document-level tax nodes and, on top of them, from every
    line item's tax nodes; with one document-level transferred VAT entry
    of amount [x] and one line-level transferred VAT entry of amount [y]
    the transferred-VAT total is [(0.0 + x) + y], that is [x + y]. *)
Theorem parse_cfdi_taxes_additive (path : string) (d : Document)
  (c : CFDI.t) (items : list Concepto.t) :
  etree_parse path = Some d ->
  parse_cfdi etree_parse path = Ok (Some c, items) ->
  (CFDI.iva_trasladado c = sum_from float_zero (iva_trasladado_entries d) /\
   CFDI.isr_retenido c = sum_from float_zero (isr_retenido_entries d) /\
   CFDI.iva_retenido c = sum_from float_zero (iva_retenido_entries d) /\
   CFDI.ieps c = sum_from float_zero (ieps_entries d)) /\
  (forall x y : float,
     amounts "002" (traslados (build_nsmap (root_nsmap d)) (getroot d)) = [x] ->
     line_iva_trasladado (build_nsmap (root_nsmap d))
       (line_items (build_nsmap (root_nsmap d)) (getroot d)) = [y] ->
     CFDI.iva_trasladado c = float_add (float_add float_zero x) y /\
     (float_add float_zero x = x -> CFDI.iva_trasladado c = float_add x y)).
Proof.
  intros Hd H.
  destruct (parse_cfdi_totals path c items H) as (d' & Hd' & Hiva & Hrest).
  assert (d' = d) as -> by congruence.
  split; [split; assumption|].
  intros x y Hx Hy. rewrite Hiva. unfold iva_trasladado_entries.
  rewrite Hx, Hy. cbn. split; [reflexivity|]. intros ->. reflexivity.
Qed.

(** C5 (amended): among the document-level transferred entries only VAT
    (code "002") is read.  Two accepted documents with the same prefix
    map, line items and document-level withheld entries, whose
    document-level transferred entries agree on those of code "002", get
    the same four totals: transferred entries with any other code, "001"
    and "003" included, contribute nothing. *)
Theorem doc_level_traslados_only_vat (p1 p2 : string) (d1 d2 : Document)
  (c1 c2 : CFDI.t) (items1 items2 : list Concepto.t) :
  etree_parse p1 = Some d1 ->
  etree_parse p2 = Some d2 ->
  parse_cfdi etree_parse p1 = Ok (Some c1, items1) ->
  parse_cfdi etree_parse p2 = Ok (Some c2, items2) ->
  build_nsmap (root_nsmap d1) = build_nsmap (root_nsmap d2) ->
  line_items (build_nsmap (root_nsmap d1)) (getroot d1) =
    line_items (build_nsmap (root_nsmap d2)) (getroot d2) ->
  retenciones (build_nsmap (root_nsmap d1)) (getroot d1) =
    retenciones (build_nsmap (root_nsmap d2)) (getroot d2) ->
  with_code "002" (traslados (build_nsmap (root_nsmap d1)) (getroot d1)) =
    with_code "002" (traslados (build_nsmap (root_nsmap d2)) (getroot d2)) ->
  tax_totals c1 = tax_totals c2.
Proof.
  intros Hd1 Hd2 H1 H2 Hns Hli Hret Htr.
  destruct (parse_cfdi_totals p1 c1 items1 H1) as (d & Hd & Ha1 & Hb1 & Hc1 & He1).
  assert (d = d1) as -> by congruence. clear Hd.
  destruct (parse_cfdi_totals p2 c2 items2 H2) as (d & Hd & Ha2 & Hb2 & Hc2 & He2).
  assert (d = d2) as -> by congruence. clear Hd.
  unfold tax_totals. rewrite Ha1, Hb1, Hc1, He1, Ha2, Hb2, Hc2, He2.
  unfold iva_trasladado_entries, isr_retenido_entries, iva_retenido_entries,
    ieps_entries, amounts.
  rewrite Hli, Hret, Htr, Hns. reflexivity.
Qed.

(** C9: in an accepted parse, [num_conceptos] is the length of the
    returned list of line items, and every line item carries the UUID of
    the record. *)
Theorem parse_cfdi_line_items (path : string) (c : CFDI.t)
  (items : list Concepto.t) :
  parse_cfdi etree_parse path = Ok (Some c, items) ->
  CFDI.num_conceptos c = List.length items /\
  Forall (fun it => Concepto.uuid it = CFDI.uuid c) items.
Proof.
  intros H.
  apply parse_cfdi_accepted in H
    as (d & acc0 & acc & _ & _ & Hcs & _ & Hnum & _).
  apply conceptos_ok in Hcs as [_ Hall]. split; assumption.
Qed.

End ParserFacts.

(** ** Parser: when an exception leaves [parse_cfdi] *)

Section ParserExceptions.
Context {RT : PyRuntime}.
Variable etree_parse : string -> option Document.





(** A path whose prefix is not bound raises [SyntaxError]. *)
Lemma find_raises (ns : dict string string) (e : Element)
  (path prefix local : string) :
  dict_get String.eqb ns prefix = None ->
  PyStr.split_first path ":" = Some (prefix, local) ->
  find e path ns =
  Raise (SyntaxError ("prefix '" ++ prefix ++ "' not found in prefix map")%string).
Proof.
  intros Hp Hs. unfold find, qualify. rewrite Hs, Hp. reflexivity.
Qed.


Section Bound.
Variable ns : dict string string.
Variable cfdi_uri : string.
Hypothesis Hcfdi : dict_get String.eqb ns "cfdi" = Some cfdi_uri.





End Bound.


(** [parse_cfdi] raises [SyntaxError] on every readable file whose type
    is not "P" and whose root binds neither the [cfdi] prefix nor a
    default namespace. *)
Lemma parse_cfdi_raises (path : string) (d : Document) :
  etree_parse path = Some d ->
  comprobante_tipo (getroot d) <> "P" ->
  dict_get String.eqb (build_nsmap (root_nsmap d)) "cfdi" = None ->
  parse_cfdi etree_parse path =
  Raise (SyntaxError "prefix 'cfdi' not found in prefix map").
Proof.
  intros Hd Ht Hns. unfold parse_cfdi. rewrite Hd.
  apply String.eqb_neq in Ht. rewrite Ht.
  rewrite (find_raises _ _ "cfdi:Complemento" "cfdi" "Complemento" Hns eq_refl).
  reflexivity.
Qed.

End ParserExceptions.

(** ** Batch processor: the sequence of signals *)

Section ScannerFacts.
Context {RT : PyRuntime}.
Variable etree_parse : string -> option Document.
Variable _collect_xml_files : list string -> list string.

(** No counter decreases over one file. *)
Lemma scan_file_counters (user_rfc : string) (idx : nat) (st : Scan.t)
  (cfdi : option CFDI.t) (concepts : list Concepto.t) :
  let st' := scan_file user_rfc idx st cfdi concepts in
  Scan.processed st' = idx /\
  Scan.invalid_count st <= Scan.invalid_count st' /\
  Scan.duplicates st <= Scan.duplicates st' /\
  Scan.cfdi33_count st <= Scan.cfdi33_count st'.
Proof.
  unfold scan_file. destruct cfdi as [c|]; cbn.
  - destruct (seen (Scan.uuids_seen st) (CFDI.uuid c)); cbn.
    + repeat split; lia.
    + match goal with
      | |- context [if ?b then _ else _] => destruct b
      end; repeat split; lia.
  - repeat split; lia.
Qed.

Lemma follows_weaken (idx idx' : nat) (st st' : Scan.t) (total : nat)
  (e : Event.t) :
  idx <= idx' ->
  Scan.invalid_count st <= Scan.invalid_count st' ->
  Scan.duplicates st <= Scan.duplicates st' ->
  Scan.cfdi33_count st <= Scan.cfdi33_count st' ->
  follows idx' st' total e -> follows idx st total e.
Proof.
  destruct e; cbn; [|tauto]. intros. repeat split; lia.
Qed.

(** The loop: its signals are progress signals numbered from [idx], each
    no smaller than the locals it started from, in non-decreasing order;
    there is one per file when the loop ends normally and fewer when an
    exception ends it. *)
Lemma run_loop_trace (user_rfc : string) (total : nat) (files : list string) :
  forall (idx : nat) (st : Scan.t) (evs : list Event.t) (r : result Scan.t),
  run_loop etree_parse user_rfc total files idx st = (evs, r) ->
  numbered idx total evs /\
  Forall (follows idx st total) evs /\
  StronglySorted progress_le evs /\
  match r with
  | Ok _ => List.length evs = List.length files
  | Raise _ => List.length evs < List.length files
  end.
Proof.
  induction files as [|file rest IH]; intros idx st evs r H;
    cbn [run_loop] in H.
  - injection H as <- <-. repeat split; try constructor.
    intros [|i] e He; discriminate.
  - destruct (parse_cfdi etree_parse file) as [[cfdi concepts]|ex].
    + destruct (scan_file_counters user_rfc idx st cfdi concepts)
        as (Hp & Hi & Hd & Hc).
      cbv zeta in Hp, Hi, Hd, Hc.
      remember (scan_file user_rfc idx st cfdi concepts) as st' eqn:Hst'.
      clear Hst'.
      destruct (run_loop etree_parse user_rfc total rest (S idx) st')
        as [evs' r'] eqn:Hrec.
      injection H as <- <-.
      apply IH in Hrec as (Hnum & Hfol & Hsort & Hlen).
      repeat split.
      * intros [|i] e He; cbn [nth_error] in He.
        -- injection He as <-. rewrite Hp, Nat.add_0_r. eauto.
        -- apply Hnum in He as (inv & dup & c33 & ->).
           exists inv, dup, c33. f_equal. lia.
      * constructor.
        -- cbn [follows]. rewrite Hp. repeat split; lia.
        -- eapply Forall_impl; [|exact Hfol]. intros e.
           apply follows_weaken; lia.
      * constructor; [exact Hsort|].
        eapply Forall_impl; [|exact Hfol]. intros e.
        destruct e; cbn [follows progress_le]; [|tauto].
        rewrite Hp. intros. repeat split; lia.
      * destruct r'; cbn [List.length]; lia.
    + injection H as <- <-. split; [|split; [|split]].
      * intros [|i] e He; discriminate.
      * constructor.
      * constructor.
      * cbn [List.length]. lia.
Qed.

(** The loop ends normally exactly when no call of [parse_cfdi] raises. *)
Lemma run_loop_returns (user_rfc : string) (total : nat)
  (files : list string) :
  (forall f : string, In f files ->
     exists r, parse_cfdi etree_parse f = Ok r) ->
  forall (idx : nat) (st : Scan.t),
  exists (evs : list Event.t) (st' : Scan.t),
    run_loop etree_parse user_rfc total files idx st = (evs, Ok st').
Proof.
  induction files as [|file rest IH]; intros Hok idx st; cbn.
  - eauto.
  - destruct (Hok file (or_introl eq_refl)) as [[cfdi concepts] ->].
    destruct (IH (fun f Hf => Hok f (or_intror Hf)) (S idx)
                 (scan_file user_rfc idx st cfdi concepts))
      as (evs & st' & ->).
    eauto.
Qed.

(** A run in which no call of [parse_cfdi] raises: one progress signal
    per enumerated file, numbered 1 to n in traversal order, with
    counters that never decrease and a constant total, followed by the
    completion signal, which is the last signal and the only one of its
    kind. *)
Lemma run_signals (paths : list string) (user_rfc : string) :
  (forall f : string, In f (_collect_xml_files paths) ->
     exists r, parse_cfdi etree_parse f = Ok r) ->
  exists (evs : list Event.t) (cfdis : list CFDI.t)
         (concepts : list Concepto.t),
    _run etree_parse _collect_xml_files paths user_rfc =
      (evs ++ [Event.finished cfdis concepts], None) /\
    List.length evs = List.length (_collect_xml_files paths) /\
    numbered 1 (List.length (_collect_xml_files paths)) evs /\
    StronglySorted progress_le evs /\
    Forall (fun e => Event.is_progress e = true) evs.
Proof.
  intros Hok. unfold _run.
  destruct (run_loop_returns user_rfc (List.length (_collect_xml_files paths))
              (_collect_xml_files paths) Hok 1 Scan.init)
    as (evs & st' & Hrun).
  rewrite Hrun. exists evs, (Scan.cfdis st'), (Scan.concepts_all st').
  apply run_loop_trace in Hrun as (Hnum & Hfol & Hsort & Hlen).
  repeat split; try assumption.
  eapply Forall_impl; [|exact Hfol]. intros [] Hf; [reflexivity|destruct Hf].
Qed.

(** A run in which some call of [parse_cfdi] raises: the signals are
    progress signals only, fewer than the files, and no completion
    signal is emitted. *)
Lemma run_aborted (paths : list string) (user_rfc : string)
  (evs : list Event.t) (ex : exn) :
  _run etree_parse _collect_xml_files paths user_rfc = (evs, Some ex) ->
  List.length evs < List.length (_collect_xml_files paths) /\
  Forall (fun e => Event.is_progress e = true) evs.
Proof.
  unfold _run.
  destruct (run_loop etree_parse user_rfc _ _ 1 Scan.init) as [evs' [st'|ex']]
    eqn:Hrun; [discriminate|].
  intros [= <- <-].
  apply run_loop_trace in Hrun as (_ & Hfol & _ & Hlen).
  split; [exact Hlen|].
  eapply Forall_impl; [|exact Hfol]. intros [] Hf; [reflexivity|destruct Hf].
Qed.

End ScannerFacts.

(** ** Aggregation engine *)

Section KpiFacts.
Context {RT : PyRuntime}.

(** The loop of [compute_kpis] from any running sums: each sum in closed
    form. *)
Lemma kpi_loop_from (l : list CFDI.t) :
  forall a : Acc.t,
  fold_left kpi_step l a =
  Acc.mk
    (sum_from (Acc.total_ingresos a)
              (map CFDI.total (filter (labelled "Ingresos") l)))
    (sum_from (Acc.total_egresos a)
              (map CFDI.total (filter (labelled "Egresos") l)))
    (sum_from (Acc.total_iva_trasladado a) (map CFDI.iva_trasladado l))
    (sum_from (Acc.total_isr_retenido a) (map CFDI.isr_retenido l))
    (sum_from (Acc.total_iva_retenido a) (map CFDI.iva_retenido l))
    (sum_from (Acc.total_ieps a) (map CFDI.ieps l))
    (Acc.count_ingresos a + count_label "Ingresos" l)
    (Acc.count_egresos a + count_label "Egresos" l)
    (fold_left (fun d c => dd_add d (month_key (CFDI.fecha c)) (CFDI.total c))
               (filter (labelled "Ingresos") l) (Acc.ingresos_por_mes a))
    (fold_left (fun d c => dd_add d (month_key (CFDI.fecha c)) (CFDI.total c))
               (filter (labelled "Egresos") l) (Acc.egresos_por_mes a))
    (fold_left (fun d c => dd_add d (CFDI.receptor_rfc c) (CFDI.total c))
               (filter (labelled "Ingresos") l) (Acc.clientes_counter a))
    (fold_left (fun d c => dd_add d (CFDI.emisor_rfc c) (CFDI.total c))
               (filter (labelled "Egresos") l) (Acc.proveedores_counter a)).
Proof.
  induction l as [|c l IH]; intros a.
  - destruct a. cbn. rewrite !Nat.add_0_r. reflexivity.
  - cbn [fold_left]. rewrite IH. clear IH.
    unfold kpi_step, kpi_taxes, kpi_directional, count_label, labelled.
    cbn [filter map].
    destruct (String.eqb_spec (CFDI.clasificacion c) "Ingresos") as [Hi|Hi].
    + rewrite Hi. cbn. f_equal. lia.
    + destruct (String.eqb_spec (CFDI.clasificacion c) "Egresos") as [He|He].
      * cbn. f_equal. lia.
      * cbn. reflexivity.
Qed.

(** C6: [neto] is [total_ingresos - total_egresos], and [conteo_cfdi] is
    the number of records labelled "Ingresos" plus the number labelled
    "Egresos"; records with any other label are not counted. *)
Theorem compute_kpis_totals (cfdis : list CFDI.t)
  (invalid_count duplicates_count cfdi33_count : nat) :
  let k := compute_kpis cfdis invalid_count duplicates_count cfdi33_count in
  Kpis.neto k = float_sub (Kpis.total_ingresos k) (Kpis.total_egresos k) /\
  Kpis.conteo_cfdi k =
    count_label "Ingresos" cfdis + count_label "Egresos" cfdis.
Proof.
  cbv zeta. unfold compute_kpis. rewrite kpi_loop_from. cbn.
  split; reflexivity.
Qed.

Lemma filter_unlabelled (label : string) (cfdis : list CFDI.t) (c : CFDI.t) :
  CFDI.clasificacion c <> label ->
  filter (labelled label) (cfdis ++ [c]) = filter (labelled label) cfdis.
Proof.
  intros H. rewrite filter_app. cbn. unfold labelled at 2.
  apply String.eqb_neq in H. rewrite H. apply app_nil_r.
Qed.

End KpiFacts.

(** ** The code run on the sample documents *)

Section Runs.
Local Open Scope float_scope.

(** C1 (counterexample): a record whose type is the lowercase "i", which
    is not "I", is classified "Ingresos" for its issuer: the type is
    uppercased before the comparison. *)
Lemma classify_lowercase_type :
  ~ (forall (c : CFDI.t) (u : string),
       CFDI.tipo c <> "I" ->
       classify_cfdi (Some c) (Some u) = "No clasificado").
Proof.
  intros H.
  specialize (H (invoice "i" "AAA010101AAA" "BBB010101BBB") "AAA010101AAA").
  assert (Ht : CFDI.tipo (invoice "i" "AAA010101AAA" "BBB010101BBB") <> "I")
    by (cbn; discriminate).
  apply H in Ht. vm_compute in Ht. discriminate.
Qed.

(** C10 (witness): the taxpayer id of two spaces. *)
Lemma classify_whitespace_rfc_witness :
  PyStr.str_isspace "  " = true /\
  classify_cfdi (Some (invoice "I" "" "BBB010101BBB")) (Some "  ") = "Ingresos".
Proof.
  split; [reflexivity|].
  apply (classify_whitespace_rfc (invoice "I" "" "BBB010101BBB") "  ");
    reflexivity.
Defined.

(** C2 (counterexample): on the record parsed from the document of the
    test, the receiver BBB010101BBB does not get "Ingresos" and the issuer
    AAA010101AAA does not get "Egresos". *)
Lemma classify_end_to_end_as_stated :
  parse_cfdi Sample.files "cfdi.xml" = Ok (Some Sample.record, Sample.items) /\
  classify_cfdi (Some Sample.record) (Some "BBB010101BBB") <> "Ingresos" /\
  classify_cfdi (Some Sample.record) (Some "AAA010101AAA") <> "Egresos".
Proof.
  split; [reflexivity|].
  split; intros H; vm_compute in H; discriminate.
Qed.

(** C2 (witness): the record parsed from the document of the test, of
    total 116.0 and with one line item. *)
Lemma classify_end_to_end_witness :
  parse_cfdi Sample.files "cfdi.xml" = Ok (Some Sample.record, Sample.items) /\
  CFDI.total Sample.record = 116 /\
  List.length Sample.items = 1%nat /\
  classify_cfdi (Some Sample.record) (Some "BBB010101BBB") = "Egresos" /\
  classify_cfdi (Some Sample.record) (Some "AAA010101AAA") = "Ingresos".
Proof.
  split; [reflexivity|].
  split; [reflexivity|]. split; [reflexivity|].
  apply (classify_end_to_end Sample.record); reflexivity.
Defined.

(** C3 (failing input): a well-formed file that declares no namespace is
    not rejected silently; [SyntaxError] leaves [parse_cfdi]. *)
Theorem parse_cfdi_undeclared_raises :
  Sample.files "undeclared.xml" = Some Sample.undeclared /\
  parse_cfdi Sample.files "undeclared.xml" =
    Raise (SyntaxError "prefix 'cfdi' not found in prefix map").
Proof. split; reflexivity. Qed.

(** C4 (witness): the document of the test has a document-level and a
    line-level transferred VAT of 16.0 each; the total is 32.0. *)
Lemma parse_cfdi_taxes_additive_witness :
  parse_cfdi Sample.files "cfdi.xml" = Ok (Some Sample.record, Sample.items) /\
  CFDI.iva_trasladado Sample.record = 32.
Proof.
  assert (Hp : parse_cfdi Sample.files "cfdi.xml"
               = Ok (Some Sample.record, Sample.items))
    by reflexivity.
  split; [exact Hp|].
  destruct (parse_cfdi_taxes_additive Sample.files "cfdi.xml" Sample.cfdi_40
              Sample.record Sample.items eq_refl Hp) as [_ Hxy].
  destruct (Hxy 16 16) as [_ H]; [reflexivity ..|].
  rewrite H; reflexivity.
Defined.

(** C5 (counterexample): in [isr.xml] the only tax entry is a
    document-level withheld entry of code 001 and amount 10.0; it is
    read into the withheld-ISR total, which is therefore not the sum of
    the line-level entries alone. *)
Lemma doc_level_withheld_isr_is_read :
  ~ (forall (path : string) (d : Document) (c : CFDI.t)
            (items : list Concepto.t),
       Sample.files path = Some d ->
       parse_cfdi Sample.files path = Ok (Some c, items) ->
       CFDI.isr_retenido c =
         sum_from float_zero
           (line_isr_retenido (build_nsmap (root_nsmap d))
              (line_items (build_nsmap (root_nsmap d)) (getroot d)))).
Proof.
  intros H.
  specialize (H "isr.xml" Sample.withheld_isr (Sample.record_of "isr.xml")
                (Sample.items_of "isr.xml") eq_refl).
  assert (Hp : parse_cfdi Sample.files "isr.xml"
               = Ok (Some (Sample.record_of "isr.xml"),
                     Sample.items_of "isr.xml"))
    by reflexivity.
  apply H in Hp.
  apply (f_equal (fun x : PrimFloat.float => PrimFloat.eqb x 10)) in Hp.
  vm_compute in Hp. discriminate.
Qed.

(** C5 (witness): [ieps.xml] is the document of the test with one more
    document-level transferred entry, of code 003 and amount 5.0; the
    four totals are those of the document of the test. *)
Lemma doc_level_traslados_only_vat_witness :
  parse_cfdi Sample.files "cfdi.xml" = Ok (Some Sample.record, Sample.items) /\
  parse_cfdi Sample.files "ieps.xml"
    = Ok (Some Sample.record_ieps, Sample.items_ieps) /\
  tax_totals Sample.record = tax_totals Sample.record_ieps /\
  tax_totals Sample.record_ieps = (32, 0, 0, 0).
Proof.
  assert (H1 : parse_cfdi Sample.files "cfdi.xml"
               = Ok (Some Sample.record, Sample.items))
    by reflexivity.
  assert (H2 : parse_cfdi Sample.files "ieps.xml"
               = Ok (Some Sample.record_ieps, Sample.items_ieps))
    by reflexivity.
  split; [exact H1|]. split; [exact H2|]. split; [|reflexivity].
  apply (doc_level_traslados_only_vat Sample.files "cfdi.xml" "ieps.xml"
           Sample.cfdi_40
           (Sample.with_taxes [Sample.traslado "002" "16";
                               Sample.traslado "003" "5"] [])
           Sample.record Sample.record_ieps Sample.items Sample.items_ieps);
    first [assumption | reflexivity].
Defined.

(** C8 (failing input): a batch of three files whose second declares no
    namespace.  One progress signal is emitted for three files, and no
    completion signal: the exception that leaves [parse_cfdi] ends the
    run. *)
Theorem run_undeclared_aborts :
  _run Sample.files Sample.listed
       ["cfdi.xml"; "undeclared.xml"; "cfdi.xml"] "AAA010101AAA" =
  ([Event.progress 1 0 0 0 3],
   Some (SyntaxError "prefix 'cfdi' not found in prefix map")).
Proof. reflexivity. Qed.

(** C9 (witness): the document of the test. *)
Lemma parse_cfdi_line_items_witness :
  parse_cfdi Sample.files "cfdi.xml" = Ok (Some Sample.record, Sample.items) /\
  CFDI.num_conceptos Sample.record = 1%nat /\
  List.length Sample.items = 1%nat /\
  Forall (fun it => Concepto.uuid it = CFDI.uuid Sample.record) Sample.items.
Proof.
  assert (Hp : parse_cfdi Sample.files "cfdi.xml"
               = Ok (Some Sample.record, Sample.items))
    by reflexivity.
  split; [exact Hp|]. split; [reflexivity|]. split; [reflexivity|].
  exact (proj2 (parse_cfdi_line_items Sample.files "cfdi.xml" Sample.record
                  Sample.items Hp)).
Defined.

(** A run over four files none of which makes [parse_cfdi] raise: the
    document of the test, an unreadable file, the document of the test
    again and a document with the same UUID. *)
Lemma run_signals_witness :
  _run Sample.files Sample.listed
       ["cfdi.xml"; "nope.xml"; "cfdi.xml"; "isr.xml"] "AAA010101AAA" =
    ([Event.progress 1 0 0 0 4; Event.progress 2 1 0 0 4;
      Event.progress 3 1 1 0 4; Event.progress 4 1 2 0 4] ++
     [Event.finished [CFDI.set_clasificacion Sample.record "Ingresos"]
                     Sample.items], None) /\
  exists (evs : list Event.t) (cfdis : list CFDI.t)
         (concepts : list Concepto.t),
    _run Sample.files Sample.listed
         ["cfdi.xml"; "nope.xml"; "cfdi.xml"; "isr.xml"] "AAA010101AAA" =
      (evs ++ [Event.finished cfdis concepts], None) /\
    List.length evs = 4%nat /\
    numbered 1 4 evs /\
    StronglySorted progress_le evs /\
    Forall (fun e => Event.is_progress e = true) evs.
Proof.
  split; [reflexivity|].
  apply (run_signals Sample.files Sample.listed
           ["cfdi.xml"; "nope.xml"; "cfdi.xml"; "isr.xml"] "AAA010101AAA").
  intros f [<-|[<-|[<-|[<-|[]]]]]; eexists; reflexivity.
Defined.


(** The file that declares no namespace has type "I" and leaves the
    [cfdi] prefix unbound: [parse_cfdi] raises. *)
Lemma parse_cfdi_raises_witness :
  comprobante_tipo (getroot Sample.undeclared) = "I" /\
  build_nsmap (root_nsmap Sample.undeclared) = [("tfd", Sample.tfd_ns)] /\
  parse_cfdi Sample.files "undeclared.xml" =
    Raise (SyntaxError "prefix 'cfdi' not found in prefix map").
Proof.
  split; [reflexivity|]. split; [reflexivity|].
  apply (parse_cfdi_raises Sample.files "undeclared.xml" Sample.undeclared);
    [reflexivity|cbn; discriminate|reflexivity].
Defined.

End Runs.

(** * Further properties *)

(** ** Dictionaries that accumulate sums *)

Section DictSums.
Context {RT : PyRuntime}.
Context {K A : Type}.
Variable eqb : K -> K -> bool.
Hypothesis eqb_spec : forall a b : K, eqb a b = true <-> a = b.
Variable key : A -> K.
Variable val : A -> float.

Local Abbreviation add := (add_entry eqb key val).
Local Abbreviation under := (filed eqb key).

Lemma eqb_false (a b : K) : eqb a b = false <-> a <> b.
Proof.
  destruct (eqb a b) eqn:E.
  - apply eqb_spec in E. split; [discriminate|congruence].
  - split; [|reflexivity]. intros _ H. apply eqb_spec in H. congruence.
Qed.

Lemma eqb_same (a : K) : eqb a a = true.
Proof. apply eqb_spec. reflexivity. Qed.

Lemma get_set_same (d : dict K float) (k : K) (v : float) :
  dict_get eqb (dict_set eqb d k v) k = Some v.
Proof.
  induction d as [|[k' v'] d IH]; simpl.
  - rewrite eqb_same. reflexivity.
  - destruct (eqb k' k) eqn:E; simpl; rewrite E; [reflexivity|exact IH].
Qed.

Lemma get_set_other (d : dict K float) (k k0 : K) (v : float) :
  k <> k0 ->
  dict_get eqb (dict_set eqb d k v) k0 = dict_get eqb d k0.
Proof.
  intros Hk. induction d as [|[k' v'] d IH]; simpl.
  - apply eqb_false in Hk. rewrite Hk. reflexivity.
  - destruct (eqb k' k) eqn:E; simpl.
    + apply eqb_spec in E. subst k'. apply eqb_false in Hk. rewrite Hk.
      reflexivity.
    + rewrite IH. reflexivity.
Qed.

Lemma get_default_set_same (d : dict K float) (k : K) (v w : float) :
  dict_get_default eqb (dict_set eqb d k v) k w = v.
Proof. unfold dict_get_default. rewrite get_set_same. reflexivity. Qed.

Lemma get_default_set_other (d : dict K float) (k k0 : K) (v w : float) :
  k <> k0 ->
  dict_get_default eqb (dict_set eqb d k v) k0 w =
  dict_get_default eqb d k0 w.
Proof.
  intros H. unfold dict_get_default. rewrite get_set_other by exact H.
  reflexivity.
Qed.

Lemma keys_set (d : dict K float) (k : K) (v : float) :
  keys (dict_set eqb d k v) =
  if existsb (fun k' => eqb k' k) (keys d) then keys d else keys d ++ [k].
Proof.
  unfold keys. induction d as [|[k' v'] d IH]; simpl; [reflexivity|].
  destruct (eqb k' k) eqn:E; simpl; [reflexivity|].
  rewrite IH. destruct (existsb _ (map fst d)); reflexivity.
Qed.

Lemma existsb_keys (d : dict K float) (k : K) :
  existsb (fun k' => eqb k' k) (keys d) = true <-> In k (keys d).
Proof.
  rewrite existsb_exists. split.
  - intros (k' & Hin & E). apply eqb_spec in E. congruence.
  - intros Hin. exists k. split; [exact Hin|apply eqb_same].
Qed.

Lemma in_keys_get (d : dict K float) (k : K) :
  In k (keys d) <-> dict_get eqb d k <> None.
Proof.
  unfold keys. induction d as [|[k' v'] d IH]; simpl.
  - split; [intros []|congruence].
  - destruct (eqb k' k) eqn:E.
    + apply eqb_spec in E. split; [discriminate|auto].
    + apply eqb_false in E. rewrite <- IH. split; [intros [|]|]; tauto.
Qed.

Lemma nodup_keys_set (d : dict K float) (k : K) (v : float) :
  NoDup (keys d) -> NoDup (keys (dict_set eqb d k v)).
Proof.
  intros H. rewrite keys_set.
  destruct (existsb (fun k' => eqb k' k) (keys d)) eqn:E; [exact H|].
  apply NoDup_app; [exact H|repeat constructor; intros []|].
  intros x Hx [<-|[]].
  apply existsb_keys in Hx. congruence.
Qed.

(** After accumulating [l] into [d]: the keys stay distinct, a key is
    present when it was or when some entry is filed under it, and its
    value is the sum, left to right, of the entries filed under it added
    to what [d] held. *)
Lemma accumulate (l : list A) :
  forall d : dict K float,
  NoDup (keys d) ->
  NoDup (keys (fold_left add l d)) /\
  forall k : K,
    (In k (keys (fold_left add l d)) <->
       In k (keys d) \/ under k l <> []) /\
    dict_get_default eqb (fold_left add l d) k float_zero =
      fold_left float_add (map val (under k l))
                (dict_get_default eqb d k float_zero).
Proof.
  induction l as [|x l IH]; intros d Hd.
  - split; [exact Hd|]. intros k. cbn. split; [|reflexivity]. tauto.
  - cbn [fold_left].
    destruct (IH (add d x) (nodup_keys_set d _ _ Hd)) as [Hn Hk].
    split; [exact Hn|]. intros k. destruct (Hk k) as [Hin Hget].
    unfold filed in *. cbn [filter].
    split.
    + rewrite Hin. unfold add_entry at 1. rewrite keys_set.
      destruct (eqb (key x) k) eqn:E.
      * apply eqb_spec in E. subst k.
        split; [intros _; right; discriminate|intros _; left].
        destruct (existsb _ (keys d)) eqn:Ex.
        -- apply existsb_keys. exact Ex.
        -- apply in_or_app. right. left. reflexivity.
      * apply eqb_false in E.
        destruct (existsb _ (keys d)) eqn:Ex; [tauto|].
        rewrite in_app_iff. cbn [In]. tauto.
    + rewrite Hget. unfold add_entry.
      destruct (eqb (key x) k) eqn:E.
      * apply eqb_spec in E. subst k. rewrite get_default_set_same.
        reflexivity.
      * apply eqb_false in E. rewrite get_default_set_other by exact E.
        reflexivity.
Qed.

End DictSums.

(** ** Parser: outcome, record invariants and line items *)

Section ParserFactsMore.
Context {RT : PyRuntime}.
Variable etree_parse : string -> option Document.

Lemma upper_char_idempotent (c : ascii) :
  PyStr.upper_char (PyStr.upper_char c) = PyStr.upper_char c.
Proof. destruct c as [[] [] [] [] [] [] [] []]; reflexivity. Qed.

Lemma upper_idempotent (s : string) :
  PyStr.upper (PyStr.upper s) = PyStr.upper s.
Proof.
  induction s as [|c s IH]; cbn [PyStr.upper]; [reflexivity|].
  rewrite upper_char_idempotent, IH. reflexivity.
Qed.

Lemma comprobante_tipo_upper (root : Element) :
  PyStr.upper (comprobante_tipo root) = comprobante_tipo root.
Proof.
  unfold comprobante_tipo.
  destruct (PyStr.truthy _); [apply upper_idempotent|reflexivity].
Qed.

Lemma or_str_truthy (x : option string) (d : string) :
  d <> "" -> PyStr.or_str x d <> "".
Proof.
  intros Hd. destruct x as [s|]; cbn; [|exact Hd].
  destruct (PyStr.truthy s) eqn:E; [|exact Hd].
  intros ->. discriminate.
Qed.

(** What an accepted parse read from the root element. *)
Lemma parse_cfdi_header (path : string) (c : CFDI.t)
  (items : list Concepto.t) :
  parse_cfdi etree_parse path = Ok (Some c, items) ->
  exists (d : Document) (acc : Tot.t),
    etree_parse path = Some d /\
    comprobante_tipo (getroot d) <> "P" /\
    stamp_uuid (build_nsmap (root_nsmap d)) (getroot d) = Some (CFDI.uuid c) /\
    CFDI.uuid c <> "" /\
    CFDI.tipo c = comprobante_tipo (getroot d) /\
    CFDI.moneda c = PyStr.or_str (get (getroot d) "Moneda") "MXN" /\
    CFDI.warnings c =
      (if PyStr.startswith (CFDI.version c) "3.3" then [warning_33] else []) /\
    CFDI.clasificacion c = "No clasificado" /\
    (exists acc0 : Tot.t,
       conceptos (getroot d) (CFDI.uuid c) (build_nsmap (root_nsmap d)) acc0
       = Ok (acc, items)).
Proof.
  unfold parse_cfdi, bind. intros H.
  destruct (etree_parse path) as [d|]; [|discriminate].
  destruct (String.eqb_spec (comprobante_tipo (getroot d)) "P") as [|Htipo];
    [discriminate|].
  destruct (find (getroot d) "cfdi:Complemento" _) as [[co|]|] eqn:Hco;
    try discriminate.
  destruct (find co "tfd:TimbreFiscalDigital" _) as [[ti|]|] eqn:Hti;
    try discriminate.
  destruct (get ti "UUID") as [uuid|] eqn:Hget; [|discriminate].
  destruct (PyStr.truthy uuid) eqn:Huuid; [|discriminate]. cbn [negb] in H.
  destruct (find (getroot d) "cfdi:Emisor" _) as [em|]; [|discriminate].
  destruct (find (getroot d) "cfdi:Receptor" _) as [re|]; [|discriminate].
  destruct (doc_impuestos (getroot d) _ Tot.zero) as [acc0|]; [|discriminate].
  destruct (conceptos (getroot d) uuid _ acc0) as [[acc cs]|] eqn:Hcs;
    [|discriminate].
  injection H as <- <-.
  exists d, acc. cbn [CFDI.uuid CFDI.tipo CFDI.moneda CFDI.warnings
                      CFDI.version CFDI.clasificacion].
  split; [reflexivity|]. split; [exact Htipo|].
  split; [unfold stamp_uuid, child; rewrite Hco, Hti; exact Hget|].
  split; [intros ->; discriminate|].
  repeat (split; [reflexivity|]).
  exists acc0. exact Hcs.
Qed.


(** Every record that [parse_cfdi] returns has a non-empty UUID, an
    uppercased type other than "P", the default label, and the legacy
    warning exactly when its version starts with "3.3"; its currency is
    the [Moneda] attribute of the root, or "MXN" when the root has no
    such attribute or an empty one, and so is never empty. *)
Theorem parse_cfdi_record_invariants (path : string) (d : Document)
  (c : CFDI.t) (items : list Concepto.t) :
  etree_parse path = Some d ->
  parse_cfdi etree_parse path = Ok (Some c, items) ->
  CFDI.uuid c <> "" /\
  CFDI.tipo c <> "P" /\
  PyStr.upper (CFDI.tipo c) = CFDI.tipo c /\
  CFDI.moneda c =
    match get (getroot d) "Moneda" with
    | Some s => if s =? "" then "MXN" else s
    | None => "MXN"
    end /\
  CFDI.moneda c <> "" /\
  CFDI.clasificacion c = "No clasificado" /\
  CFDI.warnings c =
    (if PyStr.startswith (CFDI.version c) "3.3" then [warning_33] else []).
Proof.
  intros Hd H.
  apply parse_cfdi_header in H
    as (d' & acc & Hd' & Hp & _ & Hu & Ht & Hm & Hw & Hc & _).
  assert (d' = d) by congruence. subst d'.
  repeat split; try assumption.
  - rewrite Ht. exact Hp.
  - rewrite Ht. apply comprobante_tipo_upper.
  - rewrite Hm. unfold PyStr.or_str, PyStr.truthy.
    destruct (get (getroot d) "Moneda") as [s|]; [|reflexivity].
    destruct (s =? ""); reflexivity.
  - rewrite Hm. apply or_str_truthy. discriminate.
Qed.

(** On a record returned by [parse_cfdi] the classifier compares the
    type as it stands: a record whose type is not "I" is never
    classified, whatever the taxpayer id. *)
Theorem classify_parsed_other_type (path : string) (c : CFDI.t)
  (items : list Concepto.t) (u : option string) :
  parse_cfdi etree_parse path = Ok (Some c, items) ->
  CFDI.tipo c <> "I" ->
  classify_cfdi (Some c) u = "No clasificado".
Proof.
  intros H Ht.
  apply parse_cfdi_header in H
    as (d & acc & _ & _ & _ & _ & Htipo & _).
  destruct u as [u|]; [|reflexivity].
  rewrite classify_cfdi_unfold.
  rewrite Htipo, comprobante_tipo_upper, <- Htipo.
  apply String.eqb_neq in Ht. rewrite Ht.
  destruct (u =? ""); reflexivity.
Qed.

(** The mapping a loop over tax entries leaves in a line item. *)
Lemma snd_fold_line_traslado (l : list Element) :
  forall (acc : Tot.t) (d : dict (option string) float),
  snd (fold_left line_traslado l (acc, d)) =
  fold_left (add_entry opt_str_eqb (fun e => get e "Impuesto")
                       (fun e => _safe_float (get e "Importe"))) l d.
Proof.
  induction l as [|e l IH]; intros acc d; [reflexivity|].
  cbn [fold_left]. unfold line_traslado at 2.
  destruct (opt_str_eqb (get e "Impuesto") (Some "002"));
    [|destruct (opt_str_eqb (get e "Impuesto") (Some "003"))];
    rewrite IH; reflexivity.
Qed.

Lemma snd_fold_line_retencion (l : list Element) :
  forall (acc : Tot.t) (d : dict (option string) float),
  snd (fold_left line_retencion l (acc, d)) =
  fold_left (add_entry opt_str_eqb (fun e => get e "Impuesto")
                       (fun e => _safe_float (get e "Importe"))) l d.
Proof.
  induction l as [|e l IH]; intros acc d; [reflexivity|].
  cbn [fold_left]. unfold line_retencion at 2. rewrite IH. reflexivity.
Qed.

Lemma tax_mapping_fold (l : list Element) :
  tax_mapping
    (fold_left (add_entry opt_str_eqb (fun e => get e "Impuesto")
                          (fun e => _safe_float (get e "Importe"))) l [])
    l.
Proof.
  destruct (accumulate opt_str_eqb opt_str_eqb_eq
              (fun e => get e "Impuesto")
              (fun e => _safe_float (get e "Importe")) l [] (NoDup_nil _))
    as [Hn Hk].
  split; [exact Hn|]. intros key. destruct (Hk key) as [Hin Hget].
  split.
  - rewrite Hin. unfold entries_with, filed. cbn [keys map In].
    split.
    + intros [[]|H] E. apply H. apply map_eq_nil in E. exact E.
    + intros H. right. intros E. apply H. rewrite E. reflexivity.
  - rewrite Hget. reflexivity.
Qed.

Lemma concepto_step_item (uuid : string) (ns : dict string string)
  (acc acc' : Tot.t) (cs cs' : list Concepto.t) (k : Element) :
  concepto_step uuid ns (acc, cs) k = Ok (acc', cs') ->
  exists c : Concepto.t, cs' = cs ++ [c] /\ item_of_node ns uuid k c.
Proof.
  unfold concepto_step, item_of_node, traslados, retenciones, tax_nodes,
    child, childs, bind.
  destruct (find k "cfdi:Impuestos" ns) as [[node|]|]; try discriminate.
  - destruct (find node "cfdi:Traslados" ns) as [[tn|]|]; try discriminate;
      [destruct (findall tn "cfdi:Traslado" ns) as [lt|]; try discriminate|];
      (destruct (find node "cfdi:Retenciones" ns) as [[rn|]|];
       try discriminate;
       [destruct (findall rn "cfdi:Retencion" ns) as [lr|]; try discriminate|]);
      intros [= <- <-]; eexists; (split; [reflexivity|]);
      cbn [fst snd Concepto.uuid Concepto.impuestos_traslado
           Concepto.impuestos_retencion];
      rewrite ?snd_fold_line_traslado, ?snd_fold_line_retencion;
      (split; [reflexivity|]); split;
      first [apply tax_mapping_fold | apply (tax_mapping_fold [])].
  - intros [= <- <-]. eexists. split; [reflexivity|].
    cbn. split; [reflexivity|]. split; apply (tax_mapping_fold []).
Qed.

Lemma foldM_concepto_items (uuid : string) (ns : dict string string)
  (l : list Element) :
  forall (acc acc' : Tot.t) (cs cs' : list Concepto.t),
  foldM (concepto_step uuid ns) l (acc, cs) = Ok (acc', cs') ->
  exists new : list Concepto.t,
    cs' = cs ++ new /\ Forall2 (item_of_node ns uuid) l new.
Proof.
  induction l as [|k l IH]; intros acc acc' cs cs' H.
  - injection H as <- <-. exists []. rewrite app_nil_r. split; constructor.
  - cbn [foldM] in H. unfold bind in H.
    destruct (concepto_step uuid ns (acc, cs) k) as [[acc1 cs1]|] eqn:Hk;
      [|discriminate].
    apply concepto_step_item in Hk as (c & -> & Hc).
    apply IH in H as (new & -> & Hall).
    exists (c :: new). rewrite <- app_assoc. split; [reflexivity|].
    constructor; assumption.
Qed.

(** The line items returned by an accepted parse are those of the
    [cfdi:Concepto] nodes of the document, one per node and in document
    order; each carries the UUID of the record and two tax mappings
    with pairwise distinct keys, in which a tax code (or the absence of
    one) is a key exactly when an entry of the node has it, and is
    mapped to the sum of the amounts of those entries. *)
Theorem parse_cfdi_items_of_nodes (path : string) (d : Document)
  (c : CFDI.t) (items : list Concepto.t) :
  etree_parse path = Some d ->
  parse_cfdi etree_parse path = Ok (Some c, items) ->
  Forall2 (item_of_node (build_nsmap (root_nsmap d)) (CFDI.uuid c))
          (line_items (build_nsmap (root_nsmap d)) (getroot d)) items.
Proof.
  intros Hd H.
  apply parse_cfdi_header in H
    as (d' & acc & Hd' & _ & _ & _ & _ & _ & _ & _ & (acc0 & Hcs)).
  assert (d' = d) as -> by congruence.
  revert Hcs. unfold conceptos, line_items, child, childs, bind.
  destruct (find (getroot d) "cfdi:Conceptos" _) as [[cp|]|];
    try discriminate.
  - destruct (findall cp "cfdi:Concepto" _) as [l|]; try discriminate.
    intros H. apply foldM_concepto_items in H as (new & -> & Hall).
    exact Hall.
  - intros [= <- <-]. constructor.
Qed.

End ParserFactsMore.

(** ** Batch processor: what a finished run holds *)

Section ScannerFactsMore.
Context {RT : PyRuntime}.
Variable etree_parse : string -> option Document.
Variable _collect_xml_files : list string -> list string.

Lemma seen_In (l : list string) (u : string) : seen l u = true <-> In u l.
Proof.
  unfold seen. rewrite existsb_exists. split.
  - intros (x & Hin & E). apply String.eqb_eq in E. congruence.
  - intros Hin. exists u. split; [exact Hin|apply String.eqb_refl].
Qed.

(** The classifier does not read the label. *)
Lemma classify_set_clasificacion (c : CFDI.t) (l : string)
  (u : option string) :
  classify_cfdi (Some (CFDI.set_clasificacion c l)) u =
  classify_cfdi (Some c) u.
Proof. destruct u; reflexivity. Qed.

(** One file keeps the invariant and accounts for itself in exactly one
    of: the invalid counter, the duplicate counter, the retained
    records. *)
Lemma scan_file_inv (user_rfc : string) (idx : nat) (st : Scan.t)
  (cfdi : option CFDI.t) (concepts : list Concepto.t) :
  scan_inv user_rfc st ->
  (forall c : CFDI.t, cfdi = Some c ->
     Forall (fun it => Concepto.uuid it = CFDI.uuid c) concepts) ->
  let st' := scan_file user_rfc idx st cfdi concepts in
  scan_inv user_rfc st' /\
  Scan.invalid_count st' + Scan.duplicates st' + List.length (Scan.cfdis st')
  = S (Scan.invalid_count st + Scan.duplicates st
       + List.length (Scan.cfdis st)) /\
  incl (Scan.uuids_seen st) (Scan.uuids_seen st') /\
  (forall c : CFDI.t, cfdi = Some c ->
     In (CFDI.uuid c) (Scan.uuids_seen st')).
Proof.
  intros (Hseen & Hnd & H33 & Hlab & Hit) Hc. unfold scan_file.
  destruct cfdi as [c|].
  - destruct (seen (Scan.uuids_seen st) (CFDI.uuid c)) eqn:Es.
    + cbn. repeat split; try assumption; try lia.
      * apply incl_refl.
      * intros c' [= <-]. apply seen_In. exact Es.
    + assert (Hnew : ~ In (CFDI.uuid c) (map CFDI.uuid (Scan.cfdis st))).
      { rewrite <- Hseen. intros Hin. apply seen_In in Hin. congruence. }
      cbn [Scan.uuids_seen Scan.cfdis Scan.concepts_all Scan.cfdi33_count
           Scan.invalid_count Scan.duplicates Scan.processed].
      unfold scan_inv.
      cbn [Scan.uuids_seen Scan.cfdis Scan.concepts_all Scan.cfdi33_count
           Scan.invalid_count Scan.duplicates Scan.processed].
      rewrite !map_app, filter_app, !length_app. cbn [map filter List.length].
      change (CFDI.uuid (CFDI.set_clasificacion c _)) with (CFDI.uuid c).
      change (CFDI.version (CFDI.set_clasificacion c _)) with (CFDI.version c).
      change (legacy (CFDI.set_clasificacion c
                        (classify_cfdi (Some c) (Some user_rfc))))
        with (PyStr.startswith (CFDI.version c) "3.3").
      repeat split.
      * rewrite Hseen. reflexivity.
      * apply NoDup_app; [exact Hnd|repeat constructor; intros []|].
        intros x Hx [<-|[]]. exact (Hnew Hx).
      * destruct (PyStr.startswith (CFDI.version c) "3.3");
          cbn [List.length]; lia.
      * apply Forall_app. split; [exact Hlab|].
        constructor; [|constructor].
        rewrite classify_set_clasificacion. reflexivity.
      * apply Forall_app. split.
        -- eapply Forall_impl; [|exact Hit]. intros it Hin.
           apply in_or_app. left. exact Hin.
        -- eapply Forall_impl; [|exact (Hc c eq_refl)]. intros it ->.
           apply in_or_app. right. left. reflexivity.
      * lia.
      * apply incl_appl, incl_refl.
      * intros c' [= <-]. apply in_or_app. right. left. reflexivity.
  - cbn. repeat split; try assumption; try lia.
    + apply incl_refl.
    + intros c' [=].
Qed.

(** The line items [parse_cfdi] returns carry the UUID of its record. *)
Lemma parse_cfdi_items_uuid (file : string) (cfdi : option CFDI.t)
  (concepts : list Concepto.t) :
  parse_cfdi etree_parse file = Ok (cfdi, concepts) ->
  forall c : CFDI.t, cfdi = Some c ->
    Forall (fun it => Concepto.uuid it = CFDI.uuid c) concepts.
Proof.
  intros H c ->.
  apply parse_cfdi_accepted in H as (d & acc0 & acc & _ & _ & Hcs & _).
  apply conceptos_ok in Hcs as [_ Hall]. exact Hall.
Qed.

Lemma last_default {A : Type} (l : list A) :
  forall a d d' : A, last (a :: l) d = last (a :: l) d'.
Proof.
  induction l as [|b l IH]; intros a d d'; [reflexivity|].
  change (last (b :: l) d = last (b :: l) d'). apply IH.
Qed.

Lemma last_cons {A : Type} (a d : A) (l : list A) :
  last (a :: l) d = last l a.
Proof. destruct l as [|b l]; [reflexivity|]. apply (last_default (b :: l)). Qed.

(** The loop, when it ends normally: the invariant is kept, every file
    is accounted for once, the last signal reports the final locals, and
    every file has been handled. *)
Lemma run_loop_state (user_rfc : string) (total : nat)
  (files : list string) :
  forall (idx : nat) (st st' : Scan.t) (evs : list Event.t),
  run_loop etree_parse user_rfc total files idx st = (evs, Ok st') ->
  scan_inv user_rfc st ->
  scan_inv user_rfc st' /\
  Scan.invalid_count st' + Scan.duplicates st' + List.length (Scan.cfdis st')
  = Scan.invalid_count st + Scan.duplicates st
    + List.length (Scan.cfdis st) + List.length files /\
  last evs (progress_of total st) = progress_of total st' /\
  incl (Scan.uuids_seen st) (Scan.uuids_seen st') /\
  Forall (handled etree_parse st') files.
Proof.
  induction files as [|file rest IH]; intros idx st st' evs H Hinv;
    cbn [run_loop] in H.
  - injection H as <- <-.
    split; [exact Hinv|]. split; [cbn; lia|]. split; [reflexivity|].
    split; [apply incl_refl|constructor].
  - destruct (parse_cfdi etree_parse file) as [[cfdi concepts]|ex] eqn:Hp;
      [|discriminate].
    destruct (scan_file_inv user_rfc idx st cfdi concepts Hinv
                (parse_cfdi_items_uuid file cfdi concepts Hp))
      as (Hinv1 & Hcount1 & Hincl1 & Hseen1).
    cbv zeta in Hinv1, Hcount1, Hincl1, Hseen1.
    remember (scan_file user_rfc idx st cfdi concepts) as st1 eqn:Hst1.
    clear Hst1.
    destruct (run_loop etree_parse user_rfc total rest (S idx) st1)
      as [evs' r'] eqn:Hrec.
    destruct r' as [st2|]; [|discriminate].
    injection H as <- <-.
    destruct (IH _ _ _ _ Hrec Hinv1) as (Hinv2 & Hcount2 & Hlast & Hincl2 & Hall).
    split; [exact Hinv2|]. split; [cbn [List.length]; lia|].
    split; [rewrite last_cons; exact Hlast|].
    split; [eapply incl_tran; eassumption|].
    constructor; [|exact Hall].
    unfold handled. rewrite Hp. destruct cfdi as [c|]; [|exact I].
    apply Hincl2. apply Hseen1. reflexivity.
Qed.

Lemma scan_inv_init (user_rfc : string) : scan_inv user_rfc Scan.init.
Proof. repeat split; constructor. Qed.

(** A finished run is a loop that ended normally. *)
Lemma run_finished (paths : list string) (user_rfc : string)
  (evs : list Event.t) (cfdis : list CFDI.t) (concepts : list Concepto.t) :
  _run etree_parse _collect_xml_files paths user_rfc =
    (evs ++ [Event.finished cfdis concepts], None) ->
  exists st' : Scan.t,
    run_loop etree_parse user_rfc (List.length (_collect_xml_files paths))
             (_collect_xml_files paths) 1 Scan.init = (evs, Ok st') /\
    cfdis = Scan.cfdis st' /\ concepts = Scan.concepts_all st'.
Proof.
  unfold _run.
  destruct (run_loop etree_parse user_rfc _ _ 1 Scan.init) as [evs' [st'|ex]];
    [|discriminate].
  intros [= H]. apply app_inj_tail in H as [-> [= <- <-]].
  exists st'. auto.
Qed.

(** Deduplication: the records of a finished run have pairwise distinct
    UUIDs. *)
Theorem run_no_duplicate_uuid (paths : list string) (user_rfc : string)
  (evs : list Event.t) (cfdis : list CFDI.t) (concepts : list Concepto.t) :
  _run etree_parse _collect_xml_files paths user_rfc =
    (evs ++ [Event.finished cfdis concepts], None) ->
  NoDup (map CFDI.uuid cfdis).
Proof.
  intros H. apply run_finished in H as (st' & Hrun & -> & ->).
  apply run_loop_state in Hrun as ((_ & Hnd & _) & _);
    [exact Hnd|apply scan_inv_init].
Qed.

(** Accounting: in a finished run over [n >= 1] files the last progress
    signal reports [n] files processed, and its invalid and duplicate
    counters together with the number of records delivered add up to
    [n]; its legacy counter is the number of delivered records whose
    version starts with "3.3".  A run over no file emits no progress
    signal and delivers nothing. *)
Theorem run_counters_account (paths : list string) (user_rfc : string)
  (evs : list Event.t) (cfdis : list CFDI.t) (concepts : list Concepto.t) :
  _run etree_parse _collect_xml_files paths user_rfc =
    (evs ++ [Event.finished cfdis concepts], None) ->
  let n := List.length (_collect_xml_files paths) in
  (n = 0 /\ evs = [] /\ cfdis = [] /\ concepts = []) \/
  (exists (evs0 : list Event.t) (inv dup c33 : nat),
     evs = evs0 ++ [Event.progress n inv dup c33 n] /\
     inv + dup + List.length cfdis = n /\
     c33 = List.length (filter legacy cfdis)).
Proof.
  intros H n. apply run_finished in H as (st' & Hrun & -> & ->).
  subst n. destruct (_collect_xml_files paths) as [|f rest] eqn:Hfiles.
  - left. cbn in Hrun. injection Hrun as <- <-. auto.
  - right.
    pose proof (run_loop_trace etree_parse _collect_xml_files user_rfc
                  _ _ _ _ _ _ Hrun) as (Hnum & _ & _ & Hlen).
    apply run_loop_state in Hrun
      as ((_ & _ & H33 & _) & Hcount & Hlast & _); [|apply scan_inv_init].
    set (n := List.length (f :: rest)) in *.
    assert (Hn : n = S (List.length rest)) by reflexivity.
    destruct (@exists_last _ evs) as (evs0 & e & ->).
    { intros ->. cbn in Hlen. lia. }
    rewrite last_last in Hlast. subst e.
    rewrite length_app in Hlen. cbn [List.length] in Hlen.
    destruct (Hnum (List.length evs0) (progress_of n st')) as (i & d & c & He).
    { rewrite nth_error_app2 by lia. rewrite Nat.sub_diag. reflexivity. }
    unfold progress_of in He. injection He as Hp _ _ _.
    exists evs0, (Scan.invalid_count st'), (Scan.duplicates st'),
      (Scan.cfdi33_count st').
    unfold progress_of. rewrite Hp.
    replace (S (List.length evs0)) with n by lia.
    cbn in Hcount.
    split; [reflexivity|]. split; [lia|exact H33].
Qed.

End ScannerFactsMore.

(** ** Batch processor: labels, line items and repeated files *)

Section ScannerResults.
Context {RT : PyRuntime}.
Variable etree_parse : string -> option Document.
Variable _collect_xml_files : list string -> list string.

(** Every record of a finished run carries the label that the
    classifier gives that record for the taxpayer id of the run: the
    label can be recomputed from the record. *)
Theorem run_labels (paths : list string) (user_rfc : string)
  (evs : list Event.t) (cfdis : list CFDI.t) (concepts : list Concepto.t) :
  _run etree_parse _collect_xml_files paths user_rfc =
    (evs ++ [Event.finished cfdis concepts], None) ->
  Forall (fun c => CFDI.clasificacion c =
                   classify_cfdi (Some c) (Some user_rfc)) cfdis.
Proof.
  intros H.
  apply (run_finished etree_parse _collect_xml_files) in H
    as (st' & Hrun & -> & ->).
  apply run_loop_state in Hrun as ((_ & _ & _ & Hlab & _) & _);
    [exact Hlab|apply scan_inv_init].
Qed.

(** The records the loop adds, each with the line items of its file,
    and nothing else. *)
Lemma run_loop_parts (user_rfc : string) (total : nat)
  (files : list string) :
  forall (idx : nat) (st st' : Scan.t) (evs : list Event.t),
  run_loop etree_parse user_rfc total files idx st = (evs, Ok st') ->
  exists (added : list CFDI.t) (parts : list (list Concepto.t)),
    Scan.cfdis st' = Scan.cfdis st ++ added /\
    Scan.concepts_all st' = Scan.concepts_all st ++ concat parts /\
    Forall2 (items_with etree_parse user_rfc files) added parts.
Proof.
  induction files as [|f rest IH]; intros idx st st' evs H;
    cbn [run_loop] in H.
  - injection H as <- <-. exists [], []. cbn [concat].
    rewrite !app_nil_r. repeat split. constructor.
  - destruct (parse_cfdi etree_parse f) as [[cfdi concepts]|ex] eqn:Hp;
      [|discriminate].
    destruct (run_loop etree_parse user_rfc total rest (S idx) _)
      as [evs' [st2|]] eqn:Hrec; [|discriminate].
    injection H as <- <-.
    destruct (IH _ _ _ _ Hrec) as (added & parts & Hc & Hi & Hall).
    assert (Hall' : Forall2 (items_with etree_parse user_rfc (f :: rest))
                      added parts).
    { eapply Forall2_impl; [|exact Hall].
      intros c' its (g & c & Hg & Hpg & Hc'). exists g, c.
      split; [right; exact Hg|]. split; assumption. }
    unfold scan_file in Hc, Hi. destruct cfdi as [c|].
    + destruct (seen (Scan.uuids_seen st) (CFDI.uuid c)).
      * cbn [Scan.cfdis Scan.concepts_all] in Hc, Hi.
        exists added, parts. repeat split; assumption.
      * cbn [Scan.cfdis Scan.concepts_all] in Hc, Hi.
        exists (relabel user_rfc c :: added), (concepts :: parts).
        cbn [concat]. rewrite Hc, Hi, <- !app_assoc.
        repeat split. constructor; [|exact Hall'].
        exists f, c. split; [left; reflexivity|]. split; [exact Hp|].
        reflexivity.
    + cbn [Scan.cfdis Scan.concepts_all] in Hc, Hi.
      exists added, parts. repeat split; assumption.
Qed.

(** The line items of a finished run are those of its records and no
    others: they are, record by record and in the order of the records,
    the line items that [parse_cfdi] returned with each delivered
    record, so that the line items of rejected files and of duplicate
    files are not delivered; and every line item carries the UUID of a
    delivered record. *)
Theorem run_line_items_owned (paths : list string) (user_rfc : string)
  (evs : list Event.t) (cfdis : list CFDI.t) (concepts : list Concepto.t) :
  _run etree_parse _collect_xml_files paths user_rfc =
    (evs ++ [Event.finished cfdis concepts], None) ->
  Forall (fun it => In (Concepto.uuid it) (map CFDI.uuid cfdis)) concepts /\
  exists parts : list (list Concepto.t),
    Forall2 (items_with etree_parse user_rfc (_collect_xml_files paths))
            cfdis parts /\
    concepts = concat parts.
Proof.
  intros H.
  apply (run_finished etree_parse _collect_xml_files) in H
    as (st' & Hrun & -> & ->).
  split.
  - apply run_loop_state in Hrun as ((_ & _ & _ & _ & Hit) & _);
      [exact Hit|apply scan_inv_init].
  - apply run_loop_parts in Hrun as (added & parts & Hc & Hi & Hall).
    cbn [Scan.init Scan.cfdis Scan.concepts_all app] in Hc, Hi.
    exists parts. rewrite Hc, Hi. split; [exact Hall|reflexivity].
Qed.

(** The loop over a concatenation. *)
Lemma run_loop_app (user_rfc : string) (total : nat) (l1 l2 : list string) :
  forall (idx : nat) (st : Scan.t),
  run_loop etree_parse user_rfc total (l1 ++ l2) idx st =
  match run_loop etree_parse user_rfc total l1 idx st with
  | (e1, Ok st1) =>
      let '(e2, r2) :=
        run_loop etree_parse user_rfc total l2 (idx + List.length l1) st1 in
      (e1 ++ e2, r2)
  | (e1, Raise ex) => (e1, Raise ex)
  end.
Proof.
  induction l1 as [|f l1 IH]; intros idx st.
  - cbn [app run_loop List.length]. rewrite Nat.add_0_r.
    destruct (run_loop etree_parse user_rfc total l2 idx st); reflexivity.
  - cbn [app run_loop List.length].
    destruct (parse_cfdi etree_parse f) as [[cfdi concepts]|ex]; [|reflexivity].
    rewrite IH. rewrite Nat.add_succ_r. cbn [Nat.add].
    destruct (run_loop etree_parse user_rfc total l1 (S idx) _)
      as [e1 [st1|ex]]; [|reflexivity].
    destruct (run_loop etree_parse user_rfc total l2 _ st1); reflexivity.
Qed.

(** The total only shows in the signals. *)
Lemma run_loop_total (user_rfc : string) (t1 t2 : nat) (l : list string) :
  forall (idx : nat) (st : Scan.t),
  snd (run_loop etree_parse user_rfc t1 l idx st) =
  snd (run_loop etree_parse user_rfc t2 l idx st).
Proof.
  induction l as [|f l IH]; intros idx st; cbn [run_loop]; [reflexivity|].
  destruct (parse_cfdi etree_parse f) as [[cfdi concepts]|ex]; [|reflexivity].
  specialize (IH (S idx) (scan_file user_rfc idx st cfdi concepts)).
  destruct (run_loop etree_parse user_rfc t1 l _ _).
  destruct (run_loop etree_parse user_rfc t2 l _ _). exact IH.
Qed.

(** Files already handled add no record and no line item. *)
Lemma run_loop_handled (user_rfc : string) (total : nat) (l : list string) :
  forall (idx : nat) (st : Scan.t),
  Forall (handled etree_parse st) l ->
  exists (evs : list Event.t) (st' : Scan.t),
    run_loop etree_parse user_rfc total l idx st = (evs, Ok st') /\
    Scan.cfdis st' = Scan.cfdis st /\
    Scan.concepts_all st' = Scan.concepts_all st /\
    Scan.uuids_seen st' = Scan.uuids_seen st.
Proof.
  induction l as [|f l IH]; intros idx st Hall; cbn [run_loop].
  - exists [], st. auto.
  - inversion Hall as [|? ? Hf Hrest]; subst. unfold handled in Hf.
    destruct (parse_cfdi etree_parse f) as [[[c|] concepts]|ex];
      [| |destruct Hf].
    + apply seen_In in Hf.
      assert (Hs : Scan.uuids_seen (scan_file user_rfc idx st (Some c) concepts)
                   = Scan.uuids_seen st
                   /\ Scan.cfdis (scan_file user_rfc idx st (Some c) concepts)
                      = Scan.cfdis st
                   /\ Scan.concepts_all
                        (scan_file user_rfc idx st (Some c) concepts)
                      = Scan.concepts_all st).
      { unfold scan_file. rewrite Hf. auto. }
      destruct Hs as (Hu & Hc & Hi).
      destruct (IH (S idx) (scan_file user_rfc idx st (Some c) concepts))
        as (evs & st' & -> & Hc' & Hi' & Hu').
      { eapply Forall_impl; [|exact Hrest]. intros g. unfold handled.
        rewrite Hu. auto. }
      eexists _, st'. split; [reflexivity|]. repeat split; congruence.
    + destruct (IH (S idx) (scan_file user_rfc idx st None concepts))
        as (evs & st' & -> & Hc' & Hi' & Hu').
      { eapply Forall_impl; [|exact Hrest]. intros g. unfold handled.
        auto. }
      eexists _, st'. split; [reflexivity|]. repeat split; assumption.
Qed.

(** Listing files again changes nothing in the result: if the files of
    a second run are those of a finished first run followed by files
    that the first run already had, the second run finishes with the
    same records and the same line items (the first occurrence of a
    document wins). *)
Theorem run_repeated_files (paths1 paths2 extra : list string)
  (user_rfc : string) (evs : list Event.t) (cfdis : list CFDI.t)
  (concepts : list Concepto.t) :
  _collect_xml_files paths2 = _collect_xml_files paths1 ++ extra ->
  incl extra (_collect_xml_files paths1) ->
  _run etree_parse _collect_xml_files paths1 user_rfc =
    (evs ++ [Event.finished cfdis concepts], None) ->
  exists evs2 : list Event.t,
    _run etree_parse _collect_xml_files paths2 user_rfc =
      (evs2 ++ [Event.finished cfdis concepts], None) /\
    List.length evs2 = List.length evs + List.length extra.
Proof.
  intros Hfiles Hincl H.
  apply (run_finished etree_parse _collect_xml_files) in H
    as (st1 & Hrun & -> & ->).
  pose proof (run_loop_trace etree_parse _collect_xml_files user_rfc
                _ _ _ _ _ _ Hrun) as (_ & _ & _ & Hlen1).
  pose proof (run_loop_state etree_parse _ _ _ _ _ _ _ Hrun
                (scan_inv_init user_rfc)) as (_ & _ & _ & _ & Hall).
  unfold _run. rewrite Hfiles.
  set (n2 := List.length (_collect_xml_files paths1 ++ extra)).
  rewrite run_loop_app.
  pose proof (run_loop_total user_rfc
                (List.length (_collect_xml_files paths1)) n2
                (_collect_xml_files paths1) 1 Scan.init) as Ht.
  rewrite Hrun in Ht. cbn [snd] in Ht.
  destruct (run_loop etree_parse user_rfc n2 (_collect_xml_files paths1) 1
              Scan.init) as [e1 r1] eqn:Hrun2.
  cbn [snd] in Ht. subst r1.
  pose proof (run_loop_trace etree_parse _collect_xml_files user_rfc
                _ _ _ _ _ _ Hrun2) as (_ & _ & _ & Hlen2).
  destruct (run_loop_handled user_rfc n2 extra
              (1 + List.length (_collect_xml_files paths1)) st1)
    as (e2 & st2 & Hrun3 & Hc & Hi & _).
  { apply Forall_forall. intros f Hf. rewrite Forall_forall in Hall.
    apply Hall, Hincl, Hf. }
  rewrite Hrun3. exists (e1 ++ e2). rewrite Hc, Hi.
  split; [reflexivity|].
  pose proof (run_loop_trace etree_parse _collect_xml_files user_rfc
                _ _ _ _ _ _ Hrun3) as (_ & _ & _ & Hlen3).
  rewrite length_app. lia.
Qed.

End ScannerResults.

(** ** Indicators: month buckets and rankings *)

Section RankingFacts.
Context {RT : PyRuntime}.

Lemma insert_desc_perm (x : string * float) (l : list (string * float)) :
  Permutation (insert_desc x l) (x :: l).
Proof.
  induction l as [|y l IH]; cbn [insert_desc]; [reflexivity|].
  destruct (float_lt (snd x) (snd y)); [|reflexivity].
  rewrite IH. apply perm_swap.
Qed.

Lemma sorted_desc_perm (l : list (string * float)) :
  Permutation (sorted_desc l) l.
Proof.
  induction l as [|x l IH]; cbn; [constructor|].
  fold (sorted_desc l). rewrite insert_desc_perm. constructor. exact IH.
Qed.

Section Comparable.
Variable vals : list float.
Hypothesis Hvals : comparable vals.

Lemma insert_desc_sorted (x : string * float) (l : list (string * float)) :
  In (snd x) vals ->
  Forall (fun y => In (snd y) vals) l ->
  StronglySorted not_below l ->
  StronglySorted not_below (insert_desc x l).
Proof.
  destruct Hvals as [Hasym Htrans]. intros Hx.
  induction l as [|y l IH]; intros Hl Hs; cbn [insert_desc].
  - repeat constructor.
  - inversion Hl as [|? ? Hy Hl']; subst.
    apply StronglySorted_inv in Hs as [Hs Hall].
    destruct (float_lt (snd x) (snd y)) eqn:E.
    + constructor; [apply IH; assumption|].
      eapply Permutation_Forall;
        [symmetry; apply insert_desc_perm|].
      constructor; [|exact Hall].
      unfold not_below. apply Hasym; assumption.
    + constructor; [constructor; assumption|].
      constructor; [exact E|].
      rewrite Forall_forall in Hall, Hl' |- *. intros z Hz.
      unfold not_below in *.
      apply (Htrans _ (snd y)); auto.
Qed.

Lemma sorted_desc_sorted (l : list (string * float)) :
  Forall (fun y => In (snd y) vals) l ->
  StronglySorted not_below (sorted_desc l).
Proof.
  induction l as [|x l IH]; intros Hl; cbn; [constructor|].
  fold (sorted_desc l). inversion Hl; subst.
  apply insert_desc_sorted; auto.
  eapply Permutation_Forall; [symmetry; apply sorted_desc_perm|assumption].
Qed.

End Comparable.

Lemma StronglySorted_app {A : Type} (R : A -> A -> Prop) (a b : list A) :
  StronglySorted R (a ++ b) ->
  StronglySorted R a /\
  forall x y : A, In x a -> In y b -> R x y.
Proof.
  induction a as [|h a IH]; cbn [app]; intros H.
  - split; [constructor|intros x y []].
  - apply StronglySorted_inv in H as [Hs Hall].
    destruct (IH Hs) as [Ha Hab]. split.
    + constructor; [exact Ha|].
      apply Forall_app in Hall as [Hall _]. exact Hall.
    + intros x y [<-|Hx] Hy.
      * rewrite Forall_forall in Hall. apply Hall, in_or_app. auto.
      * apply Hab; assumption.
Qed.

Lemma NoDup_firstn {A : Type} (n : nat) (l : list A) :
  NoDup l -> NoDup (firstn n l).
Proof.
  intros H. rewrite <- (firstn_skipn n l) in H.
  apply NoDup_app_remove_r in H. exact H.
Qed.

(** The ranking taken from a counter. *)
Lemma firstn_sorted_desc_ranks (d : dict string float) :
  NoDup (keys d) ->
  comparable (map snd d) ->
  ranks d (firstn 5 (sorted_desc d)).
Proof.
  intros Hnd Hc.
  pose proof (sorted_desc_perm d) as Hp.
  assert (Hs : StronglySorted not_below (sorted_desc d)).
  { apply (sorted_desc_sorted (map snd d) Hc).
    apply Forall_forall. intros y Hy. apply in_map. exact Hy. }
  rewrite <- (firstn_skipn 5 (sorted_desc d)) in Hs.
  apply StronglySorted_app in Hs as [Hs Hout].
  unfold ranks. split; [|split; [|split; [|split]]].
  - rewrite length_firstn. rewrite (Permutation_length Hp). reflexivity.
  - unfold keys. rewrite <- firstn_map. apply NoDup_firstn.
    eapply Permutation_NoDup; [|exact Hnd].
    symmetry. apply Permutation_map. exact Hp.
  - intros x Hx. apply (Permutation_in _ Hp).
    rewrite <- (firstn_skipn 5 (sorted_desc d)). apply in_or_app. auto.
  - exact Hs.
  - intros x y Hx Hy Hny. apply Hout; [exact Hx|].
    apply (Permutation_in _ (Permutation_sym Hp)) in Hy.
    rewrite <- (firstn_skipn 5 (sorted_desc d)) in Hy.
    apply in_app_or in Hy as [Hy|Hy]; [contradiction|exact Hy].
Qed.

End RankingFacts.

Section BucketFacts.
Context {RT : PyRuntime}.

Lemma string_eqb_spec (a b : string) : (a =? b) = true <-> a = b.
Proof. apply String.eqb_eq. Qed.


(** The sums a loop of [compute_kpis] keeps under a key: pairwise
    distinct keys, one for each key some record is filed under, each
    mapped to the total of the records filed under it. *)
Lemma sums_by_key (key : CFDI.t -> string) (l : list CFDI.t) :
  let d := fold_left (fun d c => dd_add d (key c) (CFDI.total c)) l [] in
  NoDup (keys d) /\
  forall k : string,
    (In k (keys d) <-> filed String.eqb key k l <> []) /\
    dict_get_default String.eqb d k float_zero = total_under key k l.
Proof.
  cbv zeta.
  destruct (accumulate String.eqb string_eqb_spec key CFDI.total l [])
    as [Hnd Hk]; [constructor|].
  split; [exact Hnd|]. intros k. destruct (Hk k) as [Hin Hget].
  split; [|exact Hget].
  rewrite Hin. cbn [keys map In]. tauto.
Qed.


(** The month buckets of [compute_kpis]: each of the two mappings has
    pairwise distinct month keys, holds a month exactly when some record
    of its label falls in that month, and maps it to the total of those
    records; looked up with default 0.0, a month without such records
    gives the empty sum. *)
Theorem compute_kpis_month_buckets (cfdis : list CFDI.t)
  (invalid_count duplicates_count cfdi33_count : nat) :
  let k := compute_kpis cfdis invalid_count duplicates_count cfdi33_count in
  let ingresos := filter (labelled "Ingresos") cfdis in
  let egresos := filter (labelled "Egresos") cfdis in
  (NoDup (keys (Kpis.ingresos_por_mes k)) /\
   forall m : string,
     (In m (keys (Kpis.ingresos_por_mes k)) <->
        filed String.eqb month_of m ingresos <> []) /\
     dict_get_default String.eqb (Kpis.ingresos_por_mes k) m float_zero =
       total_under month_of m ingresos) /\
  (NoDup (keys (Kpis.egresos_por_mes k)) /\
   forall m : string,
     (In m (keys (Kpis.egresos_por_mes k)) <->
        filed String.eqb month_of m egresos <> []) /\
     dict_get_default String.eqb (Kpis.egresos_por_mes k) m float_zero =
       total_under month_of m egresos).
Proof.
  cbv zeta. unfold compute_kpis. rewrite kpi_loop_from.
  cbn [Kpis.ingresos_por_mes Kpis.egresos_por_mes Acc.ingresos_por_mes
       Acc.egresos_por_mes Acc.init].
  split; apply (sums_by_key month_of).
Qed.


End BucketFacts.

(** ** Utilities: month keys and timestamps *)

Section StringFacts.

Lemma append_assoc (a b c : string) :
  ((a ++ b) ++ c = a ++ (b ++ c))%string.
Proof. induction a as [|x a IH]; cbn; [reflexivity|]. rewrite IH. reflexivity. Qed.

Lemma length_append (a b : string) :
  String.length (a ++ b) = String.length a + String.length b.
Proof. induction a as [|x a IH]; cbn; [reflexivity|]. rewrite IH. reflexivity. Qed.

Lemma all_digits_app (a b : string) :
  all_digits (a ++ b) = all_digits a && all_digits b.
Proof.
  induction a as [|x a IH]; cbn; [reflexivity|].
  rewrite IH. apply andb_assoc.
Qed.

Lemma decimal_from_app (s t : string) :
  forall a : nat,
  decimal_from a (s ++ t) = decimal_from (decimal_from a s) t.
Proof. induction s as [|x s IH]; intros a; cbn; [reflexivity|]. apply IH. Qed.

Lemma decimal_from_shift (s : string) :
  forall a : nat,
  decimal_from a s = a * 10 ^ String.length s + decimal s.
Proof.
  unfold decimal. induction s as [|x s IH]; intros a.
  - cbn. lia.
  - cbn [decimal_from String.length].
    rewrite (IH (10 * a + _)), (IH (10 * 0 + _)).
    rewrite Nat.pow_succ_r'. lia.
Qed.

Lemma decimal_bound (s : string) :
  all_digits s = true -> decimal s < 10 ^ String.length s.
Proof.
  induction s as [|x s IH]; intros H.
  - cbn. lia.
  - cbn [all_digits] in H. apply andb_true_iff in H as [Hx Hs].
    unfold decimal. cbn [decimal_from String.length].
    rewrite decimal_from_shift, Nat.pow_succ_r'.
    specialize (IH Hs). unfold is_digit in Hx.
    apply andb_true_iff in Hx as [H1 H2].
    apply Nat.leb_le in H1, H2. nia.
Qed.

Lemma digit_char (k : nat) :
  k < 10 ->
  is_digit (ascii_of_nat (48 + k)) = true /\
  nat_of_ascii (ascii_of_nat (48 + k)) - 48 = k.
Proof.
  intros H. unfold is_digit. rewrite nat_ascii_embedding by lia.
  split; [|lia].
  apply andb_true_iff. split; apply Nat.leb_le; lia.
Qed.

Lemma digits_aux_app (fuel : nat) :
  forall (n : nat) (acc : string),
  digits_aux fuel n acc = (digits_aux fuel n "" ++ acc)%string.
Proof.
  induction fuel as [|f IH]; intros n acc; cbn [digits_aux]; [reflexivity|].
  destruct (n / 10 =? 0)%nat; [reflexivity|].
  rewrite (IH _ (String _ acc)), (IH _ (String _ "")).
  rewrite append_assoc. reflexivity.
Qed.

(** The digits of [n]: digits only, at least one, writing [n], and no
    more of them than [n] needs. *)
Lemma digits_aux_spec (fuel : nat) :
  forall n : nat, n < fuel ->
  all_digits (digits_aux fuel n "") = true /\
  decimal (digits_aux fuel n "") = n /\
  1 <= String.length (digits_aux fuel n "") /\
  forall w : nat, 1 <= w -> n < 10 ^ w ->
    String.length (digits_aux fuel n "") <= w.
Proof.
  induction fuel as [|f IH]; intros n Hn; [lia|].
  cbn [digits_aux].
  assert (Hm : n mod 10 < 10) by (apply Nat.mod_upper_bound; lia).
  destruct (digit_char _ Hm) as [Hd Hv].
  destruct (Nat.eqb_spec (n / 10) 0) as [Hq|Hq].
  - unfold decimal. cbn [all_digits decimal_from String.length].
    rewrite Hd, Hv.
    pose proof (Nat.div_mod_eq n 10).
    repeat split; try lia.
  - rewrite digits_aux_app.
    assert (Hn10 : 10 <= n).
    { destruct (Nat.lt_ge_cases n 10) as [Hs|Hs]; [|exact Hs].
      apply Nat.div_small in Hs. contradiction. }
    assert (Hlt : n / 10 < f).
    { assert (n / 10 < n) by (apply Nat.div_lt; lia). lia. }
    destruct (IH _ Hlt) as (Ha & Hdec & Hlen & Hw).
    rewrite all_digits_app, length_append.
    unfold decimal in *. rewrite decimal_from_app, Hdec.
    cbn [all_digits decimal_from String.length]. rewrite Ha, Hd, Hv.
    pose proof (Nat.div_mod_eq n 10).
    repeat split; try lia.
    intros w Hw1 Hnw.
    destruct w as [|[|w]]; [lia| |].
    + exfalso. cbn in Hnw.
      assert (n / 10 = 0) by (apply Nat.div_small; lia). contradiction.
    + assert (String.length (digits_aux f (n / 10) "") <= S w); [|lia].
      apply Hw; [lia|].
      apply Nat.Div0.div_lt_upper_bound.
      rewrite Nat.pow_succ_r' in Hnw. exact Hnw.
Qed.

Lemma zeros_spec (k : nat) :
  all_digits (zeros k) = true /\
  (forall a : nat, a = 0 -> decimal_from a (zeros k) = 0) /\
  String.length (zeros k) = k.
Proof.
  induction k as [|k (Ha & Hd & Hl)]; cbn [zeros].
  - repeat split. intros a ->. reflexivity.
  - cbn [all_digits decimal_from String.length]. rewrite Ha, Hl.
    repeat split. intros a ->. apply Hd. reflexivity.
Qed.

(** [format(n, "0<width>d")]. *)
Lemma format_0d_spec (w n : nat) :
  all_digits (format_0d w n) = true /\
  decimal (format_0d w n) = n /\
  (1 <= w -> n < 10 ^ w -> String.length (format_0d w n) = w).
Proof.
  unfold format_0d, digits.
  destruct (digits_aux_spec (S n) n) as (Ha & Hd & Hl & Hw); [lia|].
  destruct (zeros_spec (w - String.length (digits_aux (S n) n "")))
    as (Hza & Hzd & Hzl).
  rewrite all_digits_app, Ha, Hza. unfold decimal in *.
  rewrite decimal_from_app, (Hzd 0 eq_refl), Hd.
  repeat split. intros H1 H2. rewrite length_append, Hzl.
  specialize (Hw w H1 H2). lia.
Qed.

Lemma split_first_digits (a b : string) :
  all_digits a = true ->
  PyStr.split_first (a ++ String "-" b) "-" = Some (a, b).
Proof.
  induction a as [|x a IH]; intros H; cbn [append PyStr.split_first].
  - reflexivity.
  - cbn [all_digits] in H. apply andb_true_iff in H as [Hx Ha].
    destruct (Ascii.eqb_spec x "-") as [->|_]; [discriminate Hx|].
    rewrite (IH Ha). reflexivity.
Qed.

Lemma read_month_key_month_key (d : datetime) :
  read_month_key (month_key (Some d)) = Some (year d, month d).
Proof.
  unfold read_month_key, month_key.
  destruct (format_0d_spec 4 (year d)) as (Hy & Hyd & _).
  destruct (format_0d_spec 2 (month d)) as (_ & Hmd & _).
  change ("-" ++ format_0d 2 (month d))%string
    with (String "-" (format_0d 2 (month d))).
  rewrite (split_first_digits _ _ Hy), Hyd, Hmd. reflexivity.
Qed.

(** Month keys separate months: two optional dates get the same key
    exactly when both are absent or both fall in the same month of the
    same year; the key of an absent date, the empty string, is the key
    of no date. *)
Theorem month_key_same_month (d1 d2 : option datetime) :
  month_key d1 = month_key d2 <-> same_month d1 d2.
Proof.
  destruct d1 as [a|], d2 as [b|]; cbn [same_month].
  - split.
    + intros H. apply (f_equal read_month_key) in H.
      rewrite !read_month_key_month_key in H. injection H as Hy Hm. auto.
    + intros [Hy Hm]. cbn [month_key]. rewrite Hy, Hm. reflexivity.
  - split; [|intros []]. intros H. apply (f_equal read_month_key) in H.
    rewrite read_month_key_month_key in H. discriminate H.
  - split; [|intros []]. intros H. apply (f_equal read_month_key) in H.
    rewrite read_month_key_month_key in H. discriminate H.
  - split; auto.
Qed.

Lemma ascii_compare_nat (a b : ascii) :
  Ascii.compare a b = Nat.compare (nat_of_ascii a) (nat_of_ascii b).
Proof.
  unfold Ascii.compare, nat_of_ascii. rewrite N2Nat.inj_compare.
  reflexivity.
Qed.

(** Digit strings of one length compare as the numbers they write. *)
Lemma compare_digits (s1 : string) :
  forall s2 : string,
  all_digits s1 = true -> all_digits s2 = true ->
  String.length s1 = String.length s2 ->
  String.compare s1 s2 = Nat.compare (decimal s1) (decimal s2).
Proof.
  induction s1 as [|c1 s1 IH]; intros [|c2 s2] H1 H2 Hl;
    try discriminate Hl; [reflexivity|].
  cbn [all_digits] in H1, H2.
  apply andb_true_iff in H1 as [Hc1 H1].
  apply andb_true_iff in H2 as [Hc2 H2].
  injection Hl as Hl.
  pose proof (decimal_bound _ H1) as B1.
  pose proof (decimal_bound _ H2) as B2. rewrite <- Hl in B2.
  cbn [String.compare]. unfold decimal. cbn [decimal_from].
  rewrite (decimal_from_shift s1), (decimal_from_shift s2), <- Hl.
  rewrite ascii_compare_nat, (IH s2 H1 H2 Hl).
  unfold is_digit in Hc1, Hc2.
  apply andb_true_iff in Hc1 as [L1 U1].
  apply andb_true_iff in Hc2 as [L2 U2].
  apply Nat.leb_le in L1, U1, L2, U2.
  set (P := 10 ^ String.length s1) in *.
  destruct (Nat.compare_spec (nat_of_ascii c1) (nat_of_ascii c2)) as [E|E|E].
  - rewrite E.
    destruct (Nat.compare_spec (decimal s1) (decimal s2));
      symmetry; [apply Nat.compare_eq_iff|apply Nat.compare_lt_iff
                |apply Nat.compare_gt_iff]; lia.
  - symmetry. apply Nat.compare_lt_iff. nia.
  - symmetry. apply Nat.compare_gt_iff. nia.
Qed.

Lemma compare_app (a1 : string) :
  forall a2 r1 r2 : string,
  String.length a1 = String.length a2 ->
  String.compare (a1 ++ r1) (a2 ++ r2) =
  match String.compare a1 a2 with
  | Eq => String.compare r1 r2
  | c => c
  end.
Proof.
  induction a1 as [|c1 a1 IH]; intros [|c2 a2] r1 r2 Hl;
    try discriminate Hl; [reflexivity|].
  injection Hl as Hl. cbn [append String.compare].
  destruct (Ascii.compare c1 c2); try reflexivity. apply IH. exact Hl.
Qed.

(** Month keys sort as months do: the key of a date has seven
    characters, and the keys of two dates compare, as strings, the way
    their (year, month) pairs compare. *)
Theorem month_key_chronological (d1 d2 : datetime) :
  valid_month d1 -> valid_month d2 ->
  String.length (month_key (Some d1)) = 7 /\
  (String.ltb (month_key (Some d1)) (month_key (Some d2)) = true <->
   earlier_month d1 d2).
Proof.
  intros [Hy1 Hm1] [Hy2 Hm2]. unfold month_key, earlier_month.
  assert (P2 : 10 ^ 2 = 100) by reflexivity.
  destruct (format_0d_spec 4 (year d1)) as (Ya1 & Yd1 & Yl1).
  destruct (format_0d_spec 4 (year d2)) as (Ya2 & Yd2 & Yl2).
  destruct (format_0d_spec 2 (month d1)) as (Ma1 & Md1 & Ml1).
  destruct (format_0d_spec 2 (month d2)) as (Ma2 & Md2 & Ml2).
  specialize (Yl1 ltac:(lia) ltac:(lia)).
  specialize (Yl2 ltac:(lia) ltac:(lia)).
  specialize (Ml1 ltac:(lia) ltac:(lia)).
  specialize (Ml2 ltac:(lia) ltac:(lia)).
  split.
  - rewrite !length_append, Yl1, Ml1. reflexivity.
  - unfold String.ltb.
    rewrite compare_app by congruence.
    rewrite (compare_digits _ _ Ya1 Ya2) by congruence.
    rewrite Yd1, Yd2.
    change ("-" ++ format_0d 2 (month d1))%string
      with (String "-" (format_0d 2 (month d1))).
    change ("-" ++ format_0d 2 (month d2))%string
      with (String "-" (format_0d 2 (month d2))).
    cbn [String.compare].
    change (Ascii.compare "-" "-") with Eq. cbv iota.
    rewrite (compare_digits _ _ Ma1 Ma2) by congruence.
    rewrite Md1, Md2.
    destruct (Nat.compare_spec (year d1) (year d2)) as [E|E|E].
    + destruct (Nat.compare_spec (month d1) (month d2)) as [F|F|F];
        (split; [try discriminate; intros _|intros [?|[? ?]]; try lia;
                 try reflexivity]); auto.
    + split; [intros _; auto|reflexivity].
    + split; [discriminate|intros [?|[? ?]]; lia].
Qed.

End StringFacts.

Section TimestampFacts.
Context {RT : PyRuntime}.

Lemma endswith_char_app (a b : string) (z : ascii) :
  b <> EmptyString ->
  PyStr.endswith_char (a ++ b) z = PyStr.endswith_char b z.
Proof.
  intros Hb. induction a as [|x a IH]; cbn [append]; [reflexivity|].
  cbn [PyStr.endswith_char]. rewrite IH.
  destruct (a ++ b)%string eqn:E; [|reflexivity].
  destruct a; [cbn in E; contradiction|discriminate E].
Qed.

Lemma drop_last_app (a b : string) :
  b <> EmptyString ->
  PyStr.drop_last (a ++ b) = (a ++ PyStr.drop_last b)%string.
Proof.
  intros Hb. induction a as [|x a IH]; cbn [append]; [reflexivity|].
  cbn [PyStr.drop_last]. rewrite IH.
  destruct (a ++ b)%string eqn:E; [|reflexivity].
  destruct a; [cbn in E; contradiction|discriminate E].
Qed.

Lemma split_first_app (a b : string) (sep : ascii) :
  PyStr.split_first a sep = None ->
  PyStr.split_first (a ++ String sep b) sep = Some (a, b).
Proof.
  induction a as [|x a IH]; cbn [append PyStr.split_first].
  - rewrite Ascii.eqb_refl. reflexivity.
  - destruct (Ascii.eqb x sep); [discriminate|].
    destruct (PyStr.split_first a sep) as [[? ?]|]; [discriminate|].
    intros _. rewrite IH by reflexivity. reflexivity.
Qed.

Lemma truthy_app (a b : string) :
  PyStr.truthy a = true -> PyStr.truthy (a ++ b) = true.
Proof. destruct a; [discriminate|reflexivity]. Qed.

(** [parse_iso_datetime] drops a final "Z" and a fraction of a second:
    for a non-empty text [s] without a period that does not end in "Z",
    [s], [s] followed by "Z", and [s] followed by a period and anything
    at all are all read as [datetime.fromisoformat(s)]. *)
Theorem parse_iso_datetime_suffix (s : string) :
  PyStr.truthy s = true ->
  PyStr.endswith_char s "Z" = false ->
  PyStr.split_first s "." = None ->
  parse_iso_datetime s = fromisoformat s /\
  parse_iso_datetime (s ++ "Z") = fromisoformat s /\
  forall frac : string,
    parse_iso_datetime (s ++ "." ++ frac) = fromisoformat s.
Proof.
  intros Ht Hz Hd. unfold parse_iso_datetime. split; [|split].
  - rewrite Ht, Hz, Hd. reflexivity.
  - rewrite (truthy_app _ _ Ht). cbn [negb].
    rewrite endswith_char_app by discriminate.
    cbn [PyStr.endswith_char]. change (Ascii.eqb "Z" "Z") with true.
    cbv iota.
    rewrite drop_last_app by discriminate. cbn [PyStr.drop_last].
    assert (E : (s ++ "")%string = s).
    { clear. induction s as [|x s IH]; cbn; [reflexivity|].
      rewrite IH. reflexivity. }
    rewrite E, Hd. reflexivity.
  - intros frac. rewrite (truthy_app _ _ Ht). cbn [negb].
    change ("." ++ frac)%string with (String "." frac).
    destruct (PyStr.endswith_char (s ++ String "." frac) "Z") eqn:Ez.
    + rewrite drop_last_app by discriminate.
      rewrite endswith_char_app in Ez by discriminate.
      destruct frac as [|c frac]; [discriminate Ez|].
      change (PyStr.drop_last (String "." (String c frac)))
        with (String "." (PyStr.drop_last (String c frac))).
      rewrite (split_first_app _ _ _ Hd). reflexivity.
    + rewrite (split_first_app _ _ _ Hd). reflexivity.
Qed.

End TimestampFacts.

(** ** Reports: the monthly series *)

Section ReportFacts.
Context {RT : PyRuntime}.

Lemma ascii_compare_trans (a b c : ascii) :
  Ascii.compare a b = Lt -> Ascii.compare b c = Lt ->
  Ascii.compare a c = Lt.
Proof.
  rewrite !ascii_compare_nat, !Nat.compare_lt_iff. lia.
Qed.

Lemma string_compare_trans (a : string) :
  forall b c : string,
  String.compare a b = Lt -> String.compare b c = Lt ->
  String.compare a c = Lt.
Proof.
  induction a as [|x a IH]; intros [|y b] [|z c] Hab Hbc;
    cbn [String.compare] in *; try discriminate; try reflexivity.
  destruct (Ascii.compare x y) eqn:Exy; try discriminate;
    destruct (Ascii.compare y z) eqn:Eyz; try discriminate.
  - apply Ascii.compare_eq_iff in Exy, Eyz. subst.
    assert (E : Ascii.compare z z = Eq).
    { rewrite ascii_compare_nat. apply Nat.compare_refl. }
    rewrite E. apply (IH b c); assumption.
  - apply Ascii.compare_eq_iff in Exy. subst. rewrite Eyz. reflexivity.
  - apply Ascii.compare_eq_iff in Eyz. subst. rewrite Exy. reflexivity.
  - rewrite (ascii_compare_trans _ _ _ Exy Eyz). reflexivity.
Qed.

Lemma ltb_trans (a b c : string) :
  String.ltb a b = true -> String.ltb b c = true -> String.ltb a c = true.
Proof.
  unfold String.ltb. intros Hab Hbc.
  destruct (String.compare a b) eqn:E1; try discriminate.
  destruct (String.compare b c) eqn:E2; try discriminate.
  rewrite (string_compare_trans _ _ _ E1 E2). reflexivity.
Qed.

Lemma ltb_total (a b : string) :
  String.ltb a b = false -> a <> b -> String.ltb b a = true.
Proof.
  unfold String.ltb. intros Hab Hne.
  rewrite String.compare_antisym.
  destruct (String.compare a b) eqn:E; try discriminate.
  - apply String.compare_eq_iff in E. contradiction.
  - reflexivity.
Qed.

Lemma insert_str_perm (x : string) (l : list string) :
  Permutation (insert_str x l) (x :: l).
Proof.
  induction l as [|y l IH]; cbn [insert_str]; [reflexivity|].
  destruct (String.ltb x y); [reflexivity|].
  rewrite IH. apply perm_swap.
Qed.

Lemma sorted_str_perm (l : list string) : Permutation (sorted_str l) l.
Proof.
  induction l as [|x l IH]; cbn; [constructor|].
  fold (sorted_str l). rewrite insert_str_perm. constructor. exact IH.
Qed.

Lemma insert_str_ascending (x : string) (l : list string) :
  ~ In x l -> ascending l -> ascending (insert_str x l).
Proof.
  unfold ascending.
  induction l as [|y l IH]; intros Hx Hs; cbn [insert_str].
  - repeat constructor.
  - apply StronglySorted_inv in Hs as [Hs Hall].
    destruct (String.ltb x y) eqn:E.
    + constructor; [constructor; assumption|].
      constructor; [exact E|].
      rewrite Forall_forall in Hall |- *. intros z Hz.
      apply (ltb_trans _ y); auto.
    + constructor.
      * apply IH; [|exact Hs]. intros Hin. apply Hx. right. exact Hin.
      * eapply Permutation_Forall; [symmetry; apply insert_str_perm|].
        constructor; [|exact Hall].
        apply ltb_total; [exact E|]. intros ->. apply Hx. left. reflexivity.
Qed.

Lemma sorted_str_ascending (l : list string) :
  NoDup l -> ascending (sorted_str l).
Proof.
  induction l as [|x l IH]; intros Hnd; cbn; [constructor|].
  fold (sorted_str l). apply NoDup_cons_iff in Hnd as [Hx Hnd].
  apply insert_str_ascending; [|apply IH; exact Hnd].
  intros Hin. apply Hx. apply (Permutation_in _ (sorted_str_perm l)).
  exact Hin.
Qed.

Lemma filed_nonempty {A : Type} (key : A -> string) (k : string)
  (l : list A) :
  filed String.eqb key k l <> [] <-> exists x : A, In x l /\ key x = k.
Proof.
  unfold filed. split.
  - intros H. destruct (filter _ l) as [|x r] eqn:E; [contradiction|].
    assert (Hin : In x (filter (fun x => key x =? k) l))
      by (rewrite E; left; reflexivity).
    apply filter_In in Hin as [Hin Hk]. apply String.eqb_eq in Hk.
    exists x. auto.
  - intros (x & Hin & Hk) E.
    assert (Hf : In x (filter (fun x => key x =? k) l)).
    { apply filter_In. split; [exact Hin|]. apply String.eqb_eq. exact Hk. }
    rewrite E in Hf. destruct Hf.
Qed.

(** The monthly series of the reports, over the indicators of a batch:
    the months are strictly ascending as strings, hence without
    repetition; a month is listed exactly when some record labelled
    "Ingresos" or "Egresos" falls in it; the two series run parallel to
    the months, and hold for each month the total of the records of
    that month with the one and the other label, 0.0 plus nothing when
    there is none. *)
Theorem monthly_series (cfdis : list CFDI.t)
  (invalid_count duplicates_count cfdi33_count : nat) :
  let k := compute_kpis cfdis invalid_count duplicates_count cfdi33_count in
  let ingresos := filter (labelled "Ingresos") cfdis in
  let egresos := filter (labelled "Egresos") cfdis in
  ascending (meses k) /\
  (forall m : string,
     In m (meses k) <->
     exists c : CFDI.t,
       In c cfdis /\ month_of c = m /\
       (CFDI.clasificacion c = "Ingresos" \/
        CFDI.clasificacion c = "Egresos")) /\
  ingresos_series k =
    map (fun m => total_under month_of m ingresos) (meses k) /\
  egresos_series k =
    map (fun m => total_under month_of m egresos) (meses k).
Proof.
  cbv zeta. unfold ingresos_series, egresos_series, meses, compute_kpis.
  rewrite kpi_loop_from.
  cbn [Kpis.ingresos_por_mes Kpis.egresos_por_mes Acc.ingresos_por_mes
       Acc.egresos_por_mes Acc.init].
  destruct (sums_by_key month_of (filter (labelled "Ingresos") cfdis))
    as [_ Hi].
  destruct (sums_by_key month_of (filter (labelled "Egresos") cfdis))
    as [_ He].
  cbv zeta in Hi, He. unfold month_of in Hi, He at 1.
  split; [|split; [|split]].
  - apply sorted_str_ascending, NoDup_nodup.
  - intros m. split.
    + intros Hin. apply (Permutation_in _ (sorted_str_perm _)) in Hin.
      apply nodup_In, in_app_or in Hin. destruct Hin as [Hin|Hin].
      * apply Hi, filed_nonempty in Hin as (c & Hc & Hm).
        apply filter_In in Hc as [Hc Hl]. apply String.eqb_eq in Hl.
        exists c. auto.
      * apply He, filed_nonempty in Hin as (c & Hc & Hm).
        apply filter_In in Hc as [Hc Hl]. apply String.eqb_eq in Hl.
        exists c. auto.
    + intros (c & Hc & Hm & Hl).
      apply (Permutation_in _ (Permutation_sym (sorted_str_perm _))).
      apply nodup_In, in_or_app. destruct Hl as [Hl|Hl].
      * left. apply Hi, filed_nonempty. exists c. split; [|exact Hm].
        apply filter_In. split; [exact Hc|]. apply String.eqb_eq. exact Hl.
      * right. apply He, filed_nonempty. exists c. split; [|exact Hm].
        apply filter_In. split; [exact Hc|]. apply String.eqb_eq. exact Hl.
  - apply map_ext. intros m. apply Hi.
  - apply map_ext. intros m. apply He.
Qed.

End ReportFacts.

(** ** Indicators: what each record adds *)

Section GatingFacts.
Context {RT : PyRuntime}.

Lemma sums_of_by_key (key : CFDI.t -> string) (l : list CFDI.t) :
  sums_of key l
    (fold_left (fun d c => dd_add d (key c) (CFDI.total c)) l []).
Proof.
  destruct (sums_by_key key l) as [Hnd Hk]. cbv zeta in Hnd, Hk.
  split; [exact Hnd|]. intros k. destruct (Hk k) as [Hin Hget].
  split; [|exact Hget]. rewrite Hin. apply filed_nonempty.
Qed.

(** C7: every record, whatever its label, adds its four tax totals to
    the grand tax totals, while the income and expense totals, the month
    buckets and the counterparty sums are made of the records labelled
    "Ingresos" and "Egresos" only: each total is the sum of the totals
    of the records of its label, each month bucket and each
    counterparty sum holds exactly the keys of the records of its label
    and maps each key to the sum of the totals of the records of that
    label with that key; the top lists rank the counterparty sums, when
    these are numbers that [<] orders.  A record with any other label,
    added to a batch, leaves all of these and the count as they were and
    still adds its taxes. *)
Theorem compute_kpis_gating (cfdis : list CFDI.t)
  (invalid_count duplicates_count cfdi33_count : nat) :
  let kpis l := compute_kpis l invalid_count duplicates_count cfdi33_count in
  let ingresos := filter (labelled "Ingresos") cfdis in
  let egresos := filter (labelled "Egresos") cfdis in
  let clientes := Acc.clientes_counter (kpi_locals cfdis) in
  let proveedores := Acc.proveedores_counter (kpi_locals cfdis) in
  (Kpis.iva_trasladado (kpis cfdis) =
     sum_from float_zero (map CFDI.iva_trasladado cfdis) /\
   Kpis.isr_retenido (kpis cfdis) =
     sum_from float_zero (map CFDI.isr_retenido cfdis) /\
   Kpis.iva_retenido (kpis cfdis) =
     sum_from float_zero (map CFDI.iva_retenido cfdis) /\
   Kpis.ieps (kpis cfdis) = sum_from float_zero (map CFDI.ieps cfdis)) /\
  (Kpis.total_ingresos (kpis cfdis) =
     sum_from float_zero (map CFDI.total ingresos) /\
   Kpis.total_egresos (kpis cfdis) =
     sum_from float_zero (map CFDI.total egresos)) /\
  (sums_of month_of ingresos (Kpis.ingresos_por_mes (kpis cfdis)) /\
   sums_of month_of egresos (Kpis.egresos_por_mes (kpis cfdis))) /\
  (sums_of CFDI.receptor_rfc ingresos clientes /\
   sums_of CFDI.emisor_rfc egresos proveedores) /\
  (comparable (map snd clientes) ->
   ranks clientes (Kpis.top_clientes (kpis cfdis))) /\
  (comparable (map snd proveedores) ->
   ranks proveedores (Kpis.top_proveedores (kpis cfdis))) /\
  (forall c : CFDI.t,
     CFDI.clasificacion c <> "Ingresos" ->
     CFDI.clasificacion c <> "Egresos" ->
     Kpis.total_ingresos (kpis (cfdis ++ [c])) =
       Kpis.total_ingresos (kpis cfdis) /\
     Kpis.total_egresos (kpis (cfdis ++ [c])) =
       Kpis.total_egresos (kpis cfdis) /\
     Kpis.ingresos_por_mes (kpis (cfdis ++ [c])) =
       Kpis.ingresos_por_mes (kpis cfdis) /\
     Kpis.egresos_por_mes (kpis (cfdis ++ [c])) =
       Kpis.egresos_por_mes (kpis cfdis) /\
     Acc.clientes_counter (kpi_locals (cfdis ++ [c])) = clientes /\
     Acc.proveedores_counter (kpi_locals (cfdis ++ [c])) = proveedores /\
     (comparable (map snd clientes) ->
      Kpis.top_clientes (kpis (cfdis ++ [c])) =
        Kpis.top_clientes (kpis cfdis)) /\
     (comparable (map snd proveedores) ->
      Kpis.top_proveedores (kpis (cfdis ++ [c])) =
        Kpis.top_proveedores (kpis cfdis)) /\
     Kpis.conteo_cfdi (kpis (cfdis ++ [c])) =
       Kpis.conteo_cfdi (kpis cfdis) /\
     Kpis.iva_trasladado (kpis (cfdis ++ [c])) =
       float_add (Kpis.iva_trasladado (kpis cfdis)) (CFDI.iva_trasladado c) /\
     Kpis.isr_retenido (kpis (cfdis ++ [c])) =
       float_add (Kpis.isr_retenido (kpis cfdis)) (CFDI.isr_retenido c) /\
     Kpis.iva_retenido (kpis (cfdis ++ [c])) =
       float_add (Kpis.iva_retenido (kpis cfdis)) (CFDI.iva_retenido c) /\
     Kpis.ieps (kpis (cfdis ++ [c])) =
       float_add (Kpis.ieps (kpis cfdis)) (CFDI.ieps c)).
Proof.
  cbv zeta. unfold compute_kpis, kpi_locals.
  split; [|split; [|split; [|split; [|split; [|split]]]]].
  - rewrite kpi_loop_from. cbn. auto.
  - rewrite kpi_loop_from. cbn. auto.
  - rewrite kpi_loop_from.
    cbn [Kpis.ingresos_por_mes Kpis.egresos_por_mes Acc.ingresos_por_mes
         Acc.egresos_por_mes Acc.init].
    split; apply (sums_of_by_key month_of).
  - rewrite kpi_loop_from.
    cbn [Acc.clientes_counter Acc.proveedores_counter Acc.init].
    split; [apply (sums_of_by_key CFDI.receptor_rfc)
           |apply (sums_of_by_key CFDI.emisor_rfc)].
  - rewrite kpi_loop_from.
    cbn [Kpis.top_clientes Acc.clientes_counter Acc.init].
    intros Hc. apply firstn_sorted_desc_ranks; [|exact Hc].
    apply (sums_by_key CFDI.receptor_rfc).
  - rewrite kpi_loop_from.
    cbn [Kpis.top_proveedores Acc.proveedores_counter Acc.init].
    intros Hc. apply firstn_sorted_desc_ranks; [|exact Hc].
    apply (sums_by_key CFDI.emisor_rfc).
  - intros c Hi He. rewrite !kpi_loop_from. cbn.
    unfold count_label.
    rewrite !(filter_unlabelled "Ingresos" cfdis c Hi),
      !(filter_unlabelled "Egresos" cfdis c He).
    rewrite !map_app, !sum_from_app. cbn. repeat split.
Qed.

End GatingFacts.

(** ** Classifier: the form of the taxpayer id *)

Section ClassifierFactsMore.
Context {RT : PyRuntime}.

Lemma isspace_upper_char (c : ascii) :
  PyStr.isspace (PyStr.upper_char c) = PyStr.isspace c.
Proof. destruct c as [[] [] [] [] [] [] [] []]; reflexivity. Qed.

Lemma lstrip_upper (s : string) :
  PyStr.lstrip (PyStr.upper s) = PyStr.upper (PyStr.lstrip s).
Proof.
  induction s as [|c s IH]; cbn [PyStr.upper PyStr.lstrip]; [reflexivity|].
  rewrite isspace_upper_char. destruct (PyStr.isspace c); [exact IH|].
  reflexivity.
Qed.

Lemma rstrip_upper (s : string) :
  PyStr.rstrip (PyStr.upper s) = PyStr.upper (PyStr.rstrip s).
Proof.
  induction s as [|c s IH]; cbn [PyStr.upper PyStr.rstrip]; [reflexivity|].
  rewrite IH, isspace_upper_char.
  destruct (PyStr.rstrip s); cbn [PyStr.upper]; [|reflexivity].
  destruct (PyStr.isspace c); reflexivity.
Qed.

Lemma strip_upper (s : string) :
  PyStr.strip (PyStr.upper s) = PyStr.upper (PyStr.strip s).
Proof. unfold PyStr.strip. rewrite lstrip_upper, rstrip_upper. reflexivity. Qed.

Lemma rstrip_idempotent (s : string) :
  PyStr.rstrip (PyStr.rstrip s) = PyStr.rstrip s.
Proof.
  induction s as [|c s IH]; cbn [PyStr.rstrip]; [reflexivity|].
  destruct (PyStr.rstrip s) as [|d r] eqn:E.
  - destruct (PyStr.isspace c) eqn:Ec; cbn [PyStr.rstrip]; [reflexivity|].
    rewrite Ec. reflexivity.
  - cbn [PyStr.rstrip]. cbn [PyStr.rstrip] in IH. rewrite IH. reflexivity.
Qed.

Lemma lstrip_head (s : string) :
  PyStr.lstrip s = EmptyString \/
  exists (c : ascii) (t : string),
    PyStr.lstrip s = String c t /\ PyStr.isspace c = false.
Proof.
  induction s as [|c s IH]; cbn [PyStr.lstrip]; [auto|].
  destruct (PyStr.isspace c) eqn:E; [exact IH|]. right. eauto.
Qed.

Lemma strip_idempotent (s : string) :
  PyStr.strip (PyStr.strip s) = PyStr.strip s.
Proof.
  unfold PyStr.strip.
  assert (H : PyStr.lstrip (PyStr.rstrip (PyStr.lstrip s)) =
              PyStr.rstrip (PyStr.lstrip s)).
  { destruct (lstrip_head s) as [->|(c & t & -> & Hc)]; [reflexivity|].
    cbn [PyStr.rstrip].
    destruct (PyStr.rstrip t); [rewrite Hc|]; cbn [PyStr.lstrip];
      rewrite Hc; reflexivity. }
  rewrite H. apply rstrip_idempotent.
Qed.

Lemma normalize_idempotent (s : string) : normalize (normalize s) = normalize s.
Proof.
  unfold normalize.
  rewrite strip_upper, upper_idempotent, strip_idempotent. reflexivity.
Qed.

Lemma normalize_upper (s : string) : normalize (PyStr.upper s) = normalize s.
Proof. unfold normalize. rewrite strip_upper. apply upper_idempotent. Qed.

Lemma upper_blank (s : string) : (PyStr.upper s =? "") = (s =? "").
Proof. destruct s; reflexivity. Qed.

(** The label does not depend on the form in which the taxpayer id is
    given: uppercasing it changes nothing, whatever the id, and neither
    does trimming and uppercasing it, unless it is made of blanks
    only. *)
Theorem classify_rfc_form (c : CFDI.t) (u : string) :
  classify_cfdi (Some c) (Some (PyStr.upper u)) =
    classify_cfdi (Some c) (Some u) /\
  (normalize u <> "" ->
   classify_cfdi (Some c) (Some (normalize u)) =
     classify_cfdi (Some c) (Some u)).
Proof.
  rewrite !classify_cfdi_unfold.
  rewrite normalize_upper, normalize_idempotent, upper_blank.
  split; [reflexivity|]. intros Hn.
  apply String.eqb_neq in Hn. rewrite Hn.
  destruct (String.eqb_spec u "") as [->|_]; [|reflexivity].
  discriminate Hn.
Qed.

End ClassifierFactsMore.

(** ** Batch processor: where the records come from *)

Section ScannerOrigin.
Context {RT : PyRuntime}.
Variable etree_parse : string -> option Document.
Variable _collect_xml_files : list string -> list string.

Lemma run_loop_concepts (user_rfc : string) (total : nat)
  (files : list string) :
  forall (idx : nat) (st st' : Scan.t) (evs : list Event.t),
  run_loop etree_parse user_rfc total files idx st = (evs, Ok st') ->
  incl (Scan.concepts_all st) (Scan.concepts_all st').
Proof.
  induction files as [|f rest IH]; intros idx st st' evs H;
    cbn [run_loop] in H.
  - injection H as <- <-. apply incl_refl.
  - destruct (parse_cfdi etree_parse f) as [[cfdi concepts]|ex];
      [|discriminate].
    destruct (run_loop etree_parse user_rfc total rest (S idx) _)
      as [evs' [st2|]] eqn:Hrec; [|discriminate].
    injection H as <- <-. apply IH in Hrec.
    eapply incl_tran; [|exact Hrec].
    unfold scan_file. destruct cfdi as [c|]; [|apply incl_refl].
    destruct (seen _ _); [apply incl_refl|].
    cbn [Scan.concepts_all]. apply incl_appl, incl_refl.
Qed.

(** Each record the loop adds is delivered for one of its files. *)
Lemma run_loop_origin (user_rfc : string) (total : nat)
  (files : list string) :
  forall (idx : nat) (st st' : Scan.t) (evs : list Event.t),
  run_loop etree_parse user_rfc total files idx st = (evs, Ok st') ->
  scan_inv user_rfc st ->
  forall c' : CFDI.t, In c' (Scan.cfdis st') ->
  In c' (Scan.cfdis st) \/
  (~ In (CFDI.uuid c') (Scan.uuids_seen st) /\
   delivered_for etree_parse user_rfc files (Scan.concepts_all st') c').
Proof.
  induction files as [|f rest IH]; intros idx st st' evs H Hinv c' Hin;
    cbn [run_loop] in H.
  - injection H as <- <-. left. exact Hin.
  - destruct (parse_cfdi etree_parse f) as [[cfdi concepts]|ex] eqn:Hp;
      [|discriminate].
    destruct (scan_file_inv user_rfc idx st cfdi concepts Hinv
                (parse_cfdi_items_uuid etree_parse f cfdi concepts Hp))
      as (Hinv1 & _ & Hincl1 & Hseen1).
    cbv zeta in Hinv1, Hincl1, Hseen1.
    destruct (run_loop etree_parse user_rfc total rest (S idx) _)
      as [evs' [st2|]] eqn:Hrec; [|discriminate].
    injection H as <- <-.
    pose proof (run_loop_concepts _ _ _ _ _ _ _ Hrec) as Hcon.
    destruct (IH _ _ _ _ Hrec Hinv1 c' Hin) as [Hold|[Hnew Hdel]].
    + (* in the records after [f] *)
      unfold scan_file in Hold, Hcon. destruct cfdi as [c|];
        [|left; exact Hold].
      destruct (seen (Scan.uuids_seen st) (CFDI.uuid c)) eqn:Es;
        [left; exact Hold|].
      cbn [Scan.cfdis Scan.concepts_all] in Hold, Hcon.
      apply in_app_or in Hold as [Hold|[<-|[]]]; [left; exact Hold|].
      right. split.
      * change (CFDI.uuid (CFDI.set_clasificacion c _)) with (CFDI.uuid c).
        intros Hs. apply seen_In in Hs. congruence.
      * exists [], f, rest, c, concepts. cbn [app].
        repeat split; try reflexivity; try exact Hp.
        -- intros g c2 i2 [].
        -- intros it Hit. apply Hcon, in_or_app. right. exact Hit.
    + right. split; [intros Hs; apply Hnew, Hincl1, Hs|].
      destruct Hdel as (pre & g & post & c & items & -> & Hg & -> & Hpre & Hit).
      exists (f :: pre), g, post, c, items. cbn [app].
      repeat split; try reflexivity; try assumption.
      intros h c2 i2 [<-|Hh] Hh2; [|exact (Hpre _ _ _ Hh Hh2)].
      intros E. apply Hnew. unfold relabel.
      change (CFDI.uuid (CFDI.set_clasificacion c _)) with (CFDI.uuid c).
      rewrite <- E. apply (Hseen1 c2). congruence.
Qed.

(** Where the records of a finished run come from: every file accepted
    by the parser has the UUID of its record among those delivered, and
    every record delivered is the relabelled record of the first listed
    file that carries its UUID, whose line items are delivered too. *)
Theorem run_records_of_files (paths : list string) (user_rfc : string)
  (evs : list Event.t) (cfdis : list CFDI.t) (concepts : list Concepto.t) :
  _run etree_parse _collect_xml_files paths user_rfc =
    (evs ++ [Event.finished cfdis concepts], None) ->
  (forall (f : string) (c : CFDI.t) (items : list Concepto.t),
     In f (_collect_xml_files paths) ->
     parse_cfdi etree_parse f = Ok (Some c, items) ->
     In (CFDI.uuid c) (map CFDI.uuid cfdis)) /\
  Forall (delivered_for etree_parse user_rfc (_collect_xml_files paths)
            concepts) cfdis.
Proof.
  intros H.
  apply (run_finished etree_parse _collect_xml_files) in H
    as (st' & Hrun & -> & ->).
  split.
  - intros f c items Hf Hp.
    pose proof (run_loop_state etree_parse _ _ _ _ _ _ _ Hrun
                  (scan_inv_init user_rfc))
      as ((Hseen & _) & _ & _ & _ & Hall).
    rewrite Forall_forall in Hall. specialize (Hall f Hf).
    unfold handled in Hall. rewrite Hp in Hall. rewrite <- Hseen.
    exact Hall.
  - apply Forall_forall. intros c' Hin.
    destruct (run_loop_origin _ _ _ _ _ _ _ Hrun (scan_inv_init user_rfc)
                c' Hin) as [[]|[_ Hdel]].
    exact Hdel.
Qed.

End ScannerOrigin.

(** ** Indicators: ties in the rankings *)

Section RankingTies.
Context {RT : PyRuntime}.

Lemma before_In_r {A : Type} (x y : A) (l : list A) :
  before x y l -> In y l.
Proof. induction 1; [right; assumption|right; assumption]. Qed.

Lemma before_app_NoDup {A : Type} (x y : A) (a b : list A) :
  NoDup (a ++ b) -> before x y (a ++ b) -> In y a -> before x y a.
Proof.
  induction a as [|h a IH]; cbn [app]; intros Hnd Hb Hy; [destruct Hy|].
  apply NoDup_cons_iff in Hnd as [Hh Hnd].
  inversion Hb as [l Hin|h' l Hb']; subst.
  - destruct Hy as [->|Hy]; [contradiction|]. constructor. exact Hy.
  - destruct Hy as [->|Hy].
    + apply before_In_r in Hb'. contradiction.
    + apply before_later. apply IH; assumption.
Qed.

Lemma insert_desc_before_old (x a b : string * float)
  (l : list (string * float)) :
  before a b l -> before a b (insert_desc x l).
Proof.
  induction 1 as [l Hin|h l Hb IH]; cbn [insert_desc].
  - destruct (float_lt (snd x) (snd a)).
    + constructor.
      apply (Permutation_in _ (Permutation_sym (insert_desc_perm x l))).
      right. exact Hin.
    + apply before_later. constructor. exact Hin.
  - destruct (float_lt (snd x) (snd h)).
    + apply before_later. exact IH.
    + apply before_later, before_later. exact Hb.
Qed.

Lemma insert_desc_before_new (x y : string * float)
  (l : list (string * float)) :
  In y l -> not_below x y -> before x y (insert_desc x l).
Proof.
  unfold not_below. induction l as [|h l IH]; intros Hin Hxy; [destruct Hin|].
  cbn [insert_desc]. destruct (float_lt (snd x) (snd h)) eqn:E.
  - destruct Hin as [->|Hin]; [congruence|].
    apply before_later. apply IH; assumption.
  - constructor. exact Hin.
Qed.

(** The sort is stable. *)
Lemma sorted_desc_stable (x y : string * float) (l : list (string * float)) :
  before x y l -> not_below x y -> before x y (sorted_desc l).
Proof.
  intros Hb Hxy. induction Hb as [l Hin|h l Hb IH]; cbn;
    fold (sorted_desc l).
  - apply insert_desc_before_new; [|exact Hxy].
    apply (Permutation_in _ (Permutation_sym (sorted_desc_perm l))).
    exact Hin.
  - apply insert_desc_before_old. exact IH.
Qed.

Lemma firstn_sorted_desc_ties (d : dict string float)
  (x y : string * float) :
  NoDup (keys d) ->
  before x y d -> not_below x y ->
  In y (firstn 5 (sorted_desc d)) ->
  before x y (firstn 5 (sorted_desc d)).
Proof.
  intros Hnd Hb Hxy Hy.
  apply (before_app_NoDup _ _ _ (skipn 5 (sorted_desc d))); [| |exact Hy].
  - rewrite firstn_skipn.
    eapply Permutation_NoDup; [symmetry; apply sorted_desc_perm|].
    apply (NoDup_map_inv fst). exact Hnd.
  - rewrite firstn_skipn. apply sorted_desc_stable; assumption.
Qed.

(** The keys of a counter: the keys filed, in the order of their first
    appearance. *)
Lemma keys_by_key (key : CFDI.t -> string) (l : list CFDI.t) :
  keys (fold_left (fun d c => dd_add d (key c) (CFDI.total c)) l []) =
  first_seen (map key l).
Proof.
  unfold first_seen.
  change (@nil string) with (keys (@nil (string * float))) at 2.
  generalize (@nil (string * float)).
  induction l as [|c l IH]; intros d; cbn [fold_left map]; [reflexivity|].
  rewrite IH. unfold dd_add. rewrite keys_set. reflexivity.
Qed.

(** Ties in the rankings of [compute_kpis] go to the tax-id that appears
    first, when the party totals are numbers that [<] orders (which is
    when a stable sort has one possible result): the counters hold the
    tax-ids in the order of their first appearance among the records of
    their label, and an entry that comes before another in its counter
    and is not below it also comes before it in the ranking, if the
    other is ranked at all. *)
Theorem compute_kpis_ranking_ties (cfdis : list CFDI.t)
  (invalid_count duplicates_count cfdi33_count : nat) :
  let k := compute_kpis cfdis invalid_count duplicates_count cfdi33_count in
  let ingresos := filter (labelled "Ingresos") cfdis in
  let egresos := filter (labelled "Egresos") cfdis in
  comparable (map snd (by_party CFDI.receptor_rfc ingresos)) ->
  comparable (map snd (by_party CFDI.emisor_rfc egresos)) ->
  (keys (by_party CFDI.receptor_rfc ingresos) =
     first_seen (map CFDI.receptor_rfc ingresos) /\
   forall x y : string * float,
     before x y (by_party CFDI.receptor_rfc ingresos) ->
     not_below x y ->
     In y (Kpis.top_clientes k) -> before x y (Kpis.top_clientes k)) /\
  (keys (by_party CFDI.emisor_rfc egresos) =
     first_seen (map CFDI.emisor_rfc egresos) /\
   forall x y : string * float,
     before x y (by_party CFDI.emisor_rfc egresos) ->
     not_below x y ->
     In y (Kpis.top_proveedores k) -> before x y (Kpis.top_proveedores k)).
Proof.
  cbv zeta. intros _ _. unfold compute_kpis. rewrite kpi_loop_from.
  cbn [Kpis.top_clientes Kpis.top_proveedores Acc.clientes_counter
       Acc.proveedores_counter Acc.init].
  fold (by_party CFDI.receptor_rfc (filter (labelled "Ingresos") cfdis)).
  fold (by_party CFDI.emisor_rfc (filter (labelled "Egresos") cfdis)).
  split; (split; [apply keys_by_key|]); intros x y Hb Hxy Hy;
    (apply firstn_sorted_desc_ties; [|assumption..]).
  - apply (sums_by_key CFDI.receptor_rfc).
  - apply (sums_by_key CFDI.emisor_rfc).
Qed.

End RankingTies.

(** ** Batch processor: a file on which the parser raises *)

Section ScannerErrors.
Context {RT : PyRuntime}.
Variable etree_parse : string -> option Document.
Variable _collect_xml_files : list string -> list string.

(** The run stops at the first file on which [parse_cfdi] raises: the
    files before it get their progress signals, numbered from 1, then
    the exception ends the run; no completion signal is emitted, and
    the records collected so far are not delivered. *)
Theorem run_stops_at_first_error (paths : list string) (user_rfc : string)
  (pre : list string) (f : string) (post : list string) (ex : exn) :
  _collect_xml_files paths = pre ++ f :: post ->
  (forall g : string, In g pre ->
     exists r, parse_cfdi etree_parse g = Ok r) ->
  parse_cfdi etree_parse f = Raise ex ->
  exists evs : list Event.t,
    _run etree_parse _collect_xml_files paths user_rfc = (evs, Some ex) /\
    List.length evs = List.length pre /\
    numbered 1 (List.length (_collect_xml_files paths)) evs /\
    Forall (fun e => Event.is_progress e = true) evs.
Proof.
  intros Hfiles Hpre Hf. unfold _run. rewrite Hfiles.
  set (n := List.length (pre ++ f :: post)).
  rewrite run_loop_app.
  destruct (run_loop_returns etree_parse user_rfc n pre Hpre 1 Scan.init)
    as (e1 & st1 & Hrun).
  rewrite Hrun. cbn [run_loop]. rewrite Hf.
  exists e1. rewrite app_nil_r. split; [reflexivity|].
  apply (run_loop_trace etree_parse _collect_xml_files) in Hrun
    as (Hnum & Hfol & _ & Hlen).
  repeat split; try assumption.
  eapply Forall_impl; [|exact Hfol]. intros [] Hp; [reflexivity|destruct Hp].
Qed.

End ScannerErrors.

(** ** Further runs on the sample documents *)

Section ComparableCheck.
Context {RT : PyRuntime}.

Lemma comparableb_sound (vals : list float) :
  comparableb vals = true -> comparable vals.
Proof.
  unfold comparableb, comparable. intros H.
  rewrite forallb_forall in H. split.
  - intros a b Ha Hb Hab. specialize (H a Ha).
    rewrite forallb_forall in H. specialize (H b Hb).
    apply andb_true_iff in H as [H _]. rewrite Hab in H. cbn in H.
    apply negb_true_iff in H. exact H.
  - intros a b c Ha Hb Hc Hab Hbc. specialize (H a Ha).
    rewrite forallb_forall in H. specialize (H b Hb).
    apply andb_true_iff in H as [_ H].
    rewrite forallb_forall in H. specialize (H c Hc).
    rewrite Hab, Hbc in H. cbn in H. apply negb_true_iff in H. exact H.
Qed.

End ComparableCheck.

Section RunsMore.


(** The document in no namespace, which has no [Moneda] attribute: its
    record gets the currency "MXN" and no warning.  The legacy invoice
    of the batch: its record carries the warning. *)
Lemma parse_cfdi_record_invariants_witness :
  (CFDI.uuid Plain.record <> "" /\
   CFDI.tipo Plain.record <> "P" /\
   PyStr.upper (CFDI.tipo Plain.record) = CFDI.tipo Plain.record /\
   CFDI.moneda Plain.record = "MXN" /\
   CFDI.moneda Plain.record <> "" /\
   CFDI.clasificacion Plain.record = "No clasificado" /\
   CFDI.warnings Plain.record = []) /\
  CFDI.warnings Batch.record_antiguo = [warning_33].
Proof.
  split.
  - apply (parse_cfdi_record_invariants Plain.files "plano.xml"
             Plain.comprobante Plain.record Plain.items); reflexivity.
  - apply (parse_cfdi_record_invariants Batch.files "antiguo.xml"
             Batch.antiguo Batch.record_antiguo Batch.items_antiguo);
      reflexivity.
Defined.

(** The credit note of the batch is not classified for its issuer. *)
Lemma classify_parsed_other_type_witness :
  classify_cfdi (Some Batch.record_nota) (Some "AAA010101AAA") =
    "No clasificado".
Proof.
  apply (classify_parsed_other_type Batch.files "nota.xml" Batch.record_nota
           Batch.items_nota (Some "AAA010101AAA")).
  - reflexivity.
  - discriminate.
Defined.

(** The line item of the document of the test. *)
Lemma parse_cfdi_items_of_nodes_witness :
  Forall2 (item_of_node (build_nsmap (root_nsmap Sample.cfdi_40))
             (CFDI.uuid Sample.record))
          (line_items (build_nsmap (root_nsmap Sample.cfdi_40))
             (getroot Sample.cfdi_40))
          Sample.items.
Proof.
  apply (parse_cfdi_items_of_nodes Sample.files "cfdi.xml" Sample.cfdi_40
           Sample.record Sample.items); reflexivity.
Defined.

Lemma run_no_duplicate_uuid_witness : NoDup (map CFDI.uuid Batch.cfdis).
Proof.
  apply (run_no_duplicate_uuid Batch.files Sample.listed Batch.paths
           Batch.rfc Batch.evs Batch.cfdis Batch.concepts).
  reflexivity.
Defined.

Lemma run_counters_account_witness :
  (List.length (Sample.listed Batch.paths) = 0 /\ Batch.evs = [] /\
   Batch.cfdis = [] /\ Batch.concepts = []) \/
  (exists (evs0 : list Event.t) (inv dup c33 : nat),
     Batch.evs =
       evs0 ++ [Event.progress (List.length (Sample.listed Batch.paths))
                  inv dup c33 (List.length (Sample.listed Batch.paths))] /\
     inv + dup + List.length Batch.cfdis =
       List.length (Sample.listed Batch.paths) /\
     c33 = List.length (filter legacy Batch.cfdis)).
Proof.
  apply (run_counters_account Batch.files Sample.listed Batch.paths
           Batch.rfc Batch.evs Batch.cfdis Batch.concepts).
  reflexivity.
Defined.

Lemma run_labels_witness :
  Forall (fun c => CFDI.clasificacion c =
                   classify_cfdi (Some c) (Some Batch.rfc)) Batch.cfdis.
Proof.
  apply (run_labels Batch.files Sample.listed Batch.paths Batch.rfc
           Batch.evs Batch.cfdis Batch.concepts).
  reflexivity.
Defined.

(** The batch lists [enero.xml] twice: five records and five line
    items are delivered, one for each record. *)
Lemma run_line_items_owned_witness :
  List.length Batch.cfdis = 5 /\
  List.length Batch.concepts = 5 /\
  Forall (fun it => In (Concepto.uuid it) (map CFDI.uuid Batch.cfdis))
         Batch.concepts /\
  exists parts : list (list Concepto.t),
    Forall2 (items_with Batch.files Batch.rfc (Sample.listed Batch.paths))
            Batch.cfdis parts /\
    Batch.concepts = concat parts.
Proof.
  split; [reflexivity|]. split; [reflexivity|].
  apply (run_line_items_owned Batch.files Sample.listed Batch.paths
           Batch.rfc Batch.evs Batch.cfdis Batch.concepts).
  reflexivity.
Defined.

(** The batch listed with two of its files once more at the end. *)
Lemma run_repeated_files_witness :
  exists evs2 : list Event.t,
    _run Batch.files Sample.listed
         (Batch.paths ++ ["enero.xml"; "compra.xml"]) Batch.rfc =
      (evs2 ++ [Event.finished Batch.cfdis Batch.concepts], None) /\
    List.length evs2 = List.length Batch.evs + 2.
Proof.
  apply (run_repeated_files Batch.files Sample.listed Batch.paths
           (Batch.paths ++ ["enero.xml"; "compra.xml"])
           ["enero.xml"; "compra.xml"] Batch.rfc Batch.evs Batch.cfdis
           Batch.concepts).
  - reflexivity.
  - intros f [<-|[<-|[]]]; cbn; tauto.
  - reflexivity.
Defined.

Lemma run_records_of_files_witness :
  (forall (f : string) (c : CFDI.t) (items : list Concepto.t),
     In f (Sample.listed Batch.paths) ->
     parse_cfdi Batch.files f = Ok (Some c, items) ->
     In (CFDI.uuid c) (map CFDI.uuid Batch.cfdis)) /\
  Forall (delivered_for Batch.files Batch.rfc (Sample.listed Batch.paths)
            Batch.concepts) Batch.cfdis.
Proof.
  apply (run_records_of_files Batch.files Sample.listed Batch.paths
           Batch.rfc Batch.evs Batch.cfdis Batch.concepts).
  reflexivity.
Defined.


(** January and December of 2023. *)
Lemma month_key_chronological_witness :
  String.length (month_key (Some (mkDatetime 2023 1 31 12 0 0))) = 7 /\
  (String.ltb (month_key (Some (mkDatetime 2023 1 31 12 0 0)))
              (month_key (Some (mkDatetime 2023 12 1 0 0 0))) = true <->
   earlier_month (mkDatetime 2023 1 31 12 0 0)
                 (mkDatetime 2023 12 1 0 0 0)).
Proof.
  apply (month_key_chronological (mkDatetime 2023 1 31 12 0 0)
           (mkDatetime 2023 12 1 0 0 0));
    unfold valid_month, lt; cbn [year month];
    repeat split; apply Nat.leb_le; reflexivity.
Defined.

(** The timestamp of the test, as it stands, in UTC notation and with
    milliseconds. *)
Lemma parse_iso_datetime_suffix_witness :
  parse_iso_datetime "2023-01-31T12:00:00" =
    Some (mkDatetime 2023 1 31 12 0 0) /\
  parse_iso_datetime "2023-01-31T12:00:00Z" =
    Some (mkDatetime 2023 1 31 12 0 0) /\
  parse_iso_datetime "2023-01-31T12:00:00.123Z" =
    Some (mkDatetime 2023 1 31 12 0 0).
Proof.
  destruct (parse_iso_datetime_suffix "2023-01-31T12:00:00")
    as (H1 & H2 & H3); try reflexivity.
  split; [exact H1|]. split; [exact H2|]. exact (H3 "123Z").
Defined.

(** The taxpayer id in lowercase between blanks; and an id of two
    blanks, for which uppercasing changes nothing either. *)
Lemma classify_rfc_form_witness :
  classify_cfdi (Some (invoice "I" "AAA010101AAA" "BBB010101BBB"))
                (Some (PyStr.upper "  aaa010101aaa ")) =
    classify_cfdi (Some (invoice "I" "AAA010101AAA" "BBB010101BBB"))
                  (Some "  aaa010101aaa ") /\
  classify_cfdi (Some (invoice "I" "AAA010101AAA" "BBB010101BBB"))
                (Some (normalize "  aaa010101aaa ")) =
    classify_cfdi (Some (invoice "I" "AAA010101AAA" "BBB010101BBB"))
                  (Some "  aaa010101aaa ") /\
  classify_cfdi (Some (invoice "I" "" "BBB010101BBB"))
                (Some (PyStr.upper "  ")) =
    classify_cfdi (Some (invoice "I" "" "BBB010101BBB")) (Some "  ").
Proof.
  destruct (classify_rfc_form (invoice "I" "AAA010101AAA" "BBB010101BBB")
              "  aaa010101aaa ") as [Hupper Hnormal].
  split; [exact Hupper|]. split; [apply Hnormal; discriminate|].
  exact (proj1 (classify_rfc_form (invoice "I" "" "BBB010101BBB") "  ")).
Defined.

(** Three files, the second of which declares no namespace. *)
Lemma run_stops_at_first_error_witness :
  exists evs : list Event.t,
    _run Sample.files Sample.listed
         ["cfdi.xml"; "undeclared.xml"; "cfdi.xml"] "AAA010101AAA" =
      (evs, Some (SyntaxError "prefix 'cfdi' not found in prefix map")) /\
    List.length evs = 1 /\
    numbered 1 3 evs /\
    Forall (fun e => Event.is_progress e = true) evs.
Proof.
  apply (run_stops_at_first_error Sample.files Sample.listed
           ["cfdi.xml"; "undeclared.xml"; "cfdi.xml"] "AAA010101AAA"
           ["cfdi.xml"] "undeclared.xml" ["cfdi.xml"]).
  - reflexivity.
  - intros g [<-|[]]. eexists. reflexivity.
  - reflexivity.
Defined.

(** Two customers with the same total: BBB010101BBB, invoiced first,
    is ranked before CCC010101CCC. *)
Lemma compute_kpis_ranking_ties_witness :
  Kpis.top_clientes
    (compute_kpis
       [CFDI.set_clasificacion (invoice "I" "AAA010101AAA" "BBB010101BBB")
          "Ingresos";
        CFDI.set_clasificacion (invoice "I" "AAA010101AAA" "CCC010101CCC")
          "Ingresos"] 0 0 0) =
    [("BBB010101BBB", 0%float); ("CCC010101CCC", 0%float)] /\
  before ("BBB010101BBB", 0%float) ("CCC010101CCC", 0%float)
    (Kpis.top_clientes
       (compute_kpis
          [CFDI.set_clasificacion (invoice "I" "AAA010101AAA" "BBB010101BBB")
             "Ingresos";
           CFDI.set_clasificacion (invoice "I" "AAA010101AAA" "CCC010101CCC")
             "Ingresos"] 0 0 0)).
Proof.
  split; [reflexivity|].
  destruct (compute_kpis_ranking_ties
              [CFDI.set_clasificacion
                 (invoice "I" "AAA010101AAA" "BBB010101BBB") "Ingresos";
               CFDI.set_clasificacion
                 (invoice "I" "AAA010101AAA" "CCC010101CCC") "Ingresos"]
              0 0 0) as [[_ H] _].
  - apply comparableb_sound. reflexivity.
  - apply comparableb_sound. reflexivity.
  - apply H.
    + constructor. left. reflexivity.
    + reflexivity.
    + right. left. reflexivity.
Defined.

(** C7 (witness): the five records of the batch, and the unclassified
    record of the test added after them.  Income is 398.0 and its month
    buckets are those of the three invoices issued; BBB010101BBB, invoiced
    twice, has the counterparty sum 166.0; the added record changes no
    bucket and no total, and adds its transferred VAT of 32.0. *)
Lemma compute_kpis_gating_witness :
  Kpis.total_ingresos (compute_kpis Batch.cfdis 2 1 1) = 398%float /\
  Kpis.ingresos_por_mes (compute_kpis Batch.cfdis 2 1 1) =
    [("2023-01", 116%float); ("2023-02", 232%float);
     ("2022-12", 50%float)] /\
  Kpis.egresos_por_mes (compute_kpis Batch.cfdis 2 1 1) =
    [("2023-02", 58%float)] /\
  sums_of month_of (filter (labelled "Ingresos") Batch.cfdis)
    (Kpis.ingresos_por_mes (compute_kpis Batch.cfdis 2 1 1)) /\
  sums_of CFDI.receptor_rfc (filter (labelled "Ingresos") Batch.cfdis)
    [("BBB010101BBB", 166%float); ("CCC010101CCC", 232%float)] /\
  ranks [("BBB010101BBB", 166%float); ("CCC010101CCC", 232%float)]
    (Kpis.top_clientes (compute_kpis Batch.cfdis 2 1 1)) /\
  Kpis.total_ingresos
    (compute_kpis (Batch.cfdis ++ [Sample.record]) 2 1 1) = 398%float /\
  Kpis.ingresos_por_mes
    (compute_kpis (Batch.cfdis ++ [Sample.record]) 2 1 1) =
    [("2023-01", 116%float); ("2023-02", 232%float);
     ("2022-12", 50%float)] /\
  Kpis.conteo_cfdi
    (compute_kpis (Batch.cfdis ++ [Sample.record]) 2 1 1) = 4 /\
  Kpis.iva_trasladado
    (compute_kpis (Batch.cfdis ++ [Sample.record]) 2 1 1) = 32%float.
Proof.
  destruct (compute_kpis_gating Batch.cfdis 2 1 1)
    as (_ & _ & (Hmes & _) & (Hcli & _) & Hrank & _ & H).
  destruct (H Sample.record) as (Hi & _ & Hm & _ & _ & _ & _ & _ & Hn & Hv & _);
    [discriminate ..|].
  split; [reflexivity|]. split; [reflexivity|]. split; [reflexivity|].
  split; [exact Hmes|]. split; [exact Hcli|].
  split; [apply Hrank; apply comparableb_sound; reflexivity|].
  split; [rewrite Hi; reflexivity|]. split; [rewrite Hm; reflexivity|].
  split; [rewrite Hn; reflexivity|]. rewrite Hv. reflexivity.
Defined.

End RunsMore.
